(** * Surface and voxel-image generators of [theoretical_nn_training/generators.py]

    A shallow embedding of [SurfaceGenerator] and [VoxelImageGenerator].

    - Tensors are nested lists; element-wise torch operations are written
      with an explicit model of broadcasting.
    - Tensor elements are real numbers: [torch.float] arithmetic is read in
      exact arithmetic, [**] with a Python float exponent is [Rpower], [**]
      with an integer exponent is [pow], [torch.fmin] is [Rmin].  Rounding,
      infinities and NaN are outside this reading: where torch would give
      a non-finite value (a division by zero, a negative base under a
      fractional exponent) the model has the value of the total functions
      of the real numbers, and the theorems about values assume positive
      inputs.
    - Sizes (the resolution, the batch size) are natural numbers; the
      iterator's counters are integers.
    - Python objects that are shared and mutated (the configuration object)
      live in a store indexed by references; the generators are records that
      are passed and returned explicitly.
    - Random draws are inputs of [__next__]. *)

From Stdlib Require Import Reals Lra Lia List ZArith Bool PeanoNat.
Import ListNotations.

Open Scope R_scope.

(* ================================================================= *)
(** ** Exceptions and results *)

Inductive exn : Type :=
| StopIteration
| AttributeError
| IndexError
| RuntimeError
| ValueError.

Inductive result (A : Type) : Type :=
| Ok (a : A)
| Raise (e : exn).

Arguments Ok {A} a.
Arguments Raise {A} e.

Definition bind {A B : Type} (r : result A) (k : A -> result B) : result B :=
  match r with
  | Ok a => k a
  | Raise e => Raise e
  end.

Notation "x <- r ;; k" := (bind r (fun x => k))
  (at level 61, r at next level, right associativity).

(** [for x in l: f x] where the body may raise: the first exception ends
    the loop. *)
Fixpoint mapM {A B : Type} (f : A -> result B) (l : list A) : result (list B) :=
  match l with
  | [] => Ok []
  | a :: l' => b <- f a ;; bs <- mapM f l' ;; Ok (b :: bs)
  end.

(* ================================================================= *)
(** ** Tensors as nested lists, and torch broadcasting *)

Module Tensor.

Definition tensor1 (A : Type) := list A.
Definition tensor2 (A : Type) := list (list A).
Definition tensor3 (A : Type) := list (list (list A)).
Definition tensor4 (A : Type) := list (list (list (list A))).

(** Two sizes along one axis are compatible when they agree or one is 1;
    the broadcast size is then the one that is not 1. *)
Definition compat (a b : nat) : Prop := a = 1%nat \/ b = 1%nat \/ a = b.

Definition compatb (a b : nat) : bool :=
  (a =? 1)%nat || (b =? 1)%nat || (a =? b)%nat.

Definition blen (a b : nat) : nat := if (a =? 1)%nat then b else a.

(** The index read on an axis of size [len] for the output index [i]. *)
Definition bidx (len i : nat) : nat := if (len =? 1)%nat then 0%nat else i.

Fixpoint zip_with {A B C : Type} (f : A -> B -> C)
  (xs : list A) (ys : list B) : list C :=
  match xs, ys with
  | x :: xs', y :: ys' => f x y :: zip_with f xs' ys'
  | _, _ => []
  end.

(** One axis of a broadcasting binary operation.  An axis of size 1 is
    stretched over the other operand; otherwise the sizes agree and the
    operation is position-wise (torch rejects other sizes; the callers
    below only build compatible operands, see [compat]). *)
Definition bcast {A B C : Type} (f : A -> B -> C)
  (xs : list A) (ys : list B) : list C :=
  match xs, ys with
  | [x], _ => map (f x) ys
  | _, [y] => map (fun x => f x y) xs
  | _, _ => zip_with f xs ys
  end.

Definition bop3 {A B C : Type} (f : A -> B -> C)
  : tensor3 A -> tensor3 B -> tensor3 C :=
  bcast (bcast (bcast f)).

Definition uop3 {A B : Type} (f : A -> B) : tensor3 A -> tensor3 B :=
  map (map (map f)).

(** [t[b, p, w]] *)
Definition get3 {A : Type} (t : tensor3 A) (b p w : nat) : option A :=
  match nth_error t b with
  | Some m =>
      match nth_error m p with
      | Some r => nth_error r w
      | None => None
      end
  | None => None
  end.

Definition get4 {A : Type} (t : tensor4 A) (b p w e : nat) : option A :=
  match nth_error t b with
  | Some m => get3 m p w e
  | None => None
  end.

Definition shape2 {A : Type} (t : tensor2 A) (n1 n2 : nat) : Prop :=
  length t = n1 /\ Forall (fun r => length r = n2) t.

Definition shape3 {A : Type} (t : tensor3 A) (n1 n2 n3 : nat) : Prop :=
  length t = n1 /\ Forall (fun m => shape2 m n2 n3) t.

Definition shape4 {A : Type} (t : tensor4 A) (n1 n2 n3 n4 : nat) : Prop :=
  length t = n1 /\ Forall (fun m => shape3 m n2 n3 n4) t.

(** [tab n F] is the 1-d tensor [F 0, ..., F (n-1)]. *)
Definition tab {A : Type} (n : nat) (F : nat -> A) : list A :=
  map F (seq 0 n).

Definition tab3 {A : Type} (n1 n2 n3 : nat) (F : nat -> nat -> nat -> A)
  : tensor3 A :=
  tab n1 (fun i => tab n2 (fun j => tab n3 (fun k => F i j k))).

Definition tab4 {A : Type} (n1 n2 n3 n4 : nat)
  (F : nat -> nat -> nat -> nat -> A) : tensor4 A :=
  tab n1 (fun i => tab3 n2 n3 n4 (F i)).

(** Shapes used by the generators. *)

(** A sample of shape [(batch, 1, 1)]. *)
Definition of_batch {A : Type} (l : list A) : tensor3 A :=
  map (fun x => [[x]]) l.

(** [tensor.reshape((1, P, 1))] of a 1-d tensor of length [P]. *)
Definition of_axis1 {A : Type} (l : list A) : tensor3 A :=
  [map (fun x => [x]) l].

(** [tensor.reshape((1, 1, W))] of a 1-d tensor of length [W]. *)
Definition of_axis2 {A : Type} (l : list A) : tensor3 A :=
  [[l]].

(** [tensor.flatten()] of a 3-d tensor (row-major). *)
Definition flatten3 {A : Type} (t : tensor3 A) : list A :=
  concat (map (@concat A) t).

(** Slices [t[:-1]] and [t[1:]] along the first axis. *)
Definition init_slice {A : Type} (l : list A) : list A := removelast l.
Definition tail_slice {A : Type} (l : list A) : list A := tl l.

End Tensor.

Import Tensor.

(* ================================================================= *)
(** ** Scalars *)

Definition Rltb (a b : R) : bool := if Rlt_dec a b then true else false.
Definition Reqb (a b : R) : bool := if Req_dec_T a b then true else false.

(** Element-wise tensor arithmetic.  A Python scalar operand is applied to
    every element. *)
Definition tmul : tensor3 R -> tensor3 R -> tensor3 R := bop3 Rmult.
Definition tdiv : tensor3 R -> tensor3 R -> tensor3 R := bop3 Rdiv.
Definition tfmin : tensor3 R -> tensor3 R -> tensor3 R := bop3 Rmin.
(** [t ** c] for a Python float [c] *)
Definition tpow (t : tensor3 R) (c : R) : tensor3 R := uop3 (fun x => Rpower x c) t.
(** [t ** n] for a Python int [n] *)
Definition tpowi (t : tensor3 R) (n : nat) : tensor3 R := uop3 (fun x => x ^ n) t.
(** [c + t], [c * t] and [c / t] for a Python number [c] *)
Definition sadd (c : R) (t : tensor3 R) : tensor3 R := uop3 (fun x => c + x) t.
Definition smul (c : R) (t : tensor3 R) : tensor3 R := uop3 (fun x => c * x) t.
Definition sdiv (c : R) (t : tensor3 R) : tensor3 R := uop3 (fun x => c / x) t.
(** [t * c] and [t + c] *)
Definition tmuls (t : tensor3 R) (c : R) : tensor3 R := uop3 (fun x => x * c) t.
Definition tadds (t : tensor3 R) (c : R) : tensor3 R := uop3 (fun x => x + c) t.

(* ================================================================= *)
(** ** numpy.geomspace

    The library function used to build the axes, after numpy's definition:
    a zero endpoint is rejected, two negative endpoints are negated and the
    sign restored, the interior points are [10 ** linspace(log10 start,
    log10 stop, num)] and the first and last entries are overwritten with
    the endpoints. *)

Module np.

Definition log10 (x : R) : R := ln x / ln 10.

Definition set_first {A : Type} (x : A) (l : list A) : list A :=
  match l with
  | [] => []
  | _ :: l' => x :: l'
  end.

Definition set_last {A : Type} (x : A) (l : list A) : list A :=
  match l with
  | [] => []
  | _ :: _ => removelast l ++ [x]
  end.

Definition linspace (start stop : R) (num : nat) : list R :=
  let step := (stop - start) / INR (num - 1) in
  let y := tab num (fun i => INR i * step + start) in
  if (1 <? num)%nat then set_last stop y else y.

Definition logspace (start stop : R) (num : nat) : list R :=
  map (fun y => Rpower 10 y) (linspace start stop num).

Definition geomspace (start stop : R) (num : nat) : result (list R) :=
  if Reqb start 0 || Reqb stop 0 then Raise ValueError
  else
    let both_negative := Rltb start 0 && Rltb stop 0 in
    let start' := if both_negative then - start else start in
    let stop' := if both_negative then - stop else stop in
    let out_sign := if both_negative then -1 else 1 in
    let result := logspace (log10 start') (log10 stop') num in
    let result := if (0 <? num)%nat then set_first start' result else result in
    let result := if (1 <? num)%nat then set_last stop' result else result in
    Ok (map (fun x => out_sign * x) result).

End np.

(** The entry of index [i] of [geomspace start stop num] for positive
    endpoints (see [geomspace_positive] below). *)
Definition geomspace_entry (start stop : R) (num i : nat) : R :=
  if (1 <? num)%nat && (i =? num - 1)%nat then stop
  else if (i =? 0)%nat then start
  else Rpower 10
         (INR i * ((np.log10 stop - np.log10 start) / INR (num - 1)) + np.log10 start).

(* ================================================================= *)
(** ** The configuration: [data_processing.Mode], [Range], [Resolution]
       and the [Config] protocol *)

(** Modelled from the spec: [data_processing.Mode] is the closed
    enumeration of the three generation modes. *)
Inductive Mode : Type := GOOD | THETA | MIXED.

(** Modelled from the spec: [data_processing.Range] holds the [min] and
    [max] bounds of a quantity. *)
Module Range.
Record t : Type := { min : R; max : R }.
End Range.

(** Modelled from the spec: [data_processing.Resolution] holds the grid
    point counts along the three axes; they are tensor dimensions. *)
Module Resolution.
Record t : Type := { phi : nat; Nw : nat; eta_sp : nat }.
End Resolution.

(** [torch.device]: a placement token, opaque to the generators. *)
Inductive torch_device : Type := cpu | cuda (ordinal : nat).

Module Config.
Record t : Type := {
  device : torch_device;
  resolution : Resolution.t;
  mode : Mode;
  phi_range : Range.t;
  nw_range : Range.t;
  eta_sp_range : Range.t;
  bg_range : Range.t;
  bth_range : Range.t;
  pe_range : Range.t;
  batch_size : nat
}.

(** [config.resolution = r] *)
Definition set_resolution (c : t) (r : Resolution.t) : t :=
  {| device := device c;
     resolution := r;
     mode := mode c;
     phi_range := phi_range c;
     nw_range := nw_range c;
     eta_sp_range := eta_sp_range c;
     bg_range := bg_range c;
     bth_range := bth_range c;
     pe_range := pe_range c;
     batch_size := batch_size c |}.
End Config.

(** Configuration objects are shared between the caller and the generators
    built from them: they live in a store and are named by reference. *)
Definition ref := nat.
Definition store := ref -> Config.t.

Definition store_set (st : store) (r : ref) (c : Config.t) : store :=
  fun r' => if (r' =? r)%nat then c else st r'.

(** The functions of [theoretical_nn_training.data_processing] that the
    generators call.  Both act element-wise on a tensor; the generators
    are verified for any such pair of functions. *)
Class data_processing : Type := {
  preprocess_eta_sp : R -> Range.t -> R;
  normalize_feature : R -> Range.t -> R
}.

(** Modelled from the spec: [data.feature_distribution] is a pluggable
    sampler exposing [sample(shape)].  The object remembers the range it
    was built from; what it draws is an input of [__next__] (see [draws]). *)
Record distribution : Type := { support : Range.t }.

Definition feature_distribution (r : Range.t) (d : torch_device)
  : distribution :=
  {| support := r |}.

(** The random draws consumed by one call of [__next__]: the [b]-th
    element of each sampled batch, the [b]-th element of [torch.rand], and
    the raw integers behind [torch.randint] at position [(b, k)]. *)
Record draws : Type := {
  bg_sample : nat -> R;
  bth_sample : nat -> R;
  pe_sample : nat -> R;
  rand : nat -> R;
  randint_raw : nat -> nat -> nat
}.

(** [distribution.sample(torch.Size((batch_size, 1, 1)))] *)
Definition sample (s : nat -> R) (batch_size : nat) : tensor3 R :=
  of_batch (tab batch_size s).

(** [torch.rand(batch_size, 1, 1)] *)
Definition torch_rand (s : nat -> R) (batch_size : nat) : tensor3 R :=
  of_batch (tab batch_size s).

(** [torch.randint(0, high, (n, m))]: every entry lies in [[0, high)];
    an empty interval is rejected. *)
Definition torch_randint (raw : nat -> nat -> nat) (high n m : nat)
  : result (list (list nat)) :=
  if (high =? 0)%nat then Raise RuntimeError
  else Ok (tab n (fun b => tab m (fun k => (raw b k mod high)%nat))).

(** [torch.stack(cols, dim=1)] of 1-d tensors of one length. *)
Definition stack_dim1 (cols : list (list R)) : tensor2 R :=
  tab (length (hd [] cols)) (fun b => map (fun c => nth b c 0) cols).

(* ================================================================= *)
(** ** class SurfaceGenerator *)

Module SurfaceGenerator.

Record t : Type := {
  phi : tensor3 R;                          (* shape (1, P, 1) *)
  Nw : tensor3 R;                           (* shape (1, 1, W) *)
  bg_distribution : option distribution;    (* unset in THETA mode *)
  bth_distribution : option distribution;   (* unset in GOOD mode *)
  pe_distribution : distribution;
  generation_function : Mode;               (* the bound method selected *)
  config : ref;
  strip_nw : bool;
  num_batches : option Z;                   (* unset before __call__ *)
  _index : option Z                         (* unset before __iter__ *)
}.

Definition set_num_batches (self : t) (n : Z) : t :=
  {| phi := phi self; Nw := Nw self;
     bg_distribution := bg_distribution self;
     bth_distribution := bth_distribution self;
     pe_distribution := pe_distribution self;
     generation_function := generation_function self;
     config := config self; strip_nw := strip_nw self;
     num_batches := Some n; _index := _index self |}.

Definition set_index (self : t) (i : Z) : t :=
  {| phi := phi self; Nw := Nw self;
     bg_distribution := bg_distribution self;
     bth_distribution := bth_distribution self;
     pe_distribution := pe_distribution self;
     generation_function := generation_function self;
     config := config self; strip_nw := strip_nw self;
     num_batches := num_batches self; _index := Some i |}.

Definition __init__ (st : store) (config : ref) (strip_nw : bool) : result t :=
  let c := st config in
  phi <- np.geomspace
           (Range.min (Config.phi_range c))
           (Range.max (Config.phi_range c))
           (Resolution.phi (Config.resolution c)) ;;
  Nw <- np.geomspace
           (Range.min (Config.nw_range c))
           (Range.max (Config.nw_range c))
           (Resolution.Nw (Config.resolution c)) ;;
  Ok {| phi := of_axis1 phi;
        Nw := of_axis2 Nw;
        bg_distribution :=
          match Config.mode c with
          | THETA => None
          | _ => Some (feature_distribution (Config.bg_range c) (Config.device c))
          end;
        bth_distribution :=
          match Config.mode c with
          | GOOD => None
          | _ => Some (feature_distribution (Config.bth_range c) (Config.device c))
          end;
        pe_distribution := feature_distribution (Config.pe_range c) (Config.device c);
        generation_function :=
          match Config.mode c with
          | GOOD => GOOD
          | MIXED => MIXED
          | THETA => THETA
          end;
        config := config;
        strip_nw := strip_nw;
        num_batches := None;
        _index := None |}.

Definition __call__ (self : t) (num_batches : Z) : t :=
  set_num_batches self num_batches.

Definition __iter__ (self : t) : t :=
  set_index self 0.

(** *** The raw surfaces ([eta_sp] before [data.preprocess_eta_sp]) *)

Definition good_eta_sp (phi Nw Bg Pe : tensor3 R) : tensor3 R :=
  (* Number of repeat units per correlation blob *)
  let g := tdiv (tpow Bg (3 / 0.764)) (tpow phi (1 / 0.764)) in
  tmul
    (tmul Nw (sadd 1 (tpowi (tdiv (tdiv Nw (tpowi Pe 2)) g) 2)))
    (tfmin (sdiv 1 g) (tdiv phi (tpow Bg (1 / (1 - 0.588))))).

(** [Bth] of the mixed mode, from the uniform draw [u]. *)
Definition mixed_Bth (bth_range : Range.t) (u Bg : tensor3 R) : tensor3 R :=
  tadds
    (tmuls (tmul u (tpow Bg (1 / 0.824)))
           (Range.max bth_range - Range.min bth_range))
    (Range.min bth_range).

Definition mixed_g (phi Bg Bth : tensor3 R) : tensor3 R :=
  tfmin
    (tdiv (tpow Bg (3 / 0.764)) (tpow phi (1 / 0.764)))
    (tdiv (tpowi Bth 6) (tpowi phi 2)).

Definition mixed_Ne (phi Bg Bth Pe : tensor3 R) : tensor3 R :=
  let g := mixed_g phi Bg Bth in
  tmul (tpowi Pe 2)
    (tfmin
       (tfmin
          (tmul (tdiv (tpow Bth (0.944 / 0.528)) (tpow Bg (2 / 0.528))) g)
          (tmul (tpowi Bth 2) (tpow phi (-4 / 3))))
       g).

Definition mixed_eta_sp (phi Nw Bg Bth Pe : tensor3 R) : tensor3 R :=
  let g := mixed_g phi Bg Bth in
  let Ne := mixed_Ne phi Bg Bth Pe in
  tmul
    (tmul Nw (sadd 1 (tpowi (tdiv Nw Ne) 2)))
    (tfmin (sdiv 1 g) (tdiv phi (tpowi Bth 2))).

Definition theta_g (phi Bth : tensor3 R) : tensor3 R :=
  tdiv (tpowi Bth 6) (tpowi phi 2).

Definition theta_Ne (phi Bth Pe : tensor3 R) : tensor3 R :=
  let g := theta_g phi Bth in
  tmul (tpowi Pe 2)
    (tfmin (tmul (tpowi Bth 2) (tpow phi (-4 / 3))) g).

Definition theta_eta_sp (phi Nw Bth Pe : tensor3 R) : tensor3 R :=
  let g := theta_g phi Bth in
  let Ne := theta_Ne phi Bth Pe in
  tmul
    (tmul Nw (sadd 1 (tpowi (tdiv Nw Ne) 2)))
    (tfmin (sdiv 1 g) (tdiv phi (tpowi Bth 2))).

Section Generation.
Context {dp : data_processing}.

(** [data.preprocess_eta_sp(eta_sp, range)] on a 3-d tensor and
    [data.normalize_feature(x.flatten(), range)] on a sample. *)
Definition preprocess3 (eta_sp : tensor3 R) (r : Range.t) : tensor3 R :=
  uop3 (fun x => preprocess_eta_sp x r) eta_sp.

Definition normalize_flat (x : tensor3 R) (r : Range.t) : list R :=
  map (fun v => normalize_feature v r) (flatten3 x).

Definition _good_generation (st : store) (self : t) (d : draws)
  : result (tensor3 R * tensor2 R) :=
  let c := st (config self) in
  match bg_distribution self with
  | None => Raise AttributeError
  | Some _ =>
      let Bg := sample (bg_sample d) (Config.batch_size c) in
      let Pe := sample (pe_sample d) (Config.batch_size c) in
      let eta_sp := good_eta_sp (phi self) (Nw self) Bg Pe in
      let surfaces := preprocess3 eta_sp (Config.eta_sp_range c) in
      let features :=
        stack_dim1
          [ normalize_flat Bg (Config.bg_range c);
            normalize_flat Pe (Config.pe_range c) ] in
      Ok (surfaces, features)
  end.

Definition _mixed_generation (st : store) (self : t) (d : draws)
  : result (tensor3 R * tensor2 R) :=
  let c := st (config self) in
  match bg_distribution self with
  | None => Raise AttributeError
  | Some _ =>
      let Bg := sample (bg_sample d) (Config.batch_size c) in
      let Pe := sample (pe_sample d) (Config.batch_size c) in
      let Bth :=
        mixed_Bth (Config.bth_range c)
          (torch_rand (rand d) (Config.batch_size c)) Bg in
      let eta_sp := mixed_eta_sp (phi self) (Nw self) Bg Bth Pe in
      let surfaces := preprocess3 eta_sp (Config.eta_sp_range c) in
      let features :=
        stack_dim1
          [ normalize_flat Bg (Config.bg_range c);
            normalize_flat Bth (Config.bth_range c);
            normalize_flat Pe (Config.pe_range c) ] in
      Ok (surfaces, features)
  end.

Definition _theta_generation (st : store) (self : t) (d : draws)
  : result (tensor3 R * tensor2 R) :=
  let c := st (config self) in
  match bth_distribution self with
  | None => Raise AttributeError
  | Some _ =>
      let Bth := sample (bth_sample d) (Config.batch_size c) in
      let Pe := sample (pe_sample d) (Config.batch_size c) in
      let eta_sp := theta_eta_sp (phi self) (Nw self) Bth Pe in
      let surfaces := preprocess3 eta_sp (Config.eta_sp_range c) in
      let features :=
        stack_dim1
          [ normalize_flat Bth (Config.bth_range c);
            normalize_flat Pe (Config.pe_range c) ] in
      Ok (surfaces, features)
  end.

(** [self.generation_function()] *)
Definition call_generation_function (st : store) (self : t) (d : draws)
  : result (tensor3 R * tensor2 R) :=
  match generation_function self with
  | GOOD => _good_generation st self d
  | MIXED => _mixed_generation st self d
  | THETA => _theta_generation st self d
  end.

(** *** Stripping the Nw dimension *)

(** [to_keep_b[choices_b] = True] *)
Definition index_put_true (to_keep_b : list bool) (choices_b : list nat)
  : list bool :=
  fold_left
    (fun acc i => firstn i acc ++ match skipn i acc with
                                  | [] => []
                                  | _ :: rest => true :: rest
                                  end)
    choices_b to_keep_b.

(** [surface[mask] = 0]: a 1-d boolean mask indexes the first axis of
    [surface] and must have its length; the selected entries along that
    axis are filled with 0. *)
Definition masked_fill_0 (surface : tensor2 R) (mask : list bool)
  : result (tensor2 R) :=
  if (length mask =? length surface)%nat then
    Ok (zip_with
          (fun (entry : list R) (m : bool) =>
             if m then map (fun _ => 0) entry else entry)
          surface mask)
  else Raise IndexError.

(** The body of the loop over [zip(surfaces, to_keep, nw_index_choices)]. *)
Definition strip_one (surface : tensor2 R) (to_keep_b : list bool)
  (choices_b : list nat) : result (tensor2 R) :=
  let to_keep_b := index_put_true to_keep_b choices_b in
  masked_fill_0 surface (map negb to_keep_b).

Fixpoint strip_loop (surfaces : tensor3 R) (to_keep : list (list bool))
  (nw_index_choices : list (list nat)) : result (tensor3 R) :=
  match surfaces, to_keep, nw_index_choices with
  | surface :: surfaces', to_keep_b :: to_keep', choices_b :: choices' =>
      s <- strip_one surface to_keep_b choices_b ;;
      rest <- strip_loop surfaces' to_keep' choices' ;;
      Ok (s :: rest)
  | _, _, _ => Ok surfaces
  end.

Definition strip (c : Config.t) (d : draws) (surfaces : tensor3 R)
  : result (tensor3 R) :=
  nw_index_choices <-
    torch_randint (randint_raw d)
      (Resolution.Nw (Config.resolution c)) (Config.batch_size c) 8 ;;
  let to_keep :=
    repeat (repeat false (Resolution.Nw (Config.resolution c)))
           (Config.batch_size c) in
  strip_loop surfaces to_keep nw_index_choices.

Definition __next__ (st : store) (self : t) (d : draws)
  : t * result (tensor3 R * tensor2 R) :=
  match _index self, num_batches self with
  | Some i, Some n =>
      if (i >=? n)%Z then (self, Raise StopIteration)
      else
        let self := set_index self (i + 1) in
        (self,
         sf <- call_generation_function st self d ;;
         let (surfaces, features) := sf in
         if negb (strip_nw self) then Ok (surfaces, features)
         else
           surfaces <- strip (st (config self)) d surfaces ;;
           Ok (surfaces, features))
  | _, _ => (self, Raise AttributeError)
  end.

(** *** The [for] statement

    [for surfaces, features in self: ...] once [iter] has run: [__next__]
    is called until it raises.  [StopIteration] ends the loop normally; any
    other exception ends it and propagates (third component).  The result
    holds the generator as the loop leaves it and the pairs it was given.
    [rng k] are the draws of the [k]-th call of [__next__]; [None] means
    that [fuel] calls were not enough to reach the end. *)
Fixpoint for_loop (fuel : nat) (st : store) (self : t)
  (rng : nat -> draws) (k : nat)
  : option (t * list (tensor3 R * tensor2 R) * option exn) :=
  match fuel with
  | O => None
  | S fuel' =>
      let (self, r) := __next__ st self (rng k) in
      match r with
      | Raise StopIteration => Some (self, [], None)
      | Raise e => Some (self, [], Some e)
      | Ok item =>
          match for_loop fuel' st self rng (S k) with
          | Some (self, pairs, e) => Some (self, item :: pairs, e)
          | None => None
          end
      end
  end.

(** [for surfaces, features in self(num_batches): ...] *)
Definition for_in_call (fuel : nat) (st : store) (self : t)
  (num_batches : Z) (rng : nat -> draws) (k : nat)
  : option (t * list (tensor3 R * tensor2 R) * option exn) :=
  for_loop fuel st (__iter__ (__call__ self num_batches)) rng k.

(** What [__next__] returns once the index test has passed and the index
    has been incremented (none of it reads the index). *)
Definition next_batch (st : store) (self : t) (d : draws)
  : result (tensor3 R * tensor2 R) :=
  sf <- call_generation_function st self d ;;
  let (surfaces, features) := sf in
  if negb (strip_nw self) then Ok (surfaces, features)
  else
    surfaces <- strip (st (config self)) d surfaces ;;
    Ok (surfaces, features).

(** The generator produces a batch whatever the draws are. *)
Definition generates (st : store) (self : t) : Prop :=
  forall d, exists item, next_batch st self d = Ok item.

End Generation.

End SurfaceGenerator.

(* ================================================================= *)
(** ** The tensor computation of [VoxelImageGenerator.__next__]

    Written over any element type with a strict comparison, so that it can
    be run on integers as well as stated on reals. *)

Module Voxel.

Section Voxelize.
Variable A : Type.
Variable dflt : A.
Variable ltb : A -> A -> bool.

(** [t.reshape((b, p, w, 1))]: the row-major contents regrouped; the
    number of elements must be [b * p * w]. *)
Definition reshape_unit (t : tensor3 A) (b p w : nat) : result (tensor4 A) :=
  let flat := flatten3 t in
  if (length flat =? b * p * w)%nat then
    Ok (tab b (fun i => tab p (fun j => tab w (fun k =>
          [nth ((i * p + j) * w + k) flat dflt]))))
  else Raise RuntimeError.

(** [torch.tile(t, (1, 1, 1, reps))] *)
Definition tile_last (t : tensor4 A) (reps : nat) : tensor4 A :=
  map (map (map (fun r => concat (repeat r reps)))) t.

(** [t[:, :-1, :-1, :-1]] and [t[:, 1:, 1:, 1:]] *)
Definition lower_corner (t : tensor4 A) : tensor4 A :=
  map (fun m => map (fun r => map init_slice (init_slice r)) (init_slice m)) t.

Definition upper_corner (t : tensor4 A) : tensor4 A :=
  map (fun m => map (fun r => map tail_slice (tail_slice r)) (tail_slice m)) t.

(** [t < edges] and [t > edges] for a 1-d [edges] broadcast along the last
    axis of [t]. *)
Definition lt_last (t : tensor4 A) (edges : list A) : tensor4 bool :=
  map (map (map (fun row => bcast ltb row edges))) t.

Definition gt_last (t : tensor4 A) (edges : list A) : tensor4 bool :=
  map (map (map (fun row => bcast (fun s e => ltb e s) row edges))) t.

Definition logical_and (x y : tensor4 bool) : tensor4 bool :=
  bcast (bcast (bcast (bcast andb))) x y.

(** [.to(dtype=torch.int16)] *)
Definition to_int16 (t : tensor4 bool) : tensor4 Z :=
  map (map (map (map Z.b2z))) t.

(** The image computed from the surfaces of one batch; [batch], [P], [W]
    and [E] are [config.batch_size] and [config.resolution] as read when
    [__next__] runs. *)
Definition image (batch P W E : nat) (grid_values : list A)
  (surfaces : tensor3 A) : result (tensor4 Z) :=
  s <- reshape_unit surfaces batch P W ;;
  let surfaces := tile_last s E in
  if compatb (E - 1) (length grid_values - 1) then
    Ok (to_int16
          (logical_and
             (lt_last (lower_corner surfaces) (tail_slice grid_values))
             (gt_last (upper_corner surfaces) (init_slice grid_values))))
  else Raise RuntimeError.

End Voxelize.

End Voxel.

(* ================================================================= *)
(** ** class VoxelImageGenerator *)

Module VoxelImageGenerator.

Record t : Type := {
  config : ref;
  grid_values : list R;
  strip_nw : bool;
  surface_generator : SurfaceGenerator.t;
  num_batches : option Z;                   (* unset before __call__ *)
  (* unset before __iter__; once set it is the object [surface_generator]
     itself, which [iter] returns *)
  _surface_generator_iter : option unit
}.

Definition set_num_batches (self : t) (n : Z) : t :=
  {| config := config self; grid_values := grid_values self;
     strip_nw := strip_nw self;
     surface_generator := surface_generator self;
     num_batches := Some n;
     _surface_generator_iter := _surface_generator_iter self |}.

Definition set_surface_generator (self : t) (g : SurfaceGenerator.t) : t :=
  {| config := config self; grid_values := grid_values self;
     strip_nw := strip_nw self;
     surface_generator := g;
     num_batches := num_batches self;
     _surface_generator_iter := _surface_generator_iter self |}.

Definition set_iter (self : t) (g : SurfaceGenerator.t) : t :=
  {| config := config self; grid_values := grid_values self;
     strip_nw := strip_nw self;
     surface_generator := g;
     num_batches := num_batches self;
     _surface_generator_iter := Some tt |}.

Section Generation.
Context {dp : data_processing}.

(** The constructor assigns to [config.resolution] of the object it was
    given, so it returns the new store along with the generator. *)
Definition __init__ (st : store) (config : ref) (strip_nw : bool)
  : store * result t :=
  let c := st config in
  let st :=
    store_set st config
      (Config.set_resolution c
         {| Resolution.phi := Resolution.phi (Config.resolution c) + 1;
            Resolution.Nw := Resolution.Nw (Config.resolution c) + 1;
            Resolution.eta_sp := Resolution.eta_sp (Config.resolution c) + 1 |}) in
  let c := st config in
  (st,
   grid <- np.geomspace
             (Range.min (Config.eta_sp_range c))
             (Range.max (Config.eta_sp_range c))
             (Resolution.eta_sp (Config.resolution c)) ;;
   let grid_values :=
     map (fun x => preprocess_eta_sp x (Config.eta_sp_range c)) grid in
   surface_generator <- SurfaceGenerator.__init__ st config strip_nw ;;
   Ok {| config := config;
         grid_values := grid_values;
         strip_nw := strip_nw;
         surface_generator := surface_generator;
         num_batches := None;
         _surface_generator_iter := None |}).

Definition __call__ (self : t) (num_batches : Z) : t :=
  set_num_batches self num_batches.

Definition __iter__ (self : t) : result t :=
  match num_batches self with
  | None => Raise AttributeError
  | Some n =>
      Ok (set_iter self
            (SurfaceGenerator.__iter__
               (SurfaceGenerator.__call__ (surface_generator self) n)))
  end.

Definition __next__ (st : store) (self : t) (d : draws)
  : t * result (tensor4 Z * tensor2 R) :=
  match _surface_generator_iter self with
  | None => (self, Raise AttributeError)
  | Some _ =>
      let (g, r) := SurfaceGenerator.__next__ st (surface_generator self) d in
      let self := set_surface_generator self g in
      let c := st (config self) in
      (self,
       sf <- r ;;
       let (surfaces, features) := sf in
       image <- Voxel.image R 0 Rltb
                  (Config.batch_size c)
                  (Resolution.phi (Config.resolution c))
                  (Resolution.Nw (Config.resolution c))
                  (Resolution.eta_sp (Config.resolution c))
                  (grid_values self) surfaces ;;
       Ok (image, features))
  end.

(** *** The [for] statement

    [for image, features in self: ...] once [iter] has run, as for
    [SurfaceGenerator.for_loop]: the generator as the loop leaves it, the
    pairs it was given, and the exception that ended it if it was not
    [StopIteration]; [None] when [fuel] calls of [__next__] were not
    enough. *)
Fixpoint for_loop (fuel : nat) (st : store) (self : t)
  (rng : nat -> draws) (k : nat)
  : option (t * list (tensor4 Z * tensor2 R) * option exn) :=
  match fuel with
  | O => None
  | S fuel' =>
      let (self, r) := __next__ st self (rng k) in
      match r with
      | Raise StopIteration => Some (self, [], None)
      | Raise e => Some (self, [], Some e)
      | Ok item =>
          match for_loop fuel' st self rng (S k) with
          | Some (self, pairs, e) => Some (self, item :: pairs, e)
          | None => None
          end
      end
  end.

(** [for image, features in self(num_batches): ...]; an exception of
    [iter] ends the statement before the first [__next__]. *)
Definition for_in_call (fuel : nat) (st : store) (self : t)
  (num_batches : Z) (rng : nat -> draws) (k : nat)
  : option (t * list (tensor4 Z * tensor2 R) * option exn) :=
  match __iter__ (__call__ self num_batches) with
  | Raise e => Some (__call__ self num_batches, [], Some e)
  | Ok self => for_loop fuel st self rng k
  end.

End Generation.

End VoxelImageGenerator.

(* ================================================================= *)
(** ** The closed forms of the three regimes, per grid point *)

Module Regime.

(** The GOOD surface as the specification words it: blob size [g], then
    [Nw * (1 + (Nw / (Pe^2 * g))^2) * min(1/g, phi / Bg^(1/(1-0.588)))]. *)
Definition good_g (bg ph : R) : R :=
  Rpower bg (3 / 0.764) / Rpower ph (1 / 0.764).

Definition good_eta (bg pe ph n : R) : R :=
  let g := good_g bg ph in
  n * (1 + (n / (pe ^ 2 * g)) ^ 2)
    * Rmin (1 / g) (ph / Rpower bg (1 / (1 - 0.588))).

Definition mixed_g (bg bth ph : R) : R :=
  Rmin (Rpower bg (3 / 0.764) / Rpower ph (1 / 0.764)) (bth ^ 6 / ph ^ 2).

(** The three candidate expressions for the entanglement strand length. *)
Definition Ne_candidate1 (bg bth ph : R) : R :=
  Rpower bth (0.944 / 0.528) / Rpower bg (2 / 0.528) * mixed_g bg bth ph.
Definition Ne_candidate2 (bth ph : R) : R :=
  bth ^ 2 * Rpower ph (-4 / 3).
Definition Ne_candidate3 (bg bth ph : R) : R :=
  mixed_g bg bth ph.

Definition mixed_Ne (bg bth pe ph : R) : R :=
  pe ^ 2 * Rmin (Rmin (Ne_candidate1 bg bth ph) (Ne_candidate2 bth ph))
                (Ne_candidate3 bg bth ph).

Definition mixed_eta (bg bth pe ph n : R) : R :=
  n * (1 + (n / mixed_Ne bg bth pe ph) ^ 2)
    * Rmin (1 / mixed_g bg bth ph) (ph / bth ^ 2).

Definition theta_g (bth ph : R) : R := bth ^ 6 / ph ^ 2.

Definition theta_Ne (bth pe ph : R) : R :=
  pe ^ 2 * Rmin (bth ^ 2 * Rpower ph (-4 / 3)) (theta_g bth ph).

Definition theta_eta (bth pe ph n : R) : R :=
  n * (1 + (n / theta_Ne bth pe ph) ^ 2)
    * Rmin (1 / theta_g bth ph) (ph / bth ^ 2).

(** [Bth] of the mixed mode for one batch element. *)
Definition mixed_bth (r : Range.t) (u bg : R) : R :=
  u * Rpower bg (1 / 0.824) * (Range.max r - Range.min r) + Range.min r.

End Regime.

(* ================================================================= *)
(** ** The flat three-way minimum

    After the specification's words: each of the three candidate regime
    expressions is evaluated separately and the least of the three is
    taken element-wise. *)

Module Flat.

(** The least of three numbers, found by comparing them. *)
Definition min3 (a b c : R) : R :=
  if Rle_dec a b
  then (if Rle_dec a c then a else c)
  else (if Rle_dec b c then b else c).

(** The broadcasting element-wise operation of three operands. *)
Definition bop3_ternary (f : R -> R -> R -> R) (x y z : tensor3 R)
  : tensor3 R :=
  bop3 (fun (k : R -> R) (c : R) => k c) (bop3 f x y) z.

Definition tmin3 : tensor3 R -> tensor3 R -> tensor3 R -> tensor3 R :=
  bop3_ternary min3.

(** [torch.fmin] on values that may be NaN ([None]): a NaN operand is
    ignored. *)
Definition fmin_nan (a b : option R) : option R :=
  match a, b with
  | None, _ => b
  | _, None => a
  | Some x, Some y => Some (Rmin x y)
  end.

Definition mixed_Ne_flat (phi Bg Bth Pe : tensor3 R) : tensor3 R :=
  let g := SurfaceGenerator.mixed_g phi Bg Bth in
  let candidate1 :=
    tmul (tdiv (tpow Bth (0.944 / 0.528)) (tpow Bg (2 / 0.528))) g in
  let candidate2 := tmul (tpowi Bth 2) (tpow phi (-4 / 3)) in
  let candidate3 := g in
  tmul (tpowi Pe 2) (tmin3 candidate1 candidate2 candidate3).

End Flat.

(* ================================================================= *)
(** ** Endpoints-inclusive geometric spacing

    After the specification's words: an axis of the configured length that
    starts at [min], ends at [max], is geometrically spaced and strictly
    increasing. *)

Module AxisGrid.


End AxisGrid.

(* ================================================================= *)
(** ** The rows kept by the stripping *)

Module Strip.

(** Whether the index [p] is among the eight draws of the batch element
    [b], [high] being the upper bound given to [torch.randint]. *)
Definition drawn (d : draws) (high b p : nat) : bool :=
  existsb (fun k => (randint_raw d b k mod high =? p)%nat) (seq 0 8).

End Strip.

(* ================================================================= *)
(** ** One batch, entry by entry *)

Module Batch.

Section WithDataProcessing.
Context {dp : data_processing}.

(** The row of labels of the batch element [b], by mode: the normalized
    parameters in the order Bg, Bth, Pe. *)
Definition label_row (m : Mode) (c : Config.t) (d : draws) (b : nat) : list R :=
  match m with
  | GOOD =>
      [ normalize_feature (bg_sample d b) (Config.bg_range c);
        normalize_feature (pe_sample d b) (Config.pe_range c) ]
  | THETA =>
      [ normalize_feature (bth_sample d b) (Config.bth_range c);
        normalize_feature (pe_sample d b) (Config.pe_range c) ]
  | MIXED =>
      [ normalize_feature (bg_sample d b) (Config.bg_range c);
        normalize_feature
          (Regime.mixed_bth (Config.bth_range c) (rand d b) (bg_sample d b))
          (Config.bth_range c);
        normalize_feature (pe_sample d b) (Config.pe_range c) ]
  end.

(** The raw surface entry of the batch element [b] at the grid point
    [(ph, n)], by mode. *)
Definition raw_entry (m : Mode) (c : Config.t) (d : draws) (b : nat)
  (ph n : R) : R :=
  match m with
  | GOOD => Regime.good_eta (bg_sample d b) (pe_sample d b) ph n
  | THETA => Regime.theta_eta (bth_sample d b) (pe_sample d b) ph n
  | MIXED =>
      Regime.mixed_eta (bg_sample d b)
        (Regime.mixed_bth (Config.bth_range c) (rand d b) (bg_sample d b))
        (pe_sample d b) ph n
  end.

End WithDataProcessing.

End Batch.

(* ================================================================= *)
(** ** The states of a voxel generator during a loop *)

Module VoxelLoop.

(** The voxel generator [v] after [iter(v(n))] and [i] batches, its
    internal generator being [sg] at construction. *)
Definition ready (v : VoxelImageGenerator.t) (sg : SurfaceGenerator.t)
  (n i : Z) : VoxelImageGenerator.t :=
  {| VoxelImageGenerator.config := VoxelImageGenerator.config v;
     VoxelImageGenerator.grid_values := VoxelImageGenerator.grid_values v;
     VoxelImageGenerator.strip_nw := VoxelImageGenerator.strip_nw v;
     VoxelImageGenerator.surface_generator :=
       SurfaceGenerator.set_index (SurfaceGenerator.set_num_batches sg n) i;
     VoxelImageGenerator.num_batches := Some n;
     VoxelImageGenerator._surface_generator_iter := Some tt |}.

End VoxelLoop.

(* ================================================================= *)
(** ** A concrete configuration *)

Module Example.
Import SurfaceGenerator.

(** Modelled from the spec: [normalize_feature(value, range) = (value -
    range.min) / (range.max - range.min)], and [preprocess_eta_sp] is the
    same rescaling in the log domain, with [range.min] and [range.max] as
    the log-domain bounds. *)
Definition spec_data_processing : data_processing :=
  {| preprocess_eta_sp := fun x r =>
       (np.log10 x - np.log10 (Range.min r))
       / (np.log10 (Range.max r) - np.log10 (Range.min r));
     normalize_feature := fun v r =>
       (v - Range.min r) / (Range.max r - Range.min r) |}.

Definition range (a b : R) : Range.t := {| Range.min := a; Range.max := b |}.

Definition example_config (m : Mode) (P W E batch : nat) : Config.t :=
  {| Config.device := cpu;
     Config.resolution :=
       {| Resolution.phi := P; Resolution.Nw := W; Resolution.eta_sp := E |};
     Config.mode := m;
     Config.phi_range := range 0.00003 0.02;
     Config.nw_range := range 100 100000;
     Config.eta_sp_range := range 1 1000000;
     Config.bg_range := range 0.36 1.55;
     Config.bth_range := range 0.22 0.82;
     Config.pe_range := range 3.2 13.5;
     Config.batch_size := batch |}.

(** A store whose objects all are one configuration. *)
Definition example_store (m : Mode) (P W E batch : nat) : store :=
  fun _ => example_config m P W E batch.

Definition example_draws : draws :=
  {| bg_sample := fun _ => 1.5;
     bth_sample := fun _ => 0.5;
     pe_sample := fun _ => 8;
     rand := fun _ => 0.9;
     randint_raw := fun _ _ => 0%nat |}.

(** What [SurfaceGenerator(config, strip_nw)] builds from it. *)
Definition example_generator (m : Mode) (P W : nat) (strip : bool) : t :=
  {| phi := of_axis1 (tab P (geomspace_entry 0.00003 0.02 P));
     Nw := of_axis2 (tab W (geomspace_entry 100 100000 W));
     bg_distribution :=
       match m with
       | THETA => None
       | _ => Some (feature_distribution (range 0.36 1.55) cpu)
       end;
     bth_distribution :=
       match m with
       | GOOD => None
       | _ => Some (feature_distribution (range 0.22 0.82) cpu)
       end;
     pe_distribution := feature_distribution (range 3.2 13.5) cpu;
     generation_function := m;
     config := 0%nat;
     strip_nw := strip;
     num_batches := None;
     _index := None |}.



(** The store and the generator that [VoxelImageGenerator] makes of the
    example configuration of resolution [(P, W, E)]. *)
Definition example_voxel_store (m : Mode) (P W E batch : nat) : store :=
  store_set (example_store m P W E batch) 0%nat
    (example_config m (P + 1) (W + 1) (E + 1) batch).

Definition example_voxel_generator (m : Mode) (P W E : nat) (strip : bool)
  : VoxelImageGenerator.t :=
  {| VoxelImageGenerator.config := 0%nat;
     VoxelImageGenerator.grid_values :=
       map (fun x => preprocess_eta_sp (data_processing := spec_data_processing)
                       x (range 1 1000000))
           (tab (E + 1) (geomspace_entry 1 1000000 (E + 1)));
     VoxelImageGenerator.strip_nw := strip;
     VoxelImageGenerator.surface_generator :=
       example_generator m (P + 1) (W + 1) strip;
     VoxelImageGenerator.num_batches := None;
     VoxelImageGenerator._surface_generator_iter := None |}.

(** The voxel generator of the example after [iter(generator(1))]. *)
Definition example_voxel_ready : VoxelImageGenerator.t :=
  VoxelImageGenerator.set_iter
    (VoxelImageGenerator.set_num_batches
       (example_voxel_generator GOOD 2 2 2 false) 1)
    (SurfaceGenerator.__iter__
       (SurfaceGenerator.__call__ (example_generator GOOD 3 3 false) 1)).

End Example.

(* ================================================================= *)
(** * Lemmas and theorems *)

(* ================================================================= *)
(** ** Facts about the tensor model *)

Module TensorFacts.

Lemma tab_length {A : Type} (n : nat) (F : nat -> A) : length (tab n F) = n.
Proof. unfold tab. now rewrite length_map, length_seq. Qed.

Lemma tab_ext {A : Type} (n : nat) (F G : nat -> A) :
  (forall i, (i < n)%nat -> F i = G i) -> tab n F = tab n G.
Proof.
  intros H. unfold tab. apply map_ext_in.
  intros i Hi. apply in_seq in Hi. apply H. lia.
Qed.

Lemma tab_S {A : Type} (n : nat) (F : nat -> A) :
  tab (S n) F = tab n F ++ [F n].
Proof. unfold tab. rewrite seq_S, map_app. reflexivity. Qed.

Lemma tab_cons {A : Type} (n : nat) (F : nat -> A) :
  tab (S n) F = F 0%nat :: tab n (fun i => F (S i)).
Proof.
  unfold tab. cbn [seq map]. f_equal.
  rewrite <- seq_shift, map_map. reflexivity.
Qed.

Lemma map_tab {A B : Type} (f : A -> B) (n : nat) (F : nat -> A) :
  map f (tab n F) = tab n (fun i => f (F i)).
Proof. unfold tab. now rewrite map_map. Qed.

Lemma nth_error_tab {A : Type} (n : nat) (F : nat -> A) (i : nat) :
  (i < n)%nat -> nth_error (tab n F) i = Some (F i).
Proof.
  intros Hi. unfold tab.
  rewrite nth_error_map, nth_error_seq.
  destruct (Nat.ltb_spec i n); [reflexivity | lia].
Qed.

Lemma nth_error_tab_None {A : Type} (n : nat) (F : nat -> A) (i : nat) :
  (n <= i)%nat -> nth_error (tab n F) i = None.
Proof. intros Hi. apply nth_error_None. now rewrite tab_length. Qed.

Lemma removelast_tab {A : Type} (n : nat) (F : nat -> A) :
  init_slice (tab n F) = tab (n - 1) F.
Proof.
  unfold init_slice. destruct n as [|n]; [reflexivity|].
  rewrite tab_S, removelast_last. f_equal. lia.
Qed.

Lemma tl_tab {A : Type} (n : nat) (F : nat -> A) :
  tail_slice (tab n F) = tab (n - 1) (fun i => F (S i)).
Proof.
  unfold tail_slice. destruct n as [|n]; [reflexivity|].
  rewrite tab_cons. cbn [tl]. f_equal. lia.
Qed.

Lemma repeat_tab {A : Type} (x : A) (n : nat) :
  repeat x n = tab n (fun _ => x).
Proof.
  induction n as [|n IH]; [reflexivity|].
  rewrite tab_cons. cbn [repeat]. now rewrite IH.
Qed.

Lemma list_as_tab {A : Type} (d : A) (l : list A) :
  l = tab (length l) (fun i => nth i l d).
Proof.
  induction l as [|a l IH]; [reflexivity|].
  cbn [length]. rewrite tab_cons. cbn [nth]. now rewrite <- IH.
Qed.

Lemma zip_with_tab {A B C : Type} (f : A -> B -> C) (n : nat)
  (F : nat -> A) (G : nat -> B) :
  zip_with f (tab n F) (tab n G) = tab n (fun i => f (F i) (G i)).
Proof.
  revert F G. induction n as [|n IH]; intros F G; [reflexivity|].
  rewrite !tab_cons. cbn [zip_with]. now rewrite IH.
Qed.

Lemma blen_1_r (n : nat) : blen n 1 = n.
Proof. unfold blen. destruct (Nat.eqb_spec n 1); congruence. Qed.

Lemma blen_same (n : nat) : blen n n = n.
Proof. unfold blen. destruct (Nat.eqb_spec n 1); congruence. Qed.

Lemma bidx_lt (n i : nat) : (i < n)%nat -> bidx n i = i.
Proof. unfold bidx. destruct (Nat.eqb_spec n 1); lia. Qed.

Lemma compatb_spec (a b : nat) : compatb a b = true <-> compat a b.
Proof.
  unfold compatb, compat.
  rewrite !orb_true_iff, !Nat.eqb_eq. tauto.
Qed.

(** Broadcasting along one axis, index-wise. *)
Lemma bcast_tab {A B C : Type} (f : A -> B -> C) (a b : nat)
  (F : nat -> A) (G : nat -> B) :
  compat a b ->
  bcast f (tab a F) (tab b G)
  = tab (blen a b) (fun i => f (F (bidx a i)) (G (bidx b i))).
Proof.
  intros Hc. unfold blen.
  destruct (Nat.eqb_spec a 1) as [->|Ha].
  - (* the left operand is stretched *)
    change (tab 1 F) with [F 0%nat]. cbn [bcast].
    rewrite map_tab. apply tab_ext. intros i Hi.
    unfold bidx at 1. cbn [Nat.eqb].
    now rewrite bidx_lt.
  - destruct (Nat.eqb_spec b 1) as [->|Hb].
    + (* the right operand is stretched *)
      change (tab 1 G) with [G 0%nat].
      assert (Hb : bcast f (tab a F) [G 0%nat]
                   = map (fun x => f x (G 0%nat)) (tab a F)).
      { destruct a as [|[|a]]; [reflexivity | congruence |].
        rewrite !tab_cons. reflexivity. }
      rewrite Hb, map_tab. apply tab_ext. intros i Hi.
      now rewrite bidx_lt.
    + (* equal sizes *)
      assert (a = b) as <- by (unfold compat in Hc; lia).
      assert (Hz : bcast f (tab a F) (tab a G) = zip_with f (tab a F) (tab a G)).
      { destruct a as [|[|a]]; [reflexivity | congruence |].
        rewrite !(tab_cons (S a)), !(tab_cons a). reflexivity. }
      rewrite Hz, zip_with_tab. apply tab_ext. intros i Hi.
      now rewrite bidx_lt.
Qed.

Lemma tab3_ext {A : Type} (n1 n2 n3 : nat) (F G : nat -> nat -> nat -> A) :
  (forall i j k, (i < n1)%nat -> (j < n2)%nat -> (k < n3)%nat ->
                 F i j k = G i j k) ->
  tab3 n1 n2 n3 F = tab3 n1 n2 n3 G.
Proof.
  intros H. unfold tab3.
  apply tab_ext; intros i Hi. apply tab_ext; intros j Hj.
  apply tab_ext; intros k Hk. now apply H.
Qed.

Lemma uop3_tab3 {A B : Type} (f : A -> B) (n1 n2 n3 : nat)
  (F : nat -> nat -> nat -> A) :
  uop3 f (tab3 n1 n2 n3 F) = tab3 n1 n2 n3 (fun i j k => f (F i j k)).
Proof.
  unfold uop3, tab3. rewrite map_tab.
  apply tab_ext; intros i _. rewrite map_tab.
  apply tab_ext; intros j _. now rewrite map_tab.
Qed.

Lemma bop3_tab3 {A B C : Type} (f : A -> B -> C)
  (a1 a2 a3 b1 b2 b3 : nat)
  (F : nat -> nat -> nat -> A) (G : nat -> nat -> nat -> B) :
  compat a1 b1 -> compat a2 b2 -> compat a3 b3 ->
  bop3 f (tab3 a1 a2 a3 F) (tab3 b1 b2 b3 G)
  = tab3 (blen a1 b1) (blen a2 b2) (blen a3 b3)
      (fun i j k =>
         f (F (bidx a1 i) (bidx a2 j) (bidx a3 k))
           (G (bidx b1 i) (bidx b2 j) (bidx b3 k))).
Proof.
  intros H1 H2 H3. unfold bop3, tab3.
  rewrite bcast_tab by assumption.
  apply tab_ext; intros i _.
  rewrite bcast_tab by assumption.
  apply tab_ext; intros j _.
  now rewrite bcast_tab by assumption.
Qed.

Lemma get3_tab3 {A : Type} (n1 n2 n3 : nat) (F : nat -> nat -> nat -> A)
  (i j k : nat) :
  (i < n1)%nat -> (j < n2)%nat -> (k < n3)%nat ->
  get3 (tab3 n1 n2 n3 F) i j k = Some (F i j k).
Proof.
  intros Hi Hj Hk. unfold get3, tab3.
  rewrite nth_error_tab by assumption.
  rewrite nth_error_tab by assumption.
  now rewrite nth_error_tab by assumption.
Qed.

Lemma shape3_tab3 {A : Type} (n1 n2 n3 : nat) (F : nat -> nat -> nat -> A) :
  shape3 (tab3 n1 n2 n3 F) n1 n2 n3.
Proof.
  unfold shape3, shape2, tab3. split; [apply tab_length|].
  apply Forall_forall. intros m Hm.
  unfold tab in Hm at 1. apply in_map_iff in Hm as (i & <- & _).
  split; [apply tab_length|].
  apply Forall_forall. intros r Hr.
  unfold tab in Hr at 1. apply in_map_iff in Hr as (j & <- & _).
  apply tab_length.
Qed.

(** The three operand shapes of the generators, index-wise. *)
Lemma of_batch_tab3 {A : Type} (n : nat) (s : nat -> A) :
  of_batch (tab n s) = tab3 n 1 1 (fun i _ _ => s i).
Proof. unfold of_batch, tab3. now rewrite map_tab. Qed.

Lemma of_axis1_tab3 {A : Type} (d : A) (l : list A) :
  of_axis1 l = tab3 1 (length l) 1 (fun _ j _ => nth j l d).
Proof.
  change (tab3 1 (length l) 1 (fun _ j _ => nth j l d))
    with [tab (length l) (fun j => [nth j l d])].
  unfold of_axis1. f_equal.
  rewrite (list_as_tab d l) at 1. now rewrite map_tab.
Qed.

Lemma of_axis2_tab3 {A : Type} (d : A) (l : list A) :
  of_axis2 l = tab3 1 1 (length l) (fun _ _ k => nth k l d).
Proof.
  change (tab3 1 1 (length l) (fun _ _ k => nth k l d))
    with [[tab (length l) (fun k => nth k l d)]].
  unfold of_axis2. do 2 f_equal. apply list_as_tab.
Qed.

Lemma nth_tab {A : Type} (d : A) (n : nat) (F : nat -> A) (i : nat) :
  (i < n)%nat -> nth i (tab n F) d = F i.
Proof.
  intros Hi. apply nth_error_nth. now apply nth_error_tab.
Qed.

Lemma zip_with_map_l {A A' B C : Type} (f : A' -> B -> C) (u : A -> A')
  (xs : list A) (ys : list B) :
  zip_with f (map u xs) ys = zip_with (fun x y => f (u x) y) xs ys.
Proof.
  revert ys. induction xs as [|x xs IH]; intros [|y ys]; cbn; try reflexivity.
  now rewrite IH.
Qed.

Lemma zip_with_ext {A B C : Type} (f g : A -> B -> C)
  (xs : list A) (ys : list B) :
  (forall x y, f x y = g x y) -> zip_with f xs ys = zip_with g xs ys.
Proof.
  intros H. revert ys.
  induction xs as [|x xs IH]; intros [|y ys]; cbn; try reflexivity.
  now rewrite H, IH.
Qed.

Lemma zip_with_pair {A B C : Type} (f : A -> B -> C)
  (xs : list A) (ys : list B) :
  zip_with f xs ys = map (fun ab => f (fst ab) (snd ab)) (zip_with pair xs ys).
Proof.
  revert ys. induction xs as [|x xs IH]; intros [|y ys]; cbn; try reflexivity.
  now rewrite IH.
Qed.

(** A broadcast is a map over the broadcast of the pairing. *)
Lemma bcast_pair {A B C : Type} (f : A -> B -> C)
  (xs : list A) (ys : list B) :
  bcast f xs ys = map (fun ab => f (fst ab) (snd ab)) (bcast pair xs ys).
Proof.
  destruct xs as [|x [|x' xs]], ys as [|y [|y' ys]];
    cbn [bcast]; rewrite ?map_map; try reflexivity;
    apply zip_with_pair.
Qed.

Lemma bcast_map_l {A A' B C : Type} (f : A' -> B -> C) (u : A -> A')
  (xs : list A) (ys : list B) :
  bcast f (map u xs) ys = bcast (fun x y => f (u x) y) xs ys.
Proof.
  destruct xs as [|x [|x' xs]], ys as [|y [|y' ys]];
    cbn [bcast map]; rewrite ?map_map; try reflexivity;
    apply (zip_with_map_l f u (_ :: _ :: _)).
Qed.

Lemma bcast_ext {A B C : Type} (f g : A -> B -> C)
  (xs : list A) (ys : list B) :
  (forall x y, f x y = g x y) -> bcast f xs ys = bcast g xs ys.
Proof.
  intros H.
  destruct xs as [|x [|x' xs]], ys as [|y [|y' ys]]; cbn [bcast];
    try reflexivity;
    try (apply map_ext; intros; apply H);
    now apply zip_with_ext.
Qed.

(** Regrouping two broadcasts: only the composite of the two element
    functions matters. *)
Lemma bcast_bcast {A B C D E E' : Type}
  (F : E -> C -> D) (G : A -> B -> E) (F' : E' -> C -> D) (G' : A -> B -> E')
  (xs : list A) (ys : list B) (zs : list C) :
  (forall a b c, F (G a b) c = F' (G' a b) c) ->
  bcast F (bcast G xs ys) zs = bcast F' (bcast G' xs ys) zs.
Proof.
  intros H.
  rewrite (bcast_pair G), (bcast_pair G'), !bcast_map_l.
  apply bcast_ext. intros [a b] c. apply H.
Qed.

End TensorFacts.

(* ================================================================= *)
(** ** Facts about [np.geomspace] *)

Module NumpyFacts.
Import TensorFacts np.

Lemma Reqb_false (a b : R) : a <> b -> Reqb a b = false.
Proof. intros H. unfold Reqb. now destruct (Req_dec_T a b). Qed.

Lemma Reqb_true (a : R) : Reqb a a = true.
Proof. unfold Reqb. now destruct (Req_dec_T a a). Qed.

Lemma Rltb_true (a b : R) : a < b -> Rltb a b = true.
Proof. intros H. unfold Rltb. now destruct (Rlt_dec a b). Qed.

Lemma Rltb_false (a b : R) : ~ a < b -> Rltb a b = false.
Proof. intros H. unfold Rltb. now destruct (Rlt_dec a b). Qed.

Lemma Rltb_lt (a b : R) : Rltb a b = true <-> a < b.
Proof.
  unfold Rltb. destruct (Rlt_dec a b); split; intros; congruence || assumption.
Qed.

Lemma set_first_tab {A : Type} (x : A) (n : nat) (F : nat -> A) :
  set_first x (tab n F) = tab n (fun i => if (i =? 0)%nat then x else F i).
Proof.
  destruct n as [|n]; [reflexivity|].
  rewrite !tab_cons. reflexivity.
Qed.

Lemma set_last_tab {A : Type} (x : A) (n : nat) (F : nat -> A) :
  set_last x (tab n F)
  = tab n (fun i => if (i =? n - 1)%nat then x else F i).
Proof.
  destruct n as [|n]; [reflexivity|].
  assert (H : set_last x (tab (S n) F) = removelast (tab (S n) F) ++ [x]).
  { rewrite tab_cons. reflexivity. }
  rewrite H. clear H.
  rewrite (tab_S n), removelast_last, (tab_S n).
  replace (S n - 1)%nat with n by lia.
  rewrite Nat.eqb_refl. f_equal.
  apply tab_ext. intros i Hi.
  destruct (Nat.eqb_spec i n); [lia | reflexivity].
Qed.

Lemma linspace_tab (start stop : R) (num : nat) :
  linspace start stop num
  = tab num (fun i =>
      if (1 <? num)%nat && (i =? num - 1)%nat then stop
      else INR i * ((stop - start) / INR (num - 1)) + start).
Proof.
  unfold linspace. cbv zeta.
  destruct (1 <? num)%nat; [apply set_last_tab | reflexivity].
Qed.

Lemma geomspace_positive (start stop : R) (num : nat) :
  0 < start -> 0 < stop ->
  geomspace start stop num = Ok (tab num (geomspace_entry start stop num)).
Proof.
  intros Ha Hb. unfold geomspace.
  rewrite !Reqb_false by lra.
  rewrite (Rltb_false start 0) by lra.
  cbn [orb andb]. f_equal.
  unfold logspace. rewrite linspace_tab, map_tab.
  assert (H1 : (if (0 <? num)%nat
                then set_first start (tab num (fun i =>
                       Rpower 10
                         (if (1 <? num)%nat && (i =? num - 1)%nat
                          then log10 stop
                          else INR i * ((log10 stop - log10 start) / INR (num - 1))
                               + log10 start)))
                else tab num (fun i =>
                       Rpower 10
                         (if (1 <? num)%nat && (i =? num - 1)%nat
                          then log10 stop
                          else INR i * ((log10 stop - log10 start) / INR (num - 1))
                               + log10 start)))
               = tab num (fun i => if (i =? 0)%nat then start else
                       Rpower 10
                         (if (1 <? num)%nat && (i =? num - 1)%nat
                          then log10 stop
                          else INR i * ((log10 stop - log10 start) / INR (num - 1))
                               + log10 start))).
  { destruct num as [|num]; [reflexivity|]. cbn [Nat.ltb Nat.leb].
    apply set_first_tab. }
  rewrite H1. clear H1.
  assert (H2 : forall l : list R,
             map (fun x => 1 * x) l = l).
  { intros l. rewrite <- (map_id l) at 2. apply map_ext. intros; ring. }
  rewrite H2.
  destruct (Nat.ltb_spec 1 num) as [Hn|Hn].
  - rewrite set_last_tab. apply tab_ext. intros i Hi.
    unfold geomspace_entry.
    destruct (Nat.ltb_spec 1 num); [|lia]. cbn [andb].
    destruct (Nat.eqb_spec i (num - 1)); reflexivity.
  - apply tab_ext. intros i Hi.
    unfold geomspace_entry.
    destruct (Nat.ltb_spec 1 num); [lia|]. cbn [andb].
    reflexivity.
Qed.





Lemma geomspace_length (start stop : R) (num : nat) (l : list R) :
  geomspace start stop num = Ok l -> length l = num.
Proof.
  unfold geomspace.
  destruct (Reqb start 0 || Reqb stop 0); [discriminate|].
  intros [= <-]. rewrite length_map.
  assert (Hsf : forall (x : R) l, length (set_first x l) = length l)
    by (intros x [|? ?]; reflexivity).
  assert (Hsl : forall (x : R) l, length (set_last x l) = length l).
  { intros x [|a l']; [reflexivity|].
    unfold set_last. rewrite length_app, removelast_firstn_len, length_firstn.
    cbn [length Nat.pred]. lia. }
  assert (Hlin : forall a b, length (linspace a b num) = num).
  { intros a b. rewrite linspace_tab. apply tab_length. }
  destruct (1 <? num)%nat, (0 <? num)%nat;
    rewrite ?Hsl, ?Hsf; unfold logspace; now rewrite length_map, Hlin.
Qed.

Lemma geomspace_nonzero (start stop : R) (num : nat) :
  start <> 0 -> stop <> 0 -> exists l, geomspace start stop num = Ok l.
Proof.
  intros Ha Hb. unfold geomspace. rewrite !Reqb_false by assumption.
  cbn [orb]. eauto.
Qed.

Lemma geomspace_zero (start stop : R) (num : nat) :
  start = 0 \/ stop = 0 -> geomspace start stop num = Raise ValueError.
Proof.
  intros [-> | ->]; unfold geomspace; rewrite Reqb_true;
    rewrite ?orb_true_r; reflexivity.
Qed.




End NumpyFacts.

(* ================================================================= *)
(** ** The tensor expressions of the three regimes, entry by entry *)

Module GenerationFacts.
Import TensorFacts SurfaceGenerator.

Lemma blen_1_l (n : nat) : blen 1 n = n.
Proof. reflexivity. Qed.

Lemma bidx_1 (i : nat) : bidx 1 i = 0%nat.
Proof. reflexivity. Qed.

Lemma compat_1_l (n : nat) : compat 1 n.
Proof. unfold compat; auto. Qed.

Lemma compat_1_r (n : nat) : compat n 1.
Proof. unfold compat; auto. Qed.

Lemma compat_refl (n : nat) : compat n n.
Proof. unfold compat; auto. Qed.

Create HintDb tensor.
Create Rewrite HintDb tensor.
#[local] Hint Resolve compat_1_l compat_1_r compat_refl : tensor.
#[local] Hint Rewrite blen_1_l blen_1_r blen_same : tensor.

(** Push every element-wise operation of a tensor expression whose leaves
    are [tab3] tables down to the elements. *)
Ltac tab3_normal :=
  unfold tmul, tdiv, tfmin, tpow, tpowi, sadd, smul, sdiv, tmuls, tadds;
  repeat (first [ rewrite uop3_tab3
                | rewrite bop3_tab3 by auto with tensor ];
          autorewrite with tensor).

Ltac bidx_normal :=
  repeat first
    [ rewrite bidx_1
    | match goal with
      | H : (?i < ?n)%nat |- _ => rewrite !(bidx_lt n i H)
      end ].

Lemma div_div (a b c : R) : a / b / c = a / (b * c).
Proof. unfold Rdiv. rewrite Rinv_mult. ring. Qed.

Lemma good_eta_sp_tab3 (phi Nw : list R) (n : nat) (bg pe : nat -> R) :
  good_eta_sp (of_axis1 phi) (of_axis2 Nw) (sample bg n) (sample pe n)
  = tab3 n (length phi) (length Nw)
      (fun b p w => Regime.good_eta (bg b) (pe b) (nth p phi 0) (nth w Nw 0)).
Proof.
  unfold sample, good_eta_sp.
  rewrite (of_axis1_tab3 0), (of_axis2_tab3 0), !of_batch_tab3.
  tab3_normal.
  apply tab3_ext. intros b p w Hb Hp Hw. bidx_normal.
  unfold Regime.good_eta, Regime.good_g. cbv zeta.
  now rewrite div_div.
Qed.

Lemma mixed_Bth_sample (r : Range.t) (n : nat) (u bg : nat -> R) :
  mixed_Bth r (torch_rand u n) (sample bg n)
  = sample (fun b => Regime.mixed_bth r (u b) (bg b)) n.
Proof.
  unfold sample, torch_rand, mixed_Bth.
  rewrite !of_batch_tab3.
  tab3_normal.
  apply tab3_ext. intros b p w Hb Hp Hw. bidx_normal.
  reflexivity.
Qed.

Lemma mixed_Ne_tab3 (phi : list R) (n : nat) (bg bth pe : nat -> R) :
  mixed_Ne (of_axis1 phi) (sample bg n) (sample bth n) (sample pe n)
  = tab3 n (length phi) 1
      (fun b p _ => Regime.mixed_Ne (bg b) (bth b) (pe b) (nth p phi 0)).
Proof.
  unfold sample, mixed_Ne, mixed_g.
  rewrite (of_axis1_tab3 0), !of_batch_tab3.
  tab3_normal.
  apply tab3_ext. intros b p w Hb Hp Hw. bidx_normal.
  reflexivity.
Qed.

Lemma mixed_eta_sp_tab3 (phi Nw : list R) (n : nat) (bg bth pe : nat -> R) :
  mixed_eta_sp (of_axis1 phi) (of_axis2 Nw)
    (sample bg n) (sample bth n) (sample pe n)
  = tab3 n (length phi) (length Nw)
      (fun b p w =>
         Regime.mixed_eta (bg b) (bth b) (pe b) (nth p phi 0) (nth w Nw 0)).
Proof.
  unfold sample, mixed_eta_sp, mixed_Ne, mixed_g.
  rewrite (of_axis1_tab3 0), (of_axis2_tab3 0), !of_batch_tab3.
  tab3_normal.
  apply tab3_ext. intros b p w Hb Hp Hw. bidx_normal.
  reflexivity.
Qed.

Lemma theta_eta_sp_tab3 (phi Nw : list R) (n : nat) (bth pe : nat -> R) :
  theta_eta_sp (of_axis1 phi) (of_axis2 Nw) (sample bth n) (sample pe n)
  = tab3 n (length phi) (length Nw)
      (fun b p w =>
         Regime.theta_eta (bth b) (pe b) (nth p phi 0) (nth w Nw 0)).
Proof.
  unfold sample, theta_eta_sp, theta_Ne, theta_g.
  rewrite (of_axis1_tab3 0), (of_axis2_tab3 0), !of_batch_tab3.
  tab3_normal.
  apply tab3_ext. intros b p w Hb Hp Hw. bidx_normal.
  reflexivity.
Qed.

End GenerationFacts.

(* ================================================================= *)
(** ** Facts about the voxel image *)

Module VoxelFacts.
Import TensorFacts.

Lemma tab4_ext {A : Type} (n1 n2 n3 n4 : nat)
  (F G : nat -> nat -> nat -> nat -> A) :
  (forall i j k l, (i < n1)%nat -> (j < n2)%nat -> (k < n3)%nat ->
                   (l < n4)%nat -> F i j k l = G i j k l) ->
  tab4 n1 n2 n3 n4 F = tab4 n1 n2 n3 n4 G.
Proof.
  intros H. unfold tab4. apply tab_ext; intros i Hi.
  apply tab3_ext; intros j k l Hj Hk Hl. now apply H.
Qed.

Lemma get4_tab4 {A : Type} (n1 n2 n3 n4 : nat)
  (F : nat -> nat -> nat -> nat -> A) (i j k l : nat) :
  (i < n1)%nat -> (j < n2)%nat -> (k < n3)%nat -> (l < n4)%nat ->
  get4 (tab4 n1 n2 n3 n4 F) i j k l = Some (F i j k l).
Proof.
  intros Hi Hj Hk Hl. unfold get4, tab4.
  rewrite nth_error_tab by assumption.
  now apply get3_tab3.
Qed.

Lemma shape4_tab4 {A : Type} (n1 n2 n3 n4 : nat)
  (F : nat -> nat -> nat -> nat -> A) :
  shape4 (tab4 n1 n2 n3 n4 F) n1 n2 n3 n4.
Proof.
  unfold shape4, tab4. split; [apply tab_length|].
  apply Forall_forall. intros m Hm.
  unfold tab in Hm at 1. apply in_map_iff in Hm as (i & <- & _).
  apply shape3_tab3.
Qed.

Lemma map4_tab4 {A B : Type} (f : A -> B) (n1 n2 n3 n4 : nat)
  (F : nat -> nat -> nat -> nat -> A) :
  map (map (map (map f))) (tab4 n1 n2 n3 n4 F)
  = tab4 n1 n2 n3 n4 (fun i j k l => f (F i j k l)).
Proof.
  unfold tab4. rewrite map_tab. apply tab_ext; intros i _.
  apply (uop3_tab3 f).
Qed.

(** A tensor of a given shape is the table of its entries. *)
Lemma shape2_as_tab {A : Type} (d : A) (m : tensor2 A) (n2 n3 : nat) :
  shape2 m n2 n3 ->
  m = tab n2 (fun j => tab n3 (fun k => nth k (nth j m []) d)).
Proof.
  intros [Hlen Hrows].
  rewrite (list_as_tab [] m) at 1. rewrite Hlen.
  apply tab_ext. intros j Hj.
  assert (Hr : length (nth j m []) = n3).
  { rewrite Forall_forall in Hrows. apply Hrows, nth_In. lia. }
  rewrite (list_as_tab d (nth j m [])) at 1. now rewrite Hr.
Qed.

Lemma shape3_as_tab3 {A : Type} (d : A) (t : tensor3 A) (n1 n2 n3 : nat) :
  shape3 t n1 n2 n3 ->
  t = tab3 n1 n2 n3 (fun i j k => nth k (nth j (nth i t []) []) d).
Proof.
  intros [Hlen Hmats]. unfold tab3.
  rewrite (list_as_tab [] t) at 1. rewrite Hlen.
  apply tab_ext. intros i Hi.
  apply shape2_as_tab.
  rewrite Forall_forall in Hmats. apply Hmats, nth_In. lia.
Qed.

Lemma get3_nth {A : Type} (d : A) (t : tensor3 A) (n1 n2 n3 i j k : nat) :
  shape3 t n1 n2 n3 -> (i < n1)%nat -> (j < n2)%nat -> (k < n3)%nat ->
  get3 t i j k = Some (nth k (nth j (nth i t []) []) d).
Proof.
  intros Hs Hi Hj Hk.
  rewrite (shape3_as_tab3 d t n1 n2 n3 Hs) at 1.
  now rewrite (get3_tab3 n1 n2 n3
                 (fun i j k => nth k (nth j (nth i t []) []) d)).
Qed.

(** Row-major flattening. *)
Lemma length_concat_uniform {A : Type} (l : list (list A)) (n : nat) :
  Forall (fun r => length r = n) l -> length (concat l) = (length l * n)%nat.
Proof.
  induction 1 as [|r l Hr _ IH]; [reflexivity|].
  cbn [concat length]. rewrite length_app, IH, Hr. lia.
Qed.

Lemma nth_concat_uniform {A : Type} (d : A) (l : list (list A)) (n j k : nat) :
  Forall (fun r => length r = n) l -> (k < n)%nat ->
  nth (j * n + k) (concat l) d = nth k (nth j l []) d.
Proof.
  intros Hl Hk. revert j.
  induction Hl as [|r l Hr _ IH]; intros j.
  - cbn [concat].
    replace (nth j (@nil (list A)) []) with (@nil A) by (now destruct j).
    now destruct (j * n + k)%nat, k.
  - cbn [concat]. destruct j as [|j].
    + cbn [Nat.mul Nat.add nth]. apply app_nth1. lia.
    + replace (S j * n + k)%nat with (length r + (j * n + k))%nat by lia.
      rewrite app_nth2_plus. cbn [nth]. apply IH.
Qed.

Lemma length_flatten3 {A : Type} (t : tensor3 A) (n1 n2 n3 : nat) :
  shape3 t n1 n2 n3 -> length (flatten3 t) = (n1 * n2 * n3)%nat.
Proof.
  intros [Hlen Hmats]. unfold flatten3.
  rewrite (length_concat_uniform _ (n2 * n3)).
  - rewrite length_map, Hlen. lia.
  - apply Forall_map. eapply Forall_impl; [|exact Hmats].
    intros m [Hm Hrows]. cbn beta.
    rewrite (length_concat_uniform _ n3 Hrows), Hm. reflexivity.
Qed.

Lemma nth_flatten3 {A : Type} (d : A) (t : tensor3 A) (n1 n2 n3 i j k : nat) :
  shape3 t n1 n2 n3 -> (i < n1)%nat -> (j < n2)%nat -> (k < n3)%nat ->
  nth ((i * n2 + j) * n3 + k) (flatten3 t) d
  = nth k (nth j (nth i t []) []) d.
Proof.
  intros [Hlen Hmats] Hi Hj Hk. unfold flatten3.
  replace ((i * n2 + j) * n3 + k)%nat
    with (i * (n2 * n3) + (j * n3 + k))%nat by lia.
  rewrite (nth_concat_uniform d _ (n2 * n3)).
  - change (@nil A) with (concat (@nil (list A))) at 1.
    rewrite map_nth.
    apply nth_concat_uniform; [|assumption].
    rewrite Forall_forall in Hmats.
    apply (Hmats (nth i t [])), nth_In. lia.
  - apply Forall_map. eapply Forall_impl; [|exact Hmats].
    intros m [Hm Hrows]. cbn beta.
    rewrite (length_concat_uniform _ n3 Hrows), Hm. reflexivity.
  - nia.
Qed.

Section Voxelize.
Variable A : Type.
Variable dflt : A.
Variable ltb : A -> A -> bool.

Lemma reshape_unit_shape3 (t : tensor3 A) (b p w : nat) :
  shape3 t b p w ->
  Voxel.reshape_unit A dflt t b p w
  = Ok (tab4 b p w 1 (fun i j k _ => nth k (nth j (nth i t []) []) dflt)).
Proof.
  intros Hs. unfold Voxel.reshape_unit. cbv zeta.
  rewrite (length_flatten3 t b p w Hs), Nat.eqb_refl.
  f_equal. unfold tab4, tab3.
  apply tab_ext; intros i Hi. apply tab_ext; intros j Hj.
  apply tab_ext; intros k Hk.
  change (tab 1 ?F) with [F 0%nat]. f_equal.
  now apply (nth_flatten3 dflt t b p w).
Qed.

Lemma concat_repeat_singleton (x : A) (n : nat) :
  concat (repeat [x] n) = tab n (fun _ => x).
Proof.
  rewrite <- repeat_tab.
  induction n as [|n IH]; [reflexivity|].
  cbn [repeat concat app]. now rewrite IH.
Qed.

Lemma tile_last_tab4 (b p w E : nat) (F : nat -> nat -> nat -> A) :
  Voxel.tile_last A (tab4 b p w 1 (fun i j k _ => F i j k)) E
  = tab4 b p w E (fun i j k _ => F i j k).
Proof.
  unfold Voxel.tile_last, tab4, tab3. rewrite map_tab.
  apply tab_ext; intros i _. rewrite map_tab.
  apply tab_ext; intros j _. rewrite map_tab.
  apply tab_ext; intros k _.
  change (tab 1 ?G) with [G 0%nat]. apply concat_repeat_singleton.
Qed.

Lemma lower_corner_tab4 (b p w e : nat) (F : nat -> nat -> nat -> nat -> A) :
  Voxel.lower_corner A (tab4 b p w e F) = tab4 b (p - 1) (w - 1) (e - 1) F.
Proof.
  unfold Voxel.lower_corner, tab4, tab3. rewrite map_tab.
  apply tab_ext; intros i _.
  rewrite removelast_tab, map_tab.
  apply tab_ext; intros j _.
  rewrite removelast_tab, map_tab.
  apply tab_ext; intros k _.
  apply removelast_tab.
Qed.

Lemma upper_corner_tab4 (b p w e : nat) (F : nat -> nat -> nat -> nat -> A) :
  Voxel.upper_corner A (tab4 b p w e F)
  = tab4 b (p - 1) (w - 1) (e - 1) (fun i j k l => F i (S j) (S k) (S l)).
Proof.
  unfold Voxel.upper_corner, tab4, tab3. rewrite map_tab.
  apply tab_ext; intros i _.
  rewrite tl_tab, map_tab.
  apply tab_ext; intros j _.
  rewrite tl_tab, map_tab.
  apply tab_ext; intros k _.
  apply tl_tab.
Qed.

Lemma bcast_tab_same {B C D : Type} (f : B -> C -> D) (n : nat)
  (F : nat -> B) (G : nat -> C) :
  bcast f (tab n F) (tab n G) = tab n (fun i => f (F i) (G i)).
Proof.
  rewrite bcast_tab by (unfold compat; auto).
  rewrite blen_same. apply tab_ext. intros i Hi.
  now rewrite bidx_lt.
Qed.

Lemma lt_last_tab4 (b p w e : nat) (F : nat -> nat -> nat -> nat -> A)
  (G : nat -> A) :
  Voxel.lt_last A ltb (tab4 b p w e F) (tab e G)
  = tab4 b p w e (fun i j k l => ltb (F i j k l) (G l)).
Proof.
  unfold Voxel.lt_last, tab4, tab3. rewrite map_tab.
  apply tab_ext; intros i _. rewrite map_tab.
  apply tab_ext; intros j _. rewrite map_tab.
  apply tab_ext; intros k _.
  apply bcast_tab_same.
Qed.

Lemma gt_last_tab4 (b p w e : nat) (F : nat -> nat -> nat -> nat -> A)
  (G : nat -> A) :
  Voxel.gt_last A ltb (tab4 b p w e F) (tab e G)
  = tab4 b p w e (fun i j k l => ltb (G l) (F i j k l)).
Proof.
  unfold Voxel.gt_last, tab4, tab3. rewrite map_tab.
  apply tab_ext; intros i _. rewrite map_tab.
  apply tab_ext; intros j _. rewrite map_tab.
  apply tab_ext; intros k _.
  apply (bcast_tab_same (fun s x => ltb x s)).
Qed.

Lemma logical_and_tab4 (b p w e : nat)
  (F G : nat -> nat -> nat -> nat -> bool) :
  Voxel.logical_and (tab4 b p w e F) (tab4 b p w e G)
  = tab4 b p w e (fun i j k l => F i j k l && G i j k l).
Proof.
  unfold Voxel.logical_and, tab4, tab3.
  rewrite bcast_tab_same. apply tab_ext; intros i _.
  rewrite bcast_tab_same. apply tab_ext; intros j _.
  rewrite bcast_tab_same. apply tab_ext; intros k _.
  apply bcast_tab_same.
Qed.

(** The image of a batch of well-shaped surfaces, cell by cell. *)
Lemma image_tab4 (batch P W : nat) (grid_values : list A)
  (surfaces : tensor3 A) :
  shape3 surfaces batch P W ->
  Voxel.image A dflt ltb batch P W (length grid_values) grid_values surfaces
  = Ok (tab4 batch (P - 1) (W - 1) (length grid_values - 1)
          (fun b p w e =>
             Z.b2z
               (ltb (nth w (nth p (nth b surfaces []) []) dflt)
                    (nth (S e) grid_values dflt)
                && ltb (nth e grid_values dflt)
                       (nth (S w) (nth (S p) (nth b surfaces []) []) dflt)))).
Proof.
  intros Hs. unfold Voxel.image.
  rewrite (reshape_unit_shape3 surfaces batch P W Hs). cbn [bind].
  assert (Hc : compatb (length grid_values - 1) (length grid_values - 1) = true).
  { apply compatb_spec. unfold compat; auto. }
  rewrite Hc. f_equal.
  rewrite (tile_last_tab4 batch P W (length grid_values)
             (fun i j k => nth k (nth j (nth i surfaces []) []) dflt)).
  rewrite lower_corner_tab4, upper_corner_tab4.
  rewrite (list_as_tab dflt grid_values) at 2 4.
  rewrite tl_tab, removelast_tab.
  rewrite lt_last_tab4, gt_last_tab4, logical_and_tab4.
  unfold Voxel.to_int16. rewrite map4_tab4.
  reflexivity.
Qed.

End Voxelize.

(** Two runs on integers.  Bin edges 10, 20, 30, 40 and a 3 x 3 surface:
    the cell [(0, 0)] has corners 15 and 25 and so meets the bins
    [10, 20] and [20, 30]; a surface that sits on the edge 20 everywhere
    occupies no bin. *)
Example image_on_integers :
  Voxel.image Z 0%Z Z.ltb 1 3 3 4 [10; 20; 30; 40]%Z
    [[[15; 15; 15]; [15; 25; 25]; [15; 25; 35]]]%Z
  = Ok [[[[1; 1; 0]; [1; 1; 0]]; [[1; 1; 0]; [0; 1; 1]]]]%Z.
Proof. reflexivity. Qed.

Example image_on_a_bin_edge :
  Voxel.image Z 0%Z Z.ltb 1 2 2 3 [10; 20; 30]%Z [[[20; 20]; [20; 20]]]%Z
  = Ok [[[[0; 0]]]]%Z.
Proof. reflexivity. Qed.

End VoxelFacts.

(* ================================================================= *)
(** ** Facts about the batch iterator *)

Module IteratorFacts.
Import TensorFacts NumpyFacts GenerationFacts SurfaceGenerator.

Section WithDataProcessing.
Context {dp : data_processing}.

Lemma next_batch_set_index (st : store) (self : t) (i : Z) (d : draws) :
  next_batch st (set_index self i) d = next_batch st self d.
Proof. reflexivity. Qed.

Lemma next_batch_set_num_batches (st : store) (self : t) (n : Z) (d : draws) :
  next_batch st (set_num_batches self n) d = next_batch st self d.
Proof. reflexivity. Qed.

Lemma generates_set_index (st : store) (self : t) (i : Z) :
  generates st self -> generates st (set_index self i).
Proof. intros H d. rewrite next_batch_set_index. apply H. Qed.

Lemma generates_set_num_batches (st : store) (self : t) (n : Z) :
  generates st self -> generates st (set_num_batches self n).
Proof. intros H d. rewrite next_batch_set_num_batches. apply H. Qed.

Lemma next_running (st : store) (self : t) (d : draws) (i n : Z) :
  _index self = Some i -> num_batches self = Some n -> (i < n)%Z ->
  __next__ st self d = (set_index self (i + 1), next_batch st self d).
Proof.
  intros Hi Hn Hlt. unfold __next__. rewrite Hi, Hn.
  destruct (Z.geb_spec i n); [lia|]. reflexivity.
Qed.

Lemma next_exhausted (st : store) (self : t) (d : draws) (i n : Z) :
  _index self = Some i -> num_batches self = Some n -> (n <= i)%Z ->
  __next__ st self d = (self, Raise StopIteration).
Proof.
  intros Hi Hn Hle. unfold __next__. rewrite Hi, Hn.
  destruct (Z.geb_spec i n); [reflexivity | lia].
Qed.

Lemma next_before_iter (st : store) (self : t) (d : draws) :
  _index self = None -> __next__ st self d = (self, Raise AttributeError).
Proof. intros Hi. unfold __next__. now rewrite Hi. Qed.

(** The loop started at index [i] with [m] batches left gives [m] pairs. *)
Lemma for_loop_counts (st : store) (rng : nat -> draws) (m : nat) :
  forall (fuel : nat) (self : t) (i n : Z) (k : nat),
    generates st self ->
    _index self = Some i -> num_batches self = Some n ->
    (i <= n)%Z -> m = Z.to_nat (n - i) -> (m < fuel)%nat ->
    exists self' pairs,
      for_loop fuel st self rng k = Some (self', pairs, None)
      /\ length pairs = m
      /\ self' = set_index self n.
Proof.
  induction m as [|m IH]; intros fuel self i n k Hg Hi Hn Hle Hm Hfuel.
  - destruct fuel as [|fuel]; [lia|].
    assert (i = n) as -> by lia.
    exists self, []. cbn [for_loop].
    rewrite (next_exhausted st self (rng k) n n) by (assumption || lia).
    repeat split.
    destruct self; cbn in *. now subst.
  - destruct fuel as [|fuel]; [lia|].
    cbn [for_loop].
    rewrite (next_running st self (rng k) i n) by (assumption || lia).
    destruct (Hg (rng k)) as [item Hitem]. rewrite Hitem.
    destruct (IH fuel (set_index self (i + 1)) (i + 1)%Z n (S k)
                (generates_set_index st self (i + 1) Hg) eq_refl Hn
                ltac:(lia) ltac:(lia) ltac:(lia))
      as (self' & pairs & Hloop & Hlen & Hself').
    rewrite Hloop. exists self', (item :: pairs).
    repeat split.
    + cbn [length]. now rewrite Hlen.
    + rewrite Hself'. reflexivity.
Qed.

Lemma for_in_call_counts (st : store) (rng : nat -> draws)
  (fuel : nat) (self : t) (n : Z) (k : nat) :
  generates st self -> (Z.to_nat n < fuel)%nat ->
  exists pairs,
    for_in_call fuel st self n rng k
    = Some (set_index (set_num_batches self n) (Z.max 0 n), pairs, None)
    /\ length pairs = Z.to_nat n.
Proof.
  intros Hg Hfuel. unfold for_in_call, __iter__, __call__.
  destruct (Z.le_gt_cases 0 n) as [Hn|Hn].
  - destruct (for_loop_counts st rng (Z.to_nat n) fuel
                (set_index (set_num_batches self n) 0) 0%Z n k
                (generates_set_index st _ 0
                   (generates_set_num_batches st self n Hg))
                eq_refl eq_refl Hn ltac:(f_equal; lia) Hfuel)
      as (self' & pairs & Hloop & Hlen & Hself').
    exists pairs. rewrite Hloop, Hself'. split; [|assumption].
    rewrite Z.max_r by assumption. reflexivity.
  - destruct fuel as [|fuel]; [lia|].
    exists []. cbn [for_loop].
    rewrite (next_exhausted st _ (rng k) 0 n) by (reflexivity || lia).
    rewrite Z.max_l by lia. split; [reflexivity|].
    cbn [length]. lia.
Qed.

End WithDataProcessing.

End IteratorFacts.

(* ================================================================= *)
(** ** Generators built by [__init__] *)

Module InitFacts.
Import TensorFacts NumpyFacts GenerationFacts IteratorFacts SurfaceGenerator.

Section WithDataProcessing.
Context {dp : data_processing}.

(** The state [SurfaceGenerator(config, strip_nw)] leaves behind. *)
Lemma init_inv (st : store) (c : ref) (strip : bool) (g : t) :
  __init__ st c strip = Ok g ->
  exists phis nws,
    np.geomspace (Range.min (Config.phi_range (st c)))
                 (Range.max (Config.phi_range (st c)))
                 (Resolution.phi (Config.resolution (st c))) = Ok phis
    /\ np.geomspace (Range.min (Config.nw_range (st c)))
                    (Range.max (Config.nw_range (st c)))
                    (Resolution.Nw (Config.resolution (st c))) = Ok nws
    /\ phi g = of_axis1 phis
    /\ Nw g = of_axis2 nws
    /\ generation_function g = Config.mode (st c)
    /\ (Config.mode (st c) <> THETA -> bg_distribution g <> None)
    /\ (Config.mode (st c) <> GOOD -> bth_distribution g <> None)
    /\ config g = c
    /\ strip_nw g = strip
    /\ num_batches g = None
    /\ _index g = None.
Proof.
  unfold __init__. cbv zeta.
  destruct (np.geomspace _ _ (Resolution.phi _)) as [phis|e]; [|discriminate].
  destruct (np.geomspace _ _ (Resolution.Nw _)) as [nws|e]; [|discriminate].
  cbn [bind]. intros [= <-]. exists phis, nws. cbn.
  repeat split; destruct (Config.mode (st c)); congruence.
Qed.

(** The only configurations [__init__] rejects on account of the
    concentration axis are those with a zero endpoint. *)
Lemma init_rejects_zero_endpoint (st : store) (c : ref) (strip : bool) :
  Range.min (Config.phi_range (st c)) = 0
  \/ Range.max (Config.phi_range (st c)) = 0 ->
  __init__ st c strip = Raise ValueError.
Proof.
  intros H. unfold __init__. cbv zeta.
  now rewrite (geomspace_zero _ _ _ H).
Qed.

(** The batch of a generator made by [__init__] is a table over
    [(batch_size, P, W)], where the batch size is read when [__next__]
    runs and [P], [W] are the lengths of the axes built by [__init__]. *)
Lemma generation_tab3 (st st' : store) (c : ref) (strip : bool) (g : t)
  (d : draws) :
  __init__ st c strip = Ok g ->
  exists F features,
    call_generation_function st' g d
    = Ok (tab3 (Config.batch_size (st' c))
               (Resolution.phi (Config.resolution (st c)))
               (Resolution.Nw (Config.resolution (st c))) F,
          features).
Proof.
  intros Hinit.
  destruct (init_inv st c strip g Hinit)
    as (phis & nws & Hphis & Hnws & Hphi & HNw & Hgen & Hbg & Hbth & Hc & _).
  apply geomspace_length in Hphis, Hnws.
  unfold call_generation_function. rewrite Hgen.
  destruct (Config.mode (st c)) eqn:Hmode.
  - unfold _good_generation. cbv zeta.
    destruct (bg_distribution g); [|now destruct Hbg].
    rewrite Hphi, HNw, Hc, good_eta_sp_tab3, Hphis, Hnws.
    unfold preprocess3. rewrite uop3_tab3. eauto.
  - unfold _theta_generation. cbv zeta.
    destruct (bth_distribution g); [|now destruct Hbth].
    rewrite Hphi, HNw, Hc, theta_eta_sp_tab3, Hphis, Hnws.
    unfold preprocess3. rewrite uop3_tab3. eauto.
  - unfold _mixed_generation. cbv zeta.
    destruct (bg_distribution g); [|now destruct Hbg].
    rewrite Hphi, HNw, Hc, mixed_Bth_sample, mixed_eta_sp_tab3, Hphis, Hnws.
    unfold preprocess3. rewrite uop3_tab3. eauto.
Qed.

Lemma generates_without_strip (st st' : store) (c : ref) (g : t) :
  __init__ st c false = Ok g -> generates st' g.
Proof.
  intros Hinit d. unfold next_batch.
  destruct (generation_tab3 st st' c false g d Hinit) as (F & features & ->).
  destruct (init_inv st c false g Hinit)
    as (_ & _ & _ & _ & _ & _ & _ & _ & _ & _ & Hstrip & _).
  cbn [bind]. rewrite Hstrip. cbn [negb]. eauto.
Qed.

Lemma index_put_true_length (choices : list nat) (to_keep : list bool) :
  length (index_put_true to_keep choices) = length to_keep.
Proof.
  unfold index_put_true. revert to_keep.
  induction choices as [|i choices IH]; intros to_keep; [reflexivity|].
  cbn [fold_left]. rewrite IH.
  rewrite length_app.
  rewrite <- (firstn_skipn i to_keep) at 3. rewrite length_app. f_equal.
  destruct (skipn i to_keep); reflexivity.
Qed.

Lemma strip_loop_square (P : nat) (surfaces : tensor3 R) :
  Forall (fun s => length s = P) surfaces ->
  forall (to_keep : list (list bool)) (choices : list (list nat)),
    Forall (fun tk => length tk = P) to_keep ->
    exists r, strip_loop surfaces to_keep choices = Ok r.
Proof.
  induction 1 as [|s surfaces Hs _ IH]; intros to_keep choices Hk.
  - cbn. eauto.
  - destruct Hk as [|tk to_keep Htk Hk]; [cbn; eauto|].
    destruct choices as [|ch choices]; [cbn; eauto|].
    cbn [strip_loop]. unfold strip_one, masked_fill_0.
    rewrite length_map, index_put_true_length, Htk, Hs, Nat.eqb_refl.
    cbn [bind].
    destruct (IH to_keep choices Hk) as [r ->]. cbn [bind]. eauto.
Qed.

(** With stripping enabled a batch is produced when the surfaces are
    square: the mask has [resolution.Nw] entries and is applied to the
    [P] rows of each surface. *)
Lemma generates_with_strip (st st' : store) (c : ref) (g : t) :
  __init__ st c true = Ok g ->
  Resolution.Nw (Config.resolution (st' c))
    = Resolution.phi (Config.resolution (st c)) ->
  (0 < Resolution.Nw (Config.resolution (st' c)))%nat ->
  generates st' g.
Proof.
  intros Hinit Hsq Hpos d. unfold next_batch.
  destruct (generation_tab3 st st' c true g d Hinit) as (F & features & ->).
  destruct (init_inv st c true g Hinit)
    as (_ & _ & _ & _ & _ & _ & _ & _ & _ & Hc & Hstrip & _).
  cbn [bind]. rewrite Hstrip, Hc. cbn [negb].
  unfold strip, torch_randint.
  destruct (Nat.eqb_spec (Resolution.Nw (Config.resolution (st' c))) 0);
    [lia|].
  cbn [bind].
  destruct (strip_loop_square (Resolution.phi (Config.resolution (st c)))
              (tab3 (Config.batch_size (st' c))
                    (Resolution.phi (Config.resolution (st c)))
                    (Resolution.Nw (Config.resolution (st c))) F))
    with (to_keep := repeat (repeat false (Resolution.Nw (Config.resolution (st' c))))
                            (Config.batch_size (st' c)))
         (choices := tab (Config.batch_size (st' c))
                       (fun b => tab 8 (fun k =>
                          (randint_raw d b k
                             mod Resolution.Nw (Config.resolution (st' c)))%nat)))
    as [r Hr].
  - apply Forall_forall. intros m Hm. unfold tab3 in Hm.
    unfold tab in Hm at 1. apply in_map_iff in Hm as (i & <- & _).
    apply tab_length.
  - apply Forall_forall. intros tk Htk.
    apply repeat_spec in Htk. subst tk.
    now rewrite repeat_length.
  - rewrite Hr. cbn [bind]. eauto.
Qed.

End WithDataProcessing.

(** When [SurfaceGenerator.__init__] succeeds and what it raises. *)
Lemma surface_init_result :
  forall (st : store) (c : ref) (strip : bool),
    ((exists g, SurfaceGenerator.__init__ st c strip = Ok g)
     <-> (Range.min (Config.phi_range (st c)) <> 0
          /\ Range.max (Config.phi_range (st c)) <> 0
          /\ Range.min (Config.nw_range (st c)) <> 0
          /\ Range.max (Config.nw_range (st c)) <> 0))
    /\ (forall e, SurfaceGenerator.__init__ st c strip = Raise e ->
                  e = ValueError).
Proof.
  intros st c strip. unfold SurfaceGenerator.__init__. cbv zeta.
  destruct (Req_dec (Range.min (Config.phi_range (st c))) 0) as [H1|H1];
    [rewrite (geomspace_zero _ _ _ (or_introl H1)); cbn [bind]; split;
       [split; [intros [g Hg]; discriminate | tauto]
       | intros e [= <-]; reflexivity]|].
  destruct (Req_dec (Range.max (Config.phi_range (st c))) 0) as [H2|H2];
    [rewrite (geomspace_zero _ _ _ (or_intror H2)); cbn [bind]; split;
       [split; [intros [g Hg]; discriminate | tauto]
       | intros e [= <-]; reflexivity]|].
  destruct (geomspace_nonzero _ _
              (Resolution.phi (Config.resolution (st c))) H1 H2) as [phis ->].
  cbn [bind].
  destruct (Req_dec (Range.min (Config.nw_range (st c))) 0) as [H3|H3];
    [rewrite (geomspace_zero _ _ _ (or_introl H3)); cbn [bind]; split;
       [split; [intros [g Hg]; discriminate | tauto]
       | intros e [= <-]; reflexivity]|].
  destruct (Req_dec (Range.max (Config.nw_range (st c))) 0) as [H4|H4];
    [rewrite (geomspace_zero _ _ _ (or_intror H4)); cbn [bind]; split;
       [split; [intros [g Hg]; discriminate | tauto]
       | intros e [= <-]; reflexivity]|].
  destruct (geomspace_nonzero _ _
              (Resolution.Nw (Config.resolution (st c))) H3 H4) as [nws ->].
  cbn [bind]. split; [|discriminate].
  split; [tauto | eauto].
Qed.

End InitFacts.

(* ================================================================= *)
(** ** Facts about the closed forms *)

Module RegimeFacts.
Import TensorFacts.

Lemma Rpower_gt_base (x y : R) : 1 < x -> 1 < y -> x < Rpower x y.
Proof.
  intros Hx Hy. rewrite <- (Rpower_1 x) at 1 by lra.
  now apply Rpower_lt.
Qed.

(** What does hold of [Bth]: it is the stated expression, it is at least
    [min], and it is strictly below [Bg^(1/0.824) * (max - min) + min]. *)
Lemma mixed_bth_bounds (r : Range.t) (u bg : R) :
  0 <= u < 1 -> Range.min r < Range.max r ->
  Range.min r <= Regime.mixed_bth r u bg
  /\ Regime.mixed_bth r u bg
     < Rpower bg (1 / 0.824) * (Range.max r - Range.min r) + Range.min r.
Proof.
  intros Hu Hr. unfold Regime.mixed_bth.
  assert (Hp : 0 < Rpower bg (1 / 0.824)) by apply exp_pos.
  set (k := Rpower bg (1 / 0.824)) in *.
  assert (Hk : 0 < k * (Range.max r - Range.min r))
    by (apply Rmult_lt_0_compat; lra).
  split; nra.
Qed.

(** The crossover function is strictly increasing in the chain length. *)
Lemma crossover_increasing (ne c n1 n2 : R) :
  0 < c -> 0 < n1 -> n1 < n2 ->
  n1 * (1 + (n1 / ne) ^ 2) * c < n2 * (1 + (n2 / ne) ^ 2) * c.
Proof.
  intros Hc H1 H12.
  apply Rmult_lt_compat_r; [assumption|].
  unfold Rdiv. rewrite !Rpow_mult_distr.
  assert (Hk : 0 <= (/ ne) ^ 2) by apply pow2_ge_0.
  assert (Hsq : n1 ^ 2 < n2 ^ 2) by nra.
  assert (Hq : n1 ^ 2 * (/ ne) ^ 2 <= n2 ^ 2 * (/ ne) ^ 2) by nra.
  assert (Hp : 0 <= n1 ^ 2 * (/ ne) ^ 2) by nra.
  nra.
Qed.

Lemma good_g_pos (bg ph : R) : 0 < Regime.good_g bg ph.
Proof.
  unfold Regime.good_g. apply Rdiv_lt_0_compat; apply exp_pos.
Qed.

Lemma mixed_g_pos (bg bth ph : R) :
  0 < bth -> 0 < ph -> 0 < Regime.mixed_g bg bth ph.
Proof.
  intros Hb Hp. unfold Regime.mixed_g. apply Rmin_pos.
  - apply Rdiv_lt_0_compat; apply exp_pos.
  - apply Rdiv_lt_0_compat; apply pow_lt; assumption.
Qed.

Lemma theta_g_pos (bth ph : R) : 0 < bth -> 0 < ph -> 0 < Regime.theta_g bth ph.
Proof.
  intros Hb Hp. unfold Regime.theta_g.
  apply Rdiv_lt_0_compat; apply pow_lt; assumption.
Qed.

Lemma good_eta_increasing (bg pe ph n1 n2 : R) :
  0 < ph -> 0 < n1 -> n1 < n2 ->
  Regime.good_eta bg pe ph n1 < Regime.good_eta bg pe ph n2.
Proof.
  intros Hp H1 H12. unfold Regime.good_eta. cbv zeta.
  apply crossover_increasing; try assumption.
  apply Rmin_pos.
  - apply Rdiv_lt_0_compat; [lra | apply good_g_pos].
  - apply Rdiv_lt_0_compat; [assumption | apply exp_pos].
Qed.

Lemma mixed_eta_increasing (bg bth pe ph n1 n2 : R) :
  0 < bth -> 0 < ph -> 0 < n1 -> n1 < n2 ->
  Regime.mixed_eta bg bth pe ph n1 < Regime.mixed_eta bg bth pe ph n2.
Proof.
  intros Hb Hp H1 H12. unfold Regime.mixed_eta.
  apply crossover_increasing; try assumption.
  apply Rmin_pos.
  - apply Rdiv_lt_0_compat; [lra | now apply mixed_g_pos].
  - apply Rdiv_lt_0_compat; [assumption | now apply pow_lt].
Qed.

Lemma theta_eta_increasing (bth pe ph n1 n2 : R) :
  0 < bth -> 0 < ph -> 0 < n1 -> n1 < n2 ->
  Regime.theta_eta bth pe ph n1 < Regime.theta_eta bth pe ph n2.
Proof.
  intros Hb Hp H1 H12. unfold Regime.theta_eta.
  apply crossover_increasing; try assumption.
  apply Rmin_pos.
  - apply Rdiv_lt_0_compat; [lra | now apply theta_g_pos].
  - apply Rdiv_lt_0_compat; [assumption | now apply pow_lt].
Qed.

Lemma min3_least (a b c : R) :
  Flat.min3 a b c <= a /\ Flat.min3 a b c <= b /\ Flat.min3 a b c <= c
  /\ (Flat.min3 a b c = a \/ Flat.min3 a b c = b \/ Flat.min3 a b c = c).
Proof.
  unfold Flat.min3.
  destruct (Rle_dec a b), (Rle_dec a c), (Rle_dec b c);
    repeat split; auto; lra.
Qed.

Lemma Rmin_nested_min3 (a b c : R) : Rmin (Rmin a b) c = Flat.min3 a b c.
Proof.
  unfold Flat.min3, Rmin.
  destruct (Rle_dec a b), (Rle_dec a c), (Rle_dec b c);
    try reflexivity; try lra.
Qed.

Lemma tfmin_nested_tmin3 (x y z : tensor3 R) :
  tfmin (tfmin x y) z = Flat.tmin3 x y z.
Proof.
  unfold tfmin, Flat.tmin3, Flat.bop3_ternary, bop3.
  apply bcast_bcast. intros a1 b1 c1.
  apply bcast_bcast. intros a2 b2 c2.
  apply bcast_bcast. intros a b c.
  apply Rmin_nested_min3.
Qed.

(** The three-operand broadcast of [min3] is entry-wise on operands of one
    shape. *)
Lemma tmin3_tab3 (n1 n2 n3 : nat) (F G H : nat -> nat -> nat -> R) :
  Flat.tmin3 (tab3 n1 n2 n3 F) (tab3 n1 n2 n3 G) (tab3 n1 n2 n3 H)
  = tab3 n1 n2 n3 (fun i j k => Flat.min3 (F i j k) (G i j k) (H i j k)).
Proof.
  unfold Flat.tmin3, Flat.bop3_ternary.
  rewrite bop3_tab3, !blen_same by (unfold compat; auto).
  rewrite bop3_tab3, !blen_same by (unfold compat; auto).
  apply tab3_ext. intros i j k Hi Hj Hk.
  now rewrite !(bidx_lt n1 i Hi), !(bidx_lt n2 j Hj), !(bidx_lt n3 k Hk).
Qed.

(** Grouping does not matter for [fmin] in the presence of NaN either. *)
Lemma fmin_nan_assoc (a b c : option R) :
  Flat.fmin_nan (Flat.fmin_nan a b) c = Flat.fmin_nan a (Flat.fmin_nan b c).
Proof.
  destruct a, b, c; cbn; try reflexivity.
  now rewrite Rmin_assoc.
Qed.

Lemma fmin_nan_comm (a b : option R) :
  Flat.fmin_nan a b = Flat.fmin_nan b a.
Proof.
  destruct a, b; cbn; try reflexivity.
  now rewrite Rmin_comm.
Qed.

End RegimeFacts.

(* ================================================================= *)
(** ** Facts about [VoxelImageGenerator] *)

Module VoxelGeneratorFacts.
Import TensorFacts NumpyFacts VoxelFacts InitFacts.

Lemma store_set_same (st : store) (r : ref) (c : Config.t) :
  store_set st r c r = c.
Proof. unfold store_set. now rewrite Nat.eqb_refl. Qed.

Lemma store_set_other (st : store) (r r' : ref) (c : Config.t) :
  r' <> r -> store_set st r c r' = st r'.
Proof.
  intros H. unfold store_set. destruct (Nat.eqb_spec r' r); congruence.
Qed.

(** The state [VoxelImageGenerator(config, strip_nw)] leaves behind. *)
Lemma voxel_init_inv {dp : data_processing} (st st' : store) (c : ref)
  (strip : bool) (r : result VoxelImageGenerator.t) :
  VoxelImageGenerator.__init__ st c strip = (st', r) ->
  st' = store_set st c
          (Config.set_resolution (st c)
             {| Resolution.phi := Resolution.phi (Config.resolution (st c)) + 1;
                Resolution.Nw := Resolution.Nw (Config.resolution (st c)) + 1;
                Resolution.eta_sp :=
                  Resolution.eta_sp (Config.resolution (st c)) + 1 |})
  /\ forall v, r = Ok v ->
       exists grid,
         np.geomspace (Range.min (Config.eta_sp_range (st' c)))
                      (Range.max (Config.eta_sp_range (st' c)))
                      (Resolution.eta_sp (Config.resolution (st' c))) = Ok grid
         /\ VoxelImageGenerator.grid_values v
            = map (fun x => preprocess_eta_sp x (Config.eta_sp_range (st' c)))
                  grid
         /\ SurfaceGenerator.__init__ st' c strip
            = Ok (VoxelImageGenerator.surface_generator v)
         /\ VoxelImageGenerator.config v = c
         /\ VoxelImageGenerator.strip_nw v = strip
         /\ VoxelImageGenerator.num_batches v = None
         /\ VoxelImageGenerator._surface_generator_iter v = None.
Proof.
  unfold VoxelImageGenerator.__init__. cbv zeta. intros [= <- <-].
  split; [reflexivity|]. intros v.
  destruct (np.geomspace _ _ _) as [grid|e]; [|discriminate].
  cbn [bind].
  destruct (SurfaceGenerator.__init__ _ c strip) as [sg|e]; [|discriminate].
  cbn [bind]. intros [= <-]. exists grid. repeat split.
Qed.

(** The cells of the image of one batch of well-shaped surfaces. *)
Lemma image_cells (batch P W : nat) (grid_values : list R)
  (surfaces : tensor3 R) (b p w e : nat) :
  shape3 surfaces batch P W ->
  (b < batch)%nat -> (p < P - 1)%nat -> (w < W - 1)%nat ->
  (e < length grid_values - 1)%nat ->
  exists image lower upper edge_lo edge_hi v,
    Voxel.image R 0 Rltb batch P W (length grid_values) grid_values surfaces
    = Ok image
    /\ shape4 image batch (P - 1) (W - 1) (length grid_values - 1)
    /\ get3 surfaces b p w = Some lower
    /\ get3 surfaces b (p + 1) (w + 1) = Some upper
    /\ nth_error grid_values e = Some edge_lo
    /\ nth_error grid_values (e + 1) = Some edge_hi
    /\ get4 image b p w e = Some v
    /\ (v = 0 \/ v = 1)%Z
    /\ (v = 1%Z <-> lower < edge_hi /\ edge_lo < upper).
Proof.
  intros Hs Hb Hp Hw He.
  eexists.
  exists (nth w (nth p (nth b surfaces []) []) 0).
  exists (nth (S w) (nth (S p) (nth b surfaces []) []) 0).
  exists (nth e grid_values 0), (nth (S e) grid_values 0).
  eexists.
  split; [apply (image_tab4 R 0 Rltb); exact Hs|].
  split; [apply shape4_tab4|].
  split; [apply (get3_nth 0 surfaces batch P W); assumption || lia|].
  split.
  { rewrite !Nat.add_1_r.
    apply (get3_nth 0 surfaces batch P W); assumption || lia. }
  split; [apply nth_error_nth'; lia|].
  split; [rewrite Nat.add_1_r; apply nth_error_nth'; lia|].
  split; [rewrite get4_tab4 by assumption; reflexivity|].
  cbv beta.
  split; [destruct (_ && _); cbn; auto|].
  rewrite <- !Rltb_lt, <- andb_true_iff.
  destruct (_ && _); cbn; split; intros; congruence || reflexivity.
Qed.

(** When [VoxelImageGenerator.__init__] succeeds, what it raises, and
    that the configuration is changed before it can fail. *)
Lemma voxel_init_result {dp : data_processing} :
  forall (st : store) (c : ref) (strip : bool),
    ((exists v, snd (VoxelImageGenerator.__init__ st c strip) = Ok v)
     <-> (Range.min (Config.eta_sp_range (st c)) <> 0
          /\ Range.max (Config.eta_sp_range (st c)) <> 0
          /\ Range.min (Config.phi_range (st c)) <> 0
          /\ Range.max (Config.phi_range (st c)) <> 0
          /\ Range.min (Config.nw_range (st c)) <> 0
          /\ Range.max (Config.nw_range (st c)) <> 0))
    /\ (forall e,
          snd (VoxelImageGenerator.__init__ st c strip) = Raise e ->
          e = ValueError
          /\ Resolution.eta_sp
               (Config.resolution (fst (VoxelImageGenerator.__init__ st c strip) c))
             = (Resolution.eta_sp (Config.resolution (st c)) + 1)%nat).
Proof.
  intros st c strip.
  unfold VoxelImageGenerator.__init__. cbv zeta. cbn [fst snd].
  rewrite store_set_same.
  cbn [Config.set_resolution Config.eta_sp_range Config.resolution
       Resolution.eta_sp].
  set (st' := store_set st c _).
  destruct (surface_init_result st' c strip) as [Hiff Hexn].
  unfold st' in Hiff at 2 3 4 5. rewrite store_set_same in Hiff.
  cbn [Config.set_resolution Config.phi_range Config.nw_range] in Hiff.
  destruct (Req_dec (Range.min (Config.eta_sp_range (st c))) 0) as [H1|H1];
    [rewrite (geomspace_zero _ _ _ (or_introl H1)); cbn [bind]; split;
       [split; [intros [v Hv]; discriminate | tauto]
       | intros e [= <-]; split; reflexivity]|].
  destruct (Req_dec (Range.max (Config.eta_sp_range (st c))) 0) as [H2|H2];
    [rewrite (geomspace_zero _ _ _ (or_intror H2)); cbn [bind]; split;
       [split; [intros [v Hv]; discriminate | tauto]
       | intros e [= <-]; split; reflexivity]|].
  destruct (geomspace_nonzero _ _
              (Resolution.eta_sp (Config.resolution (st c)) + 1) H1 H2)
    as [grid ->].
  cbn [bind].
  destruct (SurfaceGenerator.__init__ st' c strip) as [sg|e] eqn:Hsg;
    cbn [bind].
  - split; [|discriminate].
    split; [intros _ | eauto].
    destruct Hiff as [Hiff _]. specialize (Hiff (ex_intro _ sg eq_refl)).
    tauto.
  - split.
    + split; [intros [v Hv]; discriminate|].
      intros (_ & _ & H). apply Hiff in H as [g Hg]. discriminate.
    + intros e' [= <-]. split; [now apply Hexn | reflexivity].
Qed.

End VoxelGeneratorFacts.

(* ================================================================= *)
(** ** The example configuration, constructed *)

Module ExampleFacts.
Import TensorFacts NumpyFacts SurfaceGenerator Example.

Lemma example_init (m : Mode) (P W E batch : nat) (strip : bool) :
  __init__ (example_store m P W E batch) 0%nat strip
  = Ok (example_generator m P W strip).
Proof.
  unfold __init__, example_store, example_config. cbn [
    Config.phi_range Config.nw_range Config.resolution Config.mode
    Config.bg_range Config.bth_range Config.pe_range Config.device
    Resolution.phi Resolution.Nw Range.min Range.max range].
  rewrite !geomspace_positive by lra. cbn [bind].
  unfold example_generator. destruct m; reflexivity.
Qed.

Lemma example_voxel_init (m : Mode) (P W E batch : nat) (strip : bool) :
  VoxelImageGenerator.__init__ (dp := spec_data_processing)
    (example_store m P W E batch) 0%nat strip
  = (example_voxel_store m P W E batch,
     Ok (example_voxel_generator m P W E strip)).
Proof.
  unfold VoxelImageGenerator.__init__. cbv zeta.
  change (store_set (example_store m P W E batch) 0%nat _)
    with (example_voxel_store m P W E batch).
  f_equal.
  change (example_voxel_store m P W E batch 0%nat)
    with (example_config m (P + 1) (W + 1) (E + 1) batch).
  cbn [example_config Config.eta_sp_range Config.resolution
       Resolution.eta_sp Range.min Range.max range].
  rewrite geomspace_positive by lra. cbn [bind].
  change (SurfaceGenerator.__init__ (example_voxel_store m P W E batch) 0%nat strip)
    with (SurfaceGenerator.__init__
            (example_store m (P + 1) (W + 1) (E + 1) batch) 0%nat strip).
  rewrite example_init. reflexivity.
Qed.

Lemma example_voxel_iter :
  VoxelImageGenerator.__iter__
    (VoxelImageGenerator.__call__ (example_voxel_generator GOOD 2 2 2 false) 1)
  = Ok example_voxel_ready.
Proof. reflexivity. Qed.

End ExampleFacts.

(* ================================================================= *)
(** ** The properties of the specification *)

Module Claims.
Import TensorFacts NumpyFacts GenerationFacts IteratorFacts InitFacts
  VoxelFacts RegimeFacts VoxelGeneratorFacts Example ExampleFacts.

(** C1 -- GOOD mode.  For a generator built by [__init__] from a GOOD
    configuration, [_good_generation] returns the preprocessed tensor
    [eta_sp]; this raw tensor is the broadcast of the [(batch, 1, 1)]
    samples against the [(1, P, 1)] concentration axis and the
    [(1, 1, W)] chain-length axis, has shape [(batch, P, W)], and its entry
    at batch element [b] and grid point [(p, w)] is
    [Nw * (1 + (Nw / (Pe^2 * g))^2) * min(1/g, phi / Bg^(1/(1-0.588)))]
    with [g = Bg^(3/0.764) / phi^(1/0.764)]. *)
Theorem good_generation_closed_form {dp : data_processing} :
  forall (st st' : store) (c : ref) (strip : bool) (g : SurfaceGenerator.t)
         (d : draws) (b p w : nat),
    SurfaceGenerator.__init__ st c strip = Ok g ->
    Config.mode (st c) = GOOD ->
    (b < Config.batch_size (st' c))%nat ->
    (p < Resolution.phi (Config.resolution (st c)))%nat ->
    (w < Resolution.Nw (Config.resolution (st c)))%nat ->
    exists (phis nws : list R) (features : tensor2 R),
      let batch := Config.batch_size (st' c) in
      let P := Resolution.phi (Config.resolution (st c)) in
      let W := Resolution.Nw (Config.resolution (st c)) in
      let Bg := sample (bg_sample d) batch in
      let Pe := sample (pe_sample d) batch in
      let eta_sp :=
        SurfaceGenerator.good_eta_sp
          (SurfaceGenerator.phi g) (SurfaceGenerator.Nw g) Bg Pe in
      SurfaceGenerator._good_generation st' g d
      = Ok (SurfaceGenerator.preprocess3 eta_sp (Config.eta_sp_range (st' c)),
            features)
      /\ SurfaceGenerator.phi g = of_axis1 phis
      /\ SurfaceGenerator.Nw g = of_axis2 nws
      /\ shape3 Bg batch 1 1
      /\ shape3 Pe batch 1 1
      /\ shape3 (SurfaceGenerator.phi g) 1 P 1
      /\ shape3 (SurfaceGenerator.Nw g) 1 1 W
      /\ shape3 eta_sp batch P W
      /\ get3 eta_sp b p w
         = Some (Regime.good_eta (bg_sample d b) (pe_sample d b)
                   (nth p phis 0) (nth w nws 0)).
Proof.
  intros st st' c strip g d b p w Hinit Hmode Hb Hp Hw.
  destruct (init_inv st c strip g Hinit)
    as (phis & nws & Hphis & Hnws & Hphi & HNw & Hgen & Hbg & _ & Hc & _).
  apply geomspace_length in Hphis, Hnws.
  exists phis, nws.
  eexists. cbv zeta.
  unfold SurfaceGenerator._good_generation. cbv zeta.
  destruct (SurfaceGenerator.bg_distribution g);
    [|exfalso; apply Hbg; congruence].
  rewrite Hc, Hphi, HNw.
  split; [reflexivity|].
  split; [reflexivity|].
  split; [reflexivity|].
  split; [unfold sample; rewrite of_batch_tab3; apply shape3_tab3|].
  split; [unfold sample; rewrite of_batch_tab3; apply shape3_tab3|].
  split; [rewrite (of_axis1_tab3 0), Hphis; apply shape3_tab3|].
  split; [rewrite (of_axis2_tab3 0), Hnws; apply shape3_tab3|].
  rewrite good_eta_sp_tab3, Hphis, Hnws.
  split; [apply shape3_tab3|].
  now rewrite get3_tab3.
Qed.

Lemma good_generation_closed_form_witness :
  exists (phis nws : list R) (features : tensor2 R),
    SurfaceGenerator._good_generation (dp := spec_data_processing)
      (example_store GOOD 2 2 2 1) (example_generator GOOD 2 2 false)
      example_draws
    = Ok (SurfaceGenerator.preprocess3 (dp := spec_data_processing)
            (SurfaceGenerator.good_eta_sp
               (SurfaceGenerator.phi (example_generator GOOD 2 2 false))
               (SurfaceGenerator.Nw (example_generator GOOD 2 2 false))
               (sample (bg_sample example_draws) 1)
               (sample (pe_sample example_draws) 1))
            (range 1 1000000),
          features)
    /\ get3 (SurfaceGenerator.good_eta_sp
               (SurfaceGenerator.phi (example_generator GOOD 2 2 false))
               (SurfaceGenerator.Nw (example_generator GOOD 2 2 false))
               (sample (bg_sample example_draws) 1)
               (sample (pe_sample example_draws) 1)) 0 0 0
       = Some (Regime.good_eta 1.5 8 (nth 0 phis 0) (nth 0 nws 0)).
Proof.
  destruct (good_generation_closed_form (dp := spec_data_processing)
              (example_store GOOD 2 2 2 1) (example_store GOOD 2 2 2 1)
              0%nat false (example_generator GOOD 2 2 false)
              example_draws 0 0 0
              (example_init GOOD 2 2 2 1 false) eq_refl
              (Nat.lt_0_succ 0) (Nat.lt_0_succ 1) (Nat.lt_0_succ 1))
    as (phis & nws & features & Hgen & _ & _ & _ & _ & _ & _ & _ & Hget).
  exists phis, nws, features. split; [exact Hgen | exact Hget].
Defined.

(** C2 -- Mixed mode.  [Bth] is [u * Bg^(1/0.824) * (max - min) + min] per
    batch element, but it is not kept below [bth_range.max]: with the range
    [0.22, 0.82], the draw [u = 0.9] and [Bg = 1.5] it exceeds the
    maximum. *)
Theorem mixed_Bth_exceeds_range :
  SurfaceGenerator.mixed_Bth (range 0.22 0.82)
    (torch_rand (rand example_draws) 1) (sample (bg_sample example_draws) 1)
  = [[[0.9 * Rpower 1.5 (1 / 0.824) * (0.82 - 0.22) + 0.22]]]
  /\ 0.82 < 0.9 * Rpower 1.5 (1 / 0.824) * (0.82 - 0.22) + 0.22.
Proof.
  split; [reflexivity|].
  assert (H : 1.5 < Rpower 1.5 (1 / 0.824)).
  { apply Rpower_gt_base; [lra|].
    apply (Rmult_lt_reg_r 0.824); [lra|]. field_simplify; lra. }
  lra.
Qed.

(** C3 -- Voxelizer.  When the wrapped generator yields surfaces of the
    shape [(batch, P, W)] of the configuration and there are [E] bin
    edges, [__next__] returns a tensor of shape
    [(batch, P-1, W-1, E-1)] whose cells are 0 or 1, and the cell
    [(b, p, w, e)] is 1 exactly when [surfaces[b, p, w] < edge[e+1]] and
    [surfaces[b, p+1, w+1] > edge[e]], both strictly. *)
Theorem voxel_next_occupancy {dp : data_processing} :
  forall (st : store) (self : VoxelImageGenerator.t) (d : draws)
         (g' : SurfaceGenerator.t) (surfaces : tensor3 R)
         (features : tensor2 R) (b p w e : nat),
    let c := st (VoxelImageGenerator.config self) in
    let batch := Config.batch_size c in
    let P := Resolution.phi (Config.resolution c) in
    let W := Resolution.Nw (Config.resolution c) in
    let E := Resolution.eta_sp (Config.resolution c) in
    VoxelImageGenerator._surface_generator_iter self = Some tt ->
    SurfaceGenerator.__next__ st (VoxelImageGenerator.surface_generator self) d
    = (g', Ok (surfaces, features)) ->
    shape3 surfaces batch P W ->
    length (VoxelImageGenerator.grid_values self) = E ->
    (b < batch)%nat -> (p < P - 1)%nat -> (w < W - 1)%nat ->
    (e < E - 1)%nat ->
    exists image lower upper edge_lo edge_hi v,
      VoxelImageGenerator.__next__ st self d
      = (VoxelImageGenerator.set_surface_generator self g',
         Ok (image, features))
      /\ shape4 image batch (P - 1) (W - 1) (E - 1)
      /\ get3 surfaces b p w = Some lower
      /\ get3 surfaces b (p + 1) (w + 1) = Some upper
      /\ nth_error (VoxelImageGenerator.grid_values self) e = Some edge_lo
      /\ nth_error (VoxelImageGenerator.grid_values self) (e + 1)
         = Some edge_hi
      /\ get4 image b p w e = Some v
      /\ (v = 0 \/ v = 1)%Z
      /\ (v = 1%Z <-> lower < edge_hi /\ edge_lo < upper).
Proof.
  intros st self d g' surfaces features b p w e c batch P W E
         Hiter Hnext Hshape Hgrid Hb Hp Hw He.
  rewrite <- Hgrid in He.
  destruct (image_cells batch P W (VoxelImageGenerator.grid_values self)
              surfaces b p w e Hshape Hb Hp Hw He)
    as (image & lower & upper & lo & hi & v & Himg & Hsh & Hrest).
  exists image, lower, upper, lo, hi, v.
  split.
  { unfold VoxelImageGenerator.__next__. rewrite Hiter, Hnext.
    cbn [bind VoxelImageGenerator.config
         VoxelImageGenerator.set_surface_generator
         VoxelImageGenerator.grid_values].
    fold c. fold batch P W E. rewrite <- Hgrid, Himg. reflexivity. }
  split; [rewrite <- Hgrid; exact Hsh|].
  exact Hrest.
Qed.

Lemma voxel_next_occupancy_witness :
  exists self' image features v,
    VoxelImageGenerator.__next__ (dp := spec_data_processing)
      (example_voxel_store GOOD 2 2 2 1) example_voxel_ready example_draws
    = (self', Ok (image, features))
    /\ shape4 image 1 2 2 2
    /\ get4 image 0 1 1 1 = Some v
    /\ (v = 0 \/ v = 1)%Z.
Proof.
  destruct (generation_tab3 (dp := spec_data_processing)
              (example_store GOOD 3 3 3 1) (example_voxel_store GOOD 2 2 2 1)
              0%nat false (example_generator GOOD 3 3 false) example_draws
              (example_init GOOD 3 3 3 1 false))
    as (F & features & Hgen).
  destruct (voxel_next_occupancy (dp := spec_data_processing)
              (example_voxel_store GOOD 2 2 2 1) example_voxel_ready
              example_draws
              (SurfaceGenerator.set_index
                 (SurfaceGenerator.__iter__
                    (SurfaceGenerator.__call__
                       (example_generator GOOD 3 3 false) 1)) (0 + 1))
              (tab3 1 3 3 F) features 0 1 1 1)
    as (image & _ & _ & _ & _ & v & Hnext & Hshape & _ & _ & _ & _ & Hget
        & Hv & _).
  - reflexivity.
  - change (VoxelImageGenerator.surface_generator example_voxel_ready)
      with (SurfaceGenerator.__iter__
              (SurfaceGenerator.__call__ (example_generator GOOD 3 3 false) 1)).
    rewrite (next_running _ _ example_draws 0 1)
      by (reflexivity || lia).
    f_equal. unfold SurfaceGenerator.next_batch.
    change (SurfaceGenerator.call_generation_function
              (dp := spec_data_processing) (example_voxel_store GOOD 2 2 2 1)
              (SurfaceGenerator.__iter__
                 (SurfaceGenerator.__call__
                    (example_generator GOOD 3 3 false) 1)) example_draws)
      with (SurfaceGenerator.call_generation_function
              (dp := spec_data_processing) (example_voxel_store GOOD 2 2 2 1)
              (example_generator GOOD 3 3 false) example_draws).
    rewrite Hgen. reflexivity.
  - apply shape3_tab3.
  - cbn [example_voxel_ready VoxelImageGenerator.grid_values
         VoxelImageGenerator.set_iter VoxelImageGenerator.set_num_batches
         example_voxel_generator].
    rewrite length_map, tab_length. reflexivity.
  - vm_compute; lia.
  - vm_compute; lia.
  - vm_compute; lia.
  - vm_compute; lia.
  - eexists. exists image, features, v.
    split; [exact Hnext|]. split; [exact Hshape|].
    split; [exact Hget | exact Hv].
Defined.

(** C4 -- Batch iterator.  On a generator that produces a batch for any
    draws, [for ... in generator(n1)] yields exactly [n1] pairs (none for a
    negative [n1]) and ends on [StopIteration]; every later [__next__]
    raises [StopIteration] again; a following [for ... in generator(n2)]
    yields exactly [n2] more.  Along the way [__next__] emits a pair and
    increments the index while the index is below [num_batches]. *)
Theorem call_then_iterate_yields_num_batches {dp : data_processing} :
  forall (st : store) (g : SurfaceGenerator.t) (rng : nat -> draws)
         (n1 n2 : Z) (fuel1 fuel2 k1 k2 : nat),
    SurfaceGenerator.generates st g ->
    (Z.to_nat n1 < fuel1)%nat -> (Z.to_nat n2 < fuel2)%nat ->
    (* each step *)
    (forall self i n d,
        SurfaceGenerator.generates st self ->
        SurfaceGenerator._index self = Some i ->
        SurfaceGenerator.num_batches self = Some n ->
        ((i < n)%Z ->
         exists item,
           SurfaceGenerator.__next__ st self d
           = (SurfaceGenerator.set_index self (i + 1), Ok item))
        /\ ((n <= i)%Z ->
            SurfaceGenerator.__next__ st self d = (self, Raise StopIteration)))
    (* the two loops *)
    /\ exists g1 pairs1 g2 pairs2,
        SurfaceGenerator.for_in_call fuel1 st g n1 rng k1
        = Some (g1, pairs1, None)
        /\ Z.of_nat (length pairs1) = Z.max 0 n1
        /\ SurfaceGenerator._index g1 = Some (Z.max 0 n1)
        /\ (forall d, SurfaceGenerator.__next__ st g1 d
                      = (g1, Raise StopIteration))
        /\ SurfaceGenerator.for_in_call fuel2 st g1 n2 rng k2
           = Some (g2, pairs2, None)
        /\ Z.of_nat (length pairs2) = Z.max 0 n2
        /\ SurfaceGenerator._index g2 = Some (Z.max 0 n2)
        /\ (forall d, SurfaceGenerator.__next__ st g2 d
                      = (g2, Raise StopIteration)).
Proof.
  intros st g rng n1 n2 fuel1 fuel2 k1 k2 Hg Hf1 Hf2. split.
  - intros self i n d Hs Hi Hn. split.
    + intros Hlt. rewrite (next_running st self d i n Hi Hn Hlt).
      destruct (Hs d) as [item ->]. eauto.
    + intros Hle. exact (next_exhausted st self d i n Hi Hn Hle).
  - destruct (for_in_call_counts st rng fuel1 g n1 k1 Hg Hf1)
      as (pairs1 & Hloop1 & Hlen1).
    set (g1 := SurfaceGenerator.set_index
                 (SurfaceGenerator.set_num_batches g n1) (Z.max 0 n1)) in *.
    assert (Hg1 : SurfaceGenerator.generates st g1).
    { now apply generates_set_index, generates_set_num_batches. }
    destruct (for_in_call_counts st rng fuel2 g1 n2 k2 Hg1 Hf2)
      as (pairs2 & Hloop2 & Hlen2).
    set (g2 := SurfaceGenerator.set_index
                 (SurfaceGenerator.set_num_batches g1 n2) (Z.max 0 n2)) in *.
    exists g1, pairs1, g2, pairs2.
    split; [exact Hloop1|]. split; [lia|]. split; [reflexivity|].
    split.
    { intros d.
      apply (next_exhausted st g1 d (Z.max 0 n1) n1); try reflexivity. lia. }
    split; [exact Hloop2|]. split; [lia|]. split; [reflexivity|].
    intros d.
    apply (next_exhausted st g2 d (Z.max 0 n2) n2); try reflexivity. lia.
Qed.

Lemma call_then_iterate_yields_num_batches_witness :
  exists g1 pairs1 g2 pairs2,
    SurfaceGenerator.for_in_call (dp := spec_data_processing) 4
      (example_store GOOD 2 2 2 1) (example_generator GOOD 2 2 false)
      3 (fun _ => example_draws) 0
    = Some (g1, pairs1, None)
    /\ length pairs1 = 3%nat
    /\ (forall d, SurfaceGenerator.__next__ (dp := spec_data_processing)
                    (example_store GOOD 2 2 2 1) g1 d
                  = (g1, Raise StopIteration))
    /\ SurfaceGenerator.for_in_call (dp := spec_data_processing) 3
         (example_store GOOD 2 2 2 1) g1 2 (fun _ => example_draws) 3
       = Some (g2, pairs2, None)
    /\ length pairs2 = 2%nat.
Proof.
  destruct (call_then_iterate_yields_num_batches (dp := spec_data_processing)
              (example_store GOOD 2 2 2 1) (example_generator GOOD 2 2 false)
              (fun _ => example_draws) 3 2 4 3 0 3
              (generates_without_strip _ _ 0%nat _
                 (example_init GOOD 2 2 2 1 false))
              ltac:(vm_compute; lia) ltac:(vm_compute; lia))
    as (_ & g1 & pairs1 & g2 & pairs2 & H1 & L1 & _ & S1 & H2 & L2 & _).
  exists g1, pairs1, g2, pairs2.
  repeat split; try assumption; lia.
Defined.

(** C5 -- Stripping.  The mask built from the eight draws has
    [resolution.Nw] entries and is applied to the first axis of each
    [(P, W)] surface, the concentration axis.  With [P = W = 2] and all
    draws equal to 0 the concentration row 1 is zeroed for every chain
    length, while the chain-length column 1, which was not drawn, keeps its
    entry in row 0; with [P = 3] the mask does not fit and [IndexError] is
    raised. *)
Theorem strip_masks_the_concentration_axis :
  SurfaceGenerator.strip (example_config GOOD 2 2 2 1) example_draws
    [[[1; 2]; [3; 4]]]
  = Ok [[[1; 2]; [0; 0]]]
  /\ SurfaceGenerator.strip (example_config GOOD 3 2 2 1) example_draws
       [[[1; 2]; [3; 4]; [5; 6]]]
     = Raise IndexError.
Proof. split; reflexivity. Qed.




(** C7 -- Restart.  [__call__] only stores [num_batches]; the position
    index is reset by [__iter__], which the [for] statement calls on the
    value of [generator(n)].  After [iter(generator(n))] the index is 0 and
    [num_batches] is [n], whatever the state of the generator was. *)
Theorem iter_after_call_resets_index :
  forall (g : SurfaceGenerator.t) (n : Z),
    SurfaceGenerator._index
      (SurfaceGenerator.__iter__ (SurfaceGenerator.__call__ g n)) = Some 0%Z
    /\ SurfaceGenerator.num_batches
         (SurfaceGenerator.__iter__ (SurfaceGenerator.__call__ g n)) = Some n
    /\ SurfaceGenerator.num_batches (SurfaceGenerator.__call__ g n) = Some n
    /\ SurfaceGenerator._index (SurfaceGenerator.__call__ g n)
       = SurfaceGenerator._index g.
Proof. intros g n. repeat split. Qed.

(** C7 as stated fails: on the generator left exhausted by
    [for ... in generator(3)], [generator(2)] alone leaves the index at 3,
    and [__next__] raises [StopIteration] at once. *)
Lemma call_alone_keeps_index :
  exists g pairs,
    SurfaceGenerator.for_in_call (dp := spec_data_processing) 4
      (example_store GOOD 2 2 2 1) (example_generator GOOD 2 2 false)
      3 (fun _ => example_draws) 0
    = Some (g, pairs, None)
    /\ SurfaceGenerator._index (SurfaceGenerator.__call__ g 2) = Some 3%Z
    /\ SurfaceGenerator._index (SurfaceGenerator.__call__ g 2) <> Some 0%Z
    /\ forall d,
        SurfaceGenerator.__next__ (dp := spec_data_processing)
          (example_store GOOD 2 2 2 1) (SurfaceGenerator.__call__ g 2) d
        = (SurfaceGenerator.__call__ g 2, Raise StopIteration).
Proof.
  destruct (for_in_call_counts (dp := spec_data_processing)
              (example_store GOOD 2 2 2 1) (fun _ => example_draws) 4
              (example_generator GOOD 2 2 false) 3 0
              (generates_without_strip _ _ 0%nat _
                 (example_init GOOD 2 2 2 1 false))
              ltac:(vm_compute; lia))
    as (pairs & Hloop & _).
  eexists. exists pairs. split; [exact Hloop|].
  split; [reflexivity|]. split; [discriminate|].
  intros d. apply (next_exhausted _ _ d 3 2); reflexivity || lia.
Qed.

(** C8 -- Monotonicity.  In each of the three modes, for positive
    parameters of a batch element [b] and a positive concentration at grid
    index [p], the raw surface value at a chain-length grid point [w1] is
    strictly below the value at any grid point [w2] of greater chain
    length. *)
Theorem eta_sp_increasing_in_chain_length :
  forall (phi Nw : list R) (batch : nat) (bg bth pe : nat -> R)
         (b p w1 w2 : nat),
    (b < batch)%nat -> (p < length phi)%nat ->
    (w1 < length Nw)%nat -> (w2 < length Nw)%nat ->
    0 < bg b -> 0 < bth b -> 0 < pe b ->
    0 < nth p phi 0 ->
    0 < nth w1 Nw 0 -> nth w1 Nw 0 < nth w2 Nw 0 ->
    (exists e1 e2,
        get3 (SurfaceGenerator.good_eta_sp (of_axis1 phi) (of_axis2 Nw)
                (sample bg batch) (sample pe batch)) b p w1 = Some e1
        /\ get3 (SurfaceGenerator.good_eta_sp (of_axis1 phi) (of_axis2 Nw)
                   (sample bg batch) (sample pe batch)) b p w2 = Some e2
        /\ e1 < e2)
    /\ (exists e1 e2,
        get3 (SurfaceGenerator.theta_eta_sp (of_axis1 phi) (of_axis2 Nw)
                (sample bth batch) (sample pe batch)) b p w1 = Some e1
        /\ get3 (SurfaceGenerator.theta_eta_sp (of_axis1 phi) (of_axis2 Nw)
                   (sample bth batch) (sample pe batch)) b p w2 = Some e2
        /\ e1 < e2)
    /\ (exists e1 e2,
        get3 (SurfaceGenerator.mixed_eta_sp (of_axis1 phi) (of_axis2 Nw)
                (sample bg batch) (sample bth batch) (sample pe batch))
             b p w1 = Some e1
        /\ get3 (SurfaceGenerator.mixed_eta_sp (of_axis1 phi) (of_axis2 Nw)
                   (sample bg batch) (sample bth batch) (sample pe batch))
                b p w2 = Some e2
        /\ e1 < e2).
Proof.
  intros phi Nw batch bg bth pe b p w1 w2
         Hb Hp Hw1 Hw2 Hbg Hbth Hpe Hphi Hn1 Hn12.
  rewrite good_eta_sp_tab3, theta_eta_sp_tab3, mixed_eta_sp_tab3.
  rewrite !get3_tab3 by assumption.
  split; [|split]; do 2 eexists; (split; [reflexivity|]);
    (split; [reflexivity|]).
  - now apply good_eta_increasing.
  - now apply theta_eta_increasing.
  - now apply mixed_eta_increasing.
Qed.

Lemma eta_sp_increasing_in_chain_length_witness :
  exists e1 e2,
    get3 (SurfaceGenerator.mixed_eta_sp
            (of_axis1 [0.001; 0.002; 0.004]) (of_axis2 [100; 200; 400])
            (sample (fun _ => 0.8) 1) (sample (fun _ => 0.5) 1)
            (sample (fun _ => 8) 1)) 0 1 1 = Some e1
    /\ get3 (SurfaceGenerator.mixed_eta_sp
               (of_axis1 [0.001; 0.002; 0.004]) (of_axis2 [100; 200; 400])
               (sample (fun _ => 0.8) 1) (sample (fun _ => 0.5) 1)
               (sample (fun _ => 8) 1)) 0 1 2 = Some e2
    /\ e1 < e2.
Proof.
  apply (eta_sp_increasing_in_chain_length
           [0.001; 0.002; 0.004] [100; 200; 400] 1
           (fun _ => 0.8) (fun _ => 0.5) (fun _ => 8) 0 1 1 2);
    cbn [length nth]; lia || lra.
Defined.

(** C9 -- Nested minimum.  On every input the nested computation
    [Pe^2 * fmin(fmin(e1, e2), e3)] of the entanglement strand length
    gives the same tensor as [Pe^2] times the flat three-way minimum of
    the three candidates: the grouping of the minimum does not change the
    result. *)
Theorem mixed_Ne_nested_is_flat :
  forall phi Bg Bth Pe : tensor3 R,
    SurfaceGenerator.mixed_Ne phi Bg Bth Pe = Flat.mixed_Ne_flat phi Bg Bth Pe.
Proof.
  intros phi Bg Bth Pe.
  unfold SurfaceGenerator.mixed_Ne, Flat.mixed_Ne_flat. cbv zeta.
  now rewrite tfmin_nested_tmin3.
Qed.

(** C9 as stated fails: no input separates the nested minimum from the
    flat three-way minimum. *)
Lemma no_input_separates_nested_from_flat :
  ~ exists phi Bg Bth Pe : tensor3 R,
      SurfaceGenerator.mixed_Ne phi Bg Bth Pe
      <> Flat.mixed_Ne_flat phi Bg Bth Pe.
Proof.
  intros (phi & Bg & Bth & Pe & H). apply H.
  unfold SurfaceGenerator.mixed_Ne, Flat.mixed_Ne_flat. cbv zeta.
  now rewrite tfmin_nested_tmin3.
Qed.

(** C10 -- Construction of a voxel generator.  The configuration object
    passed to [VoxelImageGenerator] is changed in place: its resolution
    becomes [(phi + 1, Nw + 1, eta_sp + 1)], every other field keeps its
    value and no other object changes.  The construction succeeds exactly
    when no endpoint of the viscosity, concentration and chain-length
    ranges is 0, and raises [ValueError] otherwise.  The generator it
    builds keeps that object, its internal [SurfaceGenerator] is built
    from it after the change and keeps it too, so the axes and the bin
    edges have one point more than the resolution that was passed in. *)
Theorem voxel_init_mutates_config {dp : data_processing} :
  forall (st st' : store) (c : ref) (strip : bool)
         (r : result VoxelImageGenerator.t),
    VoxelImageGenerator.__init__ st c strip = (st', r) ->
    Config.resolution (st' c)
    = {| Resolution.phi := Resolution.phi (Config.resolution (st c)) + 1;
         Resolution.Nw := Resolution.Nw (Config.resolution (st c)) + 1;
         Resolution.eta_sp := Resolution.eta_sp (Config.resolution (st c)) + 1 |}
    /\ Config.device (st' c) = Config.device (st c)
    /\ Config.mode (st' c) = Config.mode (st c)
    /\ Config.phi_range (st' c) = Config.phi_range (st c)
    /\ Config.nw_range (st' c) = Config.nw_range (st c)
    /\ Config.eta_sp_range (st' c) = Config.eta_sp_range (st c)
    /\ Config.bg_range (st' c) = Config.bg_range (st c)
    /\ Config.bth_range (st' c) = Config.bth_range (st c)
    /\ Config.pe_range (st' c) = Config.pe_range (st c)
    /\ Config.batch_size (st' c) = Config.batch_size (st c)
    /\ (forall c', c' <> c -> st' c' = st c')
    /\ ((exists v, r = Ok v)
        <-> (Range.min (Config.eta_sp_range (st c)) <> 0
             /\ Range.max (Config.eta_sp_range (st c)) <> 0
             /\ Range.min (Config.phi_range (st c)) <> 0
             /\ Range.max (Config.phi_range (st c)) <> 0
             /\ Range.min (Config.nw_range (st c)) <> 0
             /\ Range.max (Config.nw_range (st c)) <> 0))
    /\ (forall e, r = Raise e -> e = ValueError)
    /\ (forall v, r = Ok v ->
          VoxelImageGenerator.config v = c
          /\ SurfaceGenerator.config (VoxelImageGenerator.surface_generator v) = c
          /\ SurfaceGenerator.__init__ st' c strip
             = Ok (VoxelImageGenerator.surface_generator v)
          /\ shape3 (SurfaceGenerator.phi (VoxelImageGenerator.surface_generator v))
               1 (Resolution.phi (Config.resolution (st c)) + 1) 1
          /\ shape3 (SurfaceGenerator.Nw (VoxelImageGenerator.surface_generator v))
               1 1 (Resolution.Nw (Config.resolution (st c)) + 1)
          /\ length (VoxelImageGenerator.grid_values v)
             = (Resolution.eta_sp (Config.resolution (st c)) + 1)%nat).
Proof.
  intros st st' c strip r Hinit.
  destruct (voxel_init_inv st st' c strip r Hinit) as [Hst Hv].
  assert (Hres : Config.resolution (st' c)
    = {| Resolution.phi := Resolution.phi (Config.resolution (st c)) + 1;
         Resolution.Nw := Resolution.Nw (Config.resolution (st c)) + 1;
         Resolution.eta_sp := Resolution.eta_sp (Config.resolution (st c)) + 1 |})
    by (rewrite Hst, store_set_same; reflexivity).
  split; [exact Hres|].
  do 9 (split; [rewrite Hst, store_set_same; reflexivity|]).
  split; [intros c' Hc'; rewrite Hst; now apply store_set_other|].
  destruct (voxel_init_result st c strip) as [Hiff Hexn].
  rewrite Hinit in Hiff, Hexn. cbn [fst snd] in Hiff, Hexn.
  split; [exact Hiff|].
  split; [intros e He; now apply Hexn|].
  intros v Hr.
  destruct (Hv v Hr) as (grid & Hgrid & Hgv & Hsg & Hc & _).
  destruct (init_inv st' c strip _ Hsg)
    as (phis & nws & Hphis & Hnws & Hphi & HNw & _ & _ & _ & Hcfg & _).
  apply geomspace_length in Hgrid, Hphis, Hnws.
  rewrite Hres in Hgrid, Hphis, Hnws.
  cbn [Resolution.phi Resolution.Nw Resolution.eta_sp] in Hgrid, Hphis, Hnws.
  split; [exact Hc|]. split; [exact Hcfg|]. split; [exact Hsg|].
  split; [rewrite Hphi, (of_axis1_tab3 0), Hphis; apply shape3_tab3|].
  split; [rewrite HNw, (of_axis2_tab3 0), Hnws; apply shape3_tab3|].
  now rewrite Hgv, length_map.
Qed.

Lemma voxel_init_mutates_config_witness :
  exists v,
    snd (VoxelImageGenerator.__init__ (dp := spec_data_processing)
           (example_store GOOD 2 2 2 1) 0%nat false) = Ok v
    /\ Config.resolution
         (fst (VoxelImageGenerator.__init__ (dp := spec_data_processing)
                 (example_store GOOD 2 2 2 1) 0%nat false) 0%nat)
       = {| Resolution.phi := 3; Resolution.Nw := 3; Resolution.eta_sp := 3 |}
    /\ Config.batch_size
         (fst (VoxelImageGenerator.__init__ (dp := spec_data_processing)
                 (example_store GOOD 2 2 2 1) 0%nat false) 0%nat) = 1%nat
    /\ VoxelImageGenerator.config v = 0%nat
    /\ SurfaceGenerator.config (VoxelImageGenerator.surface_generator v)
       = 0%nat
    /\ SurfaceGenerator.__init__
         (fst (VoxelImageGenerator.__init__ (dp := spec_data_processing)
                 (example_store GOOD 2 2 2 1) 0%nat false)) 0%nat false
       = Ok (VoxelImageGenerator.surface_generator v)
    /\ length (VoxelImageGenerator.grid_values v) = 3%nat.
Proof.
  destruct (voxel_init_mutates_config (dp := spec_data_processing)
              (example_store GOOD 2 2 2 1)
              (fst (VoxelImageGenerator.__init__ (dp := spec_data_processing)
                      (example_store GOOD 2 2 2 1) 0%nat false))
              0%nat false
              (snd (VoxelImageGenerator.__init__ (dp := spec_data_processing)
                      (example_store GOOD 2 2 2 1) 0%nat false))
              (surjective_pairing _))
    as (Hres & _ & _ & _ & _ & _ & _ & _ & _ & Hbatch & _ & [_ Hok] & _ & Hv).
  destruct Hok as [v Hr].
  { cbn [example_store example_config Config.eta_sp_range Config.phi_range
         Config.nw_range Range.min Range.max range].
    repeat split; lra. }
  destruct (Hv v Hr) as (Hc & Hsc & Hsg & _ & _ & Hlen).
  exists v.
  split; [exact Hr|]. split; [exact Hres|]. split; [exact Hbatch|].
  split; [exact Hc|]. split; [exact Hsc|]. split; [exact Hsg | exact Hlen].
Defined.

End Claims.

(* ================================================================= *)
(** ** Further facts about the generation functions *)

Module LabelFacts.
Import TensorFacts NumpyFacts GenerationFacts InitFacts SurfaceGenerator
  Batch.

Lemma flatten3_of_batch {A : Type} (l : list A) : flatten3 (of_batch l) = l.
Proof.
  unfold flatten3, of_batch. rewrite map_map. cbn [concat app].
  induction l as [|a l IH]; [reflexivity|].
  cbn [map concat app]. now rewrite IH.
Qed.

Lemma stack_dim1_two (n : nat) (F G : nat -> R) :
  stack_dim1 [tab n F; tab n G] = tab n (fun b => [F b; G b]).
Proof.
  unfold stack_dim1. cbn [hd map]. rewrite tab_length.
  apply tab_ext. intros b Hb. now rewrite !nth_tab.
Qed.

Lemma stack_dim1_three (n : nat) (F G H : nat -> R) :
  stack_dim1 [tab n F; tab n G; tab n H] = tab n (fun b => [F b; G b; H b]).
Proof.
  unfold stack_dim1. cbn [hd map]. rewrite tab_length.
  apply tab_ext. intros b Hb. now rewrite !nth_tab.
Qed.

Section WithDataProcessing.
Context {dp : data_processing}.

Lemma normalize_flat_sample (s : nat -> R) (n : nat) (r : Range.t) :
  normalize_flat (sample s n) r = tab n (fun b => normalize_feature (s b) r).
Proof.
  unfold normalize_flat, sample. now rewrite flatten3_of_batch, map_tab.
Qed.

(** What the generation function of a generator made by [__init__]
    returns, entry by entry. *)
Lemma generation_entries (st st' : store) (c : ref) (strip : bool) (g : t)
  (d : draws) :
  __init__ st c strip = Ok g ->
  exists phis nws,
    phi g = of_axis1 phis /\ Nw g = of_axis2 nws
    /\ length phis = Resolution.phi (Config.resolution (st c))
    /\ length nws = Resolution.Nw (Config.resolution (st c))
    /\ call_generation_function st' g d
       = Ok (tab3 (Config.batch_size (st' c)) (length phis) (length nws)
               (fun b p w =>
                  preprocess_eta_sp
                    (raw_entry (Config.mode (st c)) (st' c) d b
                       (nth p phis 0) (nth w nws 0))
                    (Config.eta_sp_range (st' c))),
             tab (Config.batch_size (st' c))
               (label_row (Config.mode (st c)) (st' c) d)).
Proof.
  intros Hinit.
  destruct (init_inv st c strip g Hinit)
    as (phis & nws & Hphis & Hnws & Hphi & HNw & Hgen & Hbg & Hbth & Hc & _).
  apply geomspace_length in Hphis, Hnws.
  exists phis, nws.
  split; [exact Hphi|]. split; [exact HNw|].
  split; [exact Hphis|]. split; [exact Hnws|].
  unfold call_generation_function. rewrite Hgen.
  destruct (Config.mode (st c)) eqn:Hmode.
  - unfold _good_generation. cbv zeta.
    destruct (bg_distribution g); [|now destruct Hbg].
    rewrite Hphi, HNw, Hc, good_eta_sp_tab3.
    unfold preprocess3. rewrite uop3_tab3, !normalize_flat_sample.
    now rewrite stack_dim1_two.
  - unfold _theta_generation. cbv zeta.
    destruct (bth_distribution g); [|now destruct Hbth].
    rewrite Hphi, HNw, Hc, theta_eta_sp_tab3.
    unfold preprocess3. rewrite uop3_tab3, !normalize_flat_sample.
    now rewrite stack_dim1_two.
  - unfold _mixed_generation. cbv zeta.
    destruct (bg_distribution g); [|now destruct Hbg].
    rewrite Hphi, HNw, Hc, mixed_Bth_sample, mixed_eta_sp_tab3.
    unfold preprocess3. rewrite uop3_tab3, !normalize_flat_sample.
    now rewrite stack_dim1_three.
Qed.

End WithDataProcessing.

End LabelFacts.

(* ================================================================= *)
(** ** Facts about the stripping *)

Module StripFacts.
Import TensorFacts NumpyFacts GenerationFacts IteratorFacts InitFacts
  LabelFacts SurfaceGenerator.

Lemma nth_error_zip_with {A B C : Type} (f : A -> B -> C)
  (xs : list A) (ys : list B) (i : nat) :
  nth_error (zip_with f xs ys) i
  = match nth_error xs i, nth_error ys i with
    | Some x, Some y => Some (f x y)
    | _, _ => None
    end.
Proof.
  revert ys i. induction xs as [|x xs IH]; intros [|y ys] [|i];
    cbn [zip_with nth_error]; try reflexivity.
  - now destruct (nth_error xs i).
  - apply IH.
Qed.

Lemma length_zip_with {A B C : Type} (f : A -> B -> C)
  (xs : list A) (ys : list B) :
  length xs = length ys -> length (zip_with f xs ys) = length xs.
Proof.
  revert ys. induction xs as [|x xs IH]; intros [|y ys] H;
    cbn in *; try reflexivity; try discriminate.
  f_equal. apply IH. lia.
Qed.

(** One assignment [to_keep_b[i] = True]. *)
Lemma put_true_nth (i j : nat) (acc : list bool) :
  (j < length acc)%nat ->
  nth j (firstn i acc ++ match skipn i acc with
                         | [] => []
                         | _ :: rest => true :: rest
                         end) false
  = (i =? j)%nat || nth j acc false.
Proof.
  revert i j. induction acc as [|a acc IH]; intros i j Hj; [cbn in Hj; lia|].
  destruct i as [|i], j as [|j]; cbn [firstn skipn app nth Nat.eqb orb];
    try reflexivity.
  apply IH. cbn in Hj. lia.
Qed.

Lemma put_true_length (i : nat) (acc : list bool) :
  length (firstn i acc ++ match skipn i acc with
                          | [] => []
                          | _ :: rest => true :: rest
                          end) = length acc.
Proof.
  rewrite <- (firstn_skipn i acc) at 3. rewrite !length_app. f_equal.
  destruct (skipn i acc); reflexivity.
Qed.

Lemma index_put_true_nth (choices : list nat) (to_keep : list bool) (j : nat) :
  (j < length to_keep)%nat ->
  nth j (index_put_true to_keep choices) false
  = existsb (fun i => (i =? j)%nat) choices || nth j to_keep false.
Proof.
  unfold index_put_true. revert to_keep.
  induction choices as [|i choices IH]; intros to_keep Hj; [reflexivity|].
  cbn [fold_left existsb].
  rewrite IH by (now rewrite put_true_length).
  rewrite put_true_nth by assumption.
  destruct (i =? j)%nat, (existsb _ choices), (nth j to_keep false);
    reflexivity.
Qed.

Lemma existsb_tab {A : Type} (f : A -> bool) (n : nat) (F : nat -> A) :
  existsb f (tab n F) = existsb (fun k => f (F k)) (seq 0 n).
Proof.
  unfold tab. induction (seq 0 n) as [|k l IH]; [reflexivity|].
  cbn [map existsb]. now rewrite IH.
Qed.

(** The mask of one batch element after the eight assignments. *)
Lemma to_keep_drawn (d : draws) (P b j : nat) :
  (j < P)%nat ->
  nth j (index_put_true (repeat false P)
           (tab 8 (fun k => (randint_raw d b k mod P)%nat))) false
  = Strip.drawn d P b j.
Proof.
  intros Hj. rewrite index_put_true_nth by (now rewrite repeat_length).
  rewrite existsb_tab.
  replace (nth j (repeat false P) false) with false
    by (symmetry; apply nth_repeat).
  now rewrite orb_false_r.
Qed.

(** The loop over the batch, when every surface has as many rows as the
    mask has entries. *)
Lemma strip_loop_rows (P : nat) (surfaces : tensor3 R) :
  Forall (fun s => length s = P) surfaces ->
  forall (choices : list (list nat)),
    length choices = length surfaces ->
    strip_loop surfaces (repeat (repeat false P) (length surfaces)) choices
    = Ok (zip_with
            (fun surface ch =>
               zip_with
                 (fun (entry : list R) (m : bool) =>
                    if m then map (fun _ => 0) entry else entry)
                 surface
                 (map negb (index_put_true (repeat false P) ch)))
            surfaces choices).
Proof.
  induction 1 as [|s surfaces Hs _ IH]; intros choices Hlen.
  - destruct choices; [reflexivity | discriminate].
  - destruct choices as [|ch choices]; [discriminate|].
    cbn [length repeat strip_loop zip_with].
    unfold strip_one, masked_fill_0.
    rewrite length_map, index_put_true_length, repeat_length, Hs,
      Nat.eqb_refl.
    cbn [bind]. rewrite IH by (cbn in Hlen; lia). reflexivity.
Qed.

(** The first surface already fails when its rows are not as many as the
    mask has entries. *)
Lemma strip_loop_mismatch (Nw_res : nat) (surface : tensor2 R)
  (surfaces : tensor3 R) (n : nat) (ch : list nat) (choices : list (list nat)) :
  length surface <> Nw_res ->
  strip_loop (surface :: surfaces) (repeat (repeat false Nw_res) (S n))
    (ch :: choices)
  = Raise IndexError.
Proof.
  intros Hne. cbn [repeat strip_loop]. unfold strip_one, masked_fill_0.
  rewrite length_map, index_put_true_length, repeat_length.
  destruct (Nat.eqb_spec Nw_res (length surface)); [congruence|].
  reflexivity.
Qed.

(** [strip] on surfaces of the shape of the configuration, row by row. *)
Lemma strip_square (c : Config.t) (d : draws) (batch P W : nat)
  (F : nat -> nat -> nat -> R) :
  batch = Config.batch_size c ->
  Resolution.Nw (Config.resolution c) = P -> (0 < P)%nat ->
  strip c d (tab3 batch P W F)
  = Ok (tab3 batch P W
          (fun b p w => if Strip.drawn d P b p then F b p w else 0)).
Proof.
  intros Hb HP Hpos. unfold strip, torch_randint. rewrite HP, <- Hb.
  destruct (Nat.eqb_spec P 0); [lia|]. cbn [bind].
  replace batch with (length (tab3 batch P W F)) at 2
    by (unfold tab3; apply tab_length).
  rewrite (strip_loop_rows P (tab3 batch P W F)).
  - unfold tab3. rewrite zip_with_tab. apply f_equal.
    apply tab_ext. intros b Hbb.
    rewrite (list_as_tab true
               (map negb (index_put_true (repeat false P)
                            (tab 8 (fun k => (randint_raw d b k mod P)%nat))))).
    rewrite length_map, index_put_true_length, repeat_length.
    rewrite zip_with_tab. apply tab_ext. intros p Hp.
    change true with (negb false). rewrite map_nth.
    rewrite to_keep_drawn by assumption.
    destruct (Strip.drawn d P b p); cbn [negb].
    + reflexivity.
    + rewrite map_tab. reflexivity.
  - apply Forall_forall. intros m Hm. unfold tab3, tab in Hm.
    apply in_map_iff in Hm as (i & <- & _). apply tab_length.
  - unfold tab3. now rewrite !tab_length.
Qed.

End StripFacts.

(* ================================================================= *)
(** ** Facts about the iteration of [VoxelImageGenerator] *)

Module VoxelLoopFacts.
Import TensorFacts NumpyFacts GenerationFacts IteratorFacts InitFacts
  VoxelFacts VoxelGeneratorFacts LabelFacts VoxelLoop.

Section WithDataProcessing.
Context {dp : data_processing}.

Lemma iter_call_ready (v : VoxelImageGenerator.t) (n : Z) :
  VoxelImageGenerator.__iter__ (VoxelImageGenerator.__call__ v n)
  = Ok (ready v (VoxelImageGenerator.surface_generator v) n 0).
Proof. reflexivity. Qed.

Lemma voxel_next_exhausted (st : store) (v : VoxelImageGenerator.t)
  (sg : SurfaceGenerator.t) (n i : Z) (d : draws) :
  (n <= i)%Z ->
  VoxelImageGenerator.__next__ st (ready v sg n i) d
  = (ready v sg n i, Raise StopIteration).
Proof.
  intros Hle. unfold VoxelImageGenerator.__next__.
  cbn [ready VoxelImageGenerator._surface_generator_iter
       VoxelImageGenerator.surface_generator].
  rewrite (next_exhausted st _ d i n) by (reflexivity || assumption).
  reflexivity.
Qed.

(** One step of a voxel generator whose internal generator yields
    surfaces that are a table over [(batch, P, W)]; [P], [W] and [E] may
    be any sizes that the configuration holds when [__next__] runs. *)
Lemma voxel_next_running (st : store) (v : VoxelImageGenerator.t)
  (sg : SurfaceGenerator.t) (n i : Z) (d : draws)
  (Pg Wg : nat) (F : nat -> nat -> nat -> R) (features : tensor2 R) :
  (i < n)%Z ->
  SurfaceGenerator.next_batch st sg d
  = Ok (tab3 (Config.batch_size (st (VoxelImageGenerator.config v))) Pg Wg F,
        features) ->
  VoxelImageGenerator.__next__ st (ready v sg n i) d
  = (ready v sg n (i + 1),
     image <- Voxel.image R 0 Rltb
                (Config.batch_size (st (VoxelImageGenerator.config v)))
                (Resolution.phi
                   (Config.resolution (st (VoxelImageGenerator.config v))))
                (Resolution.Nw
                   (Config.resolution (st (VoxelImageGenerator.config v))))
                (Resolution.eta_sp
                   (Config.resolution (st (VoxelImageGenerator.config v))))
                (VoxelImageGenerator.grid_values v)
                (tab3 (Config.batch_size (st (VoxelImageGenerator.config v)))
                   Pg Wg F) ;;
     Ok (image, features)).
Proof.
  intros Hlt Hbatch. unfold VoxelImageGenerator.__next__.
  cbn [ready VoxelImageGenerator._surface_generator_iter
       VoxelImageGenerator.surface_generator].
  rewrite (next_running st _ d i n) by (reflexivity || assumption).
  change (SurfaceGenerator.next_batch st
            (SurfaceGenerator.set_index
               (SurfaceGenerator.set_num_batches sg n) i) d)
    with (SurfaceGenerator.next_batch st sg d).
  rewrite Hbatch. reflexivity.
Qed.

(** The generator built by [VoxelImageGenerator(config, False)], seen
    from the store it returns. *)
Lemma voxel_init_unfolded (st0 st : store) (c : ref)
  (v : VoxelImageGenerator.t) :
  VoxelImageGenerator.__init__ st0 c false = (st, Ok v) ->
  VoxelImageGenerator.config v = c
  /\ length (VoxelImageGenerator.grid_values v)
     = (Resolution.eta_sp (Config.resolution (st0 c)) + 1)%nat
  /\ Config.resolution (st c)
     = {| Resolution.phi := Resolution.phi (Config.resolution (st0 c)) + 1;
          Resolution.Nw := Resolution.Nw (Config.resolution (st0 c)) + 1;
          Resolution.eta_sp :=
            Resolution.eta_sp (Config.resolution (st0 c)) + 1 |}
  /\ Config.batch_size (st c) = Config.batch_size (st0 c)
  /\ SurfaceGenerator.__init__ st c false
     = Ok (VoxelImageGenerator.surface_generator v).
Proof.
  intros Hinit.
  destruct (voxel_init_inv st0 st c false (Ok v) Hinit) as [Hst Hv].
  destruct (Hv v eq_refl) as (grid & Hgrid & Hgv & Hsg & Hc & _).
  assert (Hres : Config.resolution (st c)
     = {| Resolution.phi := Resolution.phi (Config.resolution (st0 c)) + 1;
          Resolution.Nw := Resolution.Nw (Config.resolution (st0 c)) + 1;
          Resolution.eta_sp :=
            Resolution.eta_sp (Config.resolution (st0 c)) + 1 |})
    by (rewrite Hst, store_set_same; reflexivity).
  split; [exact Hc|].
  split.
  { apply geomspace_length in Hgrid. rewrite Hres in Hgrid.
    now rewrite Hgv, length_map. }
  split; [exact Hres|].
  split; [rewrite Hst, store_set_same; reflexivity | exact Hsg].
Qed.

(** The batches of the internal generator, without stripping. *)
Lemma next_batch_without_strip (st st' : store) (c : ref)
  (g : SurfaceGenerator.t) (d : draws) :
  SurfaceGenerator.__init__ st c false = Ok g ->
  exists F features,
    SurfaceGenerator.next_batch st' g d
    = Ok (tab3 (Config.batch_size (st' c))
            (Resolution.phi (Config.resolution (st c)))
            (Resolution.Nw (Config.resolution (st c))) F,
          features).
Proof.
  intros Hinit.
  destruct (generation_tab3 st st' c false g d Hinit) as (F & features & Hgen).
  destruct (init_inv st c false g Hinit)
    as (_ & _ & _ & _ & _ & _ & _ & _ & _ & _ & Hstrip & _).
  exists F, features. unfold SurfaceGenerator.next_batch.
  rewrite Hgen. cbn [bind]. now rewrite Hstrip.
Qed.

(** The loop of a voxel generator built without stripping, started after
    [i] batches with [m] batches left. *)
Lemma voxel_for_loop_counts (st0 st : store) (c : ref)
  (v : VoxelImageGenerator.t) (rng : nat -> draws) (n : Z) (m : nat) :
  VoxelImageGenerator.__init__ st0 c false = (st, Ok v) ->
  forall (fuel : nat) (i : Z) (k : nat),
    (i <= n)%Z -> m = Z.to_nat (n - i) -> (m < fuel)%nat ->
    exists items,
      VoxelImageGenerator.for_loop fuel st
        (ready v (VoxelImageGenerator.surface_generator v) n i) rng k
      = Some (ready v (VoxelImageGenerator.surface_generator v) n n,
              items, None)
      /\ length items = m
      /\ Forall
           (fun item =>
              shape4 (fst item)
                (Config.batch_size (st0 c))
                (Resolution.phi (Config.resolution (st0 c)))
                (Resolution.Nw (Config.resolution (st0 c)))
                (Resolution.eta_sp (Config.resolution (st0 c))))
           items.
Proof.
  intros Hinit.
  destruct (voxel_init_unfolded st0 st c v Hinit)
    as (Hc & Hgv & Hres & Hbs & Hsg).
  induction m as [|m IH]; intros fuel i k Hle Hm Hfuel.
  - destruct fuel as [|fuel]; [lia|].
    assert (i = n) as -> by lia.
    exists []. cbn [VoxelImageGenerator.for_loop].
    rewrite voxel_next_exhausted by lia.
    repeat split. constructor.
  - destruct fuel as [|fuel]; [lia|].
    cbn [VoxelImageGenerator.for_loop].
    destruct (next_batch_without_strip st st c _ (rng k) Hsg)
      as (F & features & Hbatch).
    rewrite <- Hc in Hbatch at 1.
    rewrite (voxel_next_running st v _ n i (rng k) _ _ F features)
      by (lia || exact Hbatch).
    rewrite Hc, Hres.
    cbn [Resolution.phi Resolution.Nw Resolution.eta_sp].
    rewrite <- Hgv.
    rewrite (image_tab4 R 0 Rltb) by apply shape3_tab3.
    cbn [bind].
    destruct (IH fuel (i + 1)%Z (S k)) as (items & Hloop & Hlen & Hall);
      try lia.
    rewrite Hloop. eexists. split; [reflexivity|].
    split; [cbn [length]; now rewrite Hlen|].
    constructor; [|exact Hall].
    cbn [fst]. rewrite Hgv, Hbs.
    replace (Resolution.phi (Config.resolution (st0 c)))
      with (Resolution.phi (Config.resolution (st0 c)) + 1 - 1)%nat
      at 2 by lia.
    replace (Resolution.Nw (Config.resolution (st0 c)))
      with (Resolution.Nw (Config.resolution (st0 c)) + 1 - 1)%nat
      at 2 by lia.
    replace (Resolution.eta_sp (Config.resolution (st0 c)))
      with (Resolution.eta_sp (Config.resolution (st0 c)) + 1 - 1)%nat
      at 2 by lia.
    apply shape4_tab4.
Qed.

End WithDataProcessing.

End VoxelLoopFacts.

(* ================================================================= *)
(** ** Facts about [__next__] with stripping, and about the cells of the
       image *)

Module NextFacts.
Import TensorFacts NumpyFacts GenerationFacts IteratorFacts InitFacts
  VoxelFacts VoxelGeneratorFacts LabelFacts.

(** The first [__next__] of a stripping generator whose mask does not
    fit the surfaces. *)
Lemma next_strip_mismatch {dp : data_processing}
  (st st' : store) (c : ref) (g : SurfaceGenerator.t) (d : draws) (n : Z) :
  SurfaceGenerator.__init__ st c true = Ok g ->
  Resolution.Nw (Config.resolution (st' c))
    <> Resolution.phi (Config.resolution (st c)) ->
  (0 < Resolution.Nw (Config.resolution (st' c)))%nat ->
  (0 < Config.batch_size (st' c))%nat ->
  (0 < n)%Z ->
  SurfaceGenerator.__next__ st'
    (SurfaceGenerator.__iter__ (SurfaceGenerator.__call__ g n)) d
  = (SurfaceGenerator.set_index
       (SurfaceGenerator.__iter__ (SurfaceGenerator.__call__ g n)) 1,
     Raise IndexError).
Proof.
  intros Hinit Hne HNw Hbatch Hn.
  destruct (generation_entries st st' c true g d Hinit)
    as (phis & nws & _ & _ & Hlp & Hlw & Hgen).
  destruct (init_inv st c true g Hinit)
    as (_ & _ & _ & _ & _ & _ & _ & _ & _ & Hc & Hstrip & _).
  rewrite (next_running st' _ d 0 n) by (reflexivity || lia).
  f_equal. unfold SurfaceGenerator.next_batch.
  change (SurfaceGenerator.call_generation_function st'
            (SurfaceGenerator.__iter__ (SurfaceGenerator.__call__ g n)) d)
    with (SurfaceGenerator.call_generation_function st' g d).
  rewrite Hgen. cbn [bind].
  change (SurfaceGenerator.strip_nw
            (SurfaceGenerator.__iter__ (SurfaceGenerator.__call__ g n)))
    with (SurfaceGenerator.strip_nw g).
  change (SurfaceGenerator.config
            (SurfaceGenerator.__iter__ (SurfaceGenerator.__call__ g n)))
    with (SurfaceGenerator.config g).
  rewrite Hstrip, Hc. cbn [negb].
  unfold SurfaceGenerator.strip, torch_randint.
  destruct (Nat.eqb_spec (Resolution.Nw (Config.resolution (st' c))) 0);
    [lia|].
  cbn [bind].
  destruct (Config.batch_size (st' c)) as [|k]; [lia|].
  unfold tab3. rewrite !(tab_cons k).
  rewrite StripFacts.strip_loop_mismatch; [reflexivity|].
  rewrite tab_length. congruence.
Qed.


(** A [VoxelImageGenerator] built from a configuration changes only its
    resolution, which a generator without stripping never reads. *)
Lemma next_batch_after_voxel_init {dp : data_processing}
  (st st' : store) (c : ref) (strip_v : bool)
  (r : result VoxelImageGenerator.t) (g : SurfaceGenerator.t) (d : draws) :
  SurfaceGenerator.config g = c ->
  SurfaceGenerator.strip_nw g = false ->
  VoxelImageGenerator.__init__ st c strip_v = (st', r) ->
  SurfaceGenerator.next_batch st' g d = SurfaceGenerator.next_batch st g d.
Proof.
  intros Hc Hstrip Hinit.
  destruct (voxel_init_inv st st' c strip_v r Hinit) as [Hst _].
  unfold SurfaceGenerator.next_batch, SurfaceGenerator.call_generation_function,
    SurfaceGenerator._good_generation, SurfaceGenerator._mixed_generation,
    SurfaceGenerator._theta_generation.
  rewrite Hstrip, Hc, Hst, store_set_same.
  reflexivity.
Qed.

(** The cell [(b, p, w, e)] of the image of well-shaped surfaces. *)
Lemma image_get4 (batch P W : nat) (grid_values : list R)
  (surfaces : tensor3 R) (b p w e : nat) :
  shape3 surfaces batch P W ->
  (b < batch)%nat -> (p < P - 1)%nat -> (w < W - 1)%nat ->
  (e < length grid_values - 1)%nat ->
  exists image,
    Voxel.image R 0 Rltb batch P W (length grid_values) grid_values surfaces
    = Ok image
    /\ get3 surfaces b p w = Some (nth w (nth p (nth b surfaces []) []) 0)
    /\ get3 surfaces b (p + 1) (w + 1)
       = Some (nth (S w) (nth (S p) (nth b surfaces []) []) 0)
    /\ get4 image b p w e
       = Some (Z.b2z
                 (Rltb (nth w (nth p (nth b surfaces []) []) 0)
                       (nth (S e) grid_values 0)
                  && Rltb (nth e grid_values 0)
                       (nth (S w) (nth (S p) (nth b surfaces []) []) 0))).
Proof.
  intros Hs Hb Hp Hw He. eexists.
  split; [apply (image_tab4 R 0 Rltb); exact Hs|].
  split; [apply (get3_nth 0 surfaces batch P W); assumption || lia|].
  split.
  { rewrite !Nat.add_1_r.
    apply (get3_nth 0 surfaces batch P W); assumption || lia. }
  now rewrite get4_tab4.
Qed.

(** [__next__] with stripping on a square grid: the generated table with
    the rows that were not drawn set to 0. *)
Lemma next_strip_square {dp : data_processing} (st st' : store) (c : ref)
  (g : SurfaceGenerator.t) (d : draws) (n : Z) :
  SurfaceGenerator.__init__ st c true = Ok g ->
  Resolution.Nw (Config.resolution (st' c))
    = Resolution.phi (Config.resolution (st c)) ->
  (0 < Resolution.phi (Config.resolution (st c)))%nat ->
  (0 < n)%Z ->
  exists F features,
    SurfaceGenerator.call_generation_function st' g d
    = Ok (tab3 (Config.batch_size (st' c))
            (Resolution.phi (Config.resolution (st c)))
            (Resolution.Nw (Config.resolution (st c))) F, features)
    /\ SurfaceGenerator.__next__ st'
         (SurfaceGenerator.__iter__ (SurfaceGenerator.__call__ g n)) d
       = (SurfaceGenerator.set_index
            (SurfaceGenerator.__iter__ (SurfaceGenerator.__call__ g n)) 1,
          Ok (tab3 (Config.batch_size (st' c))
                (Resolution.phi (Config.resolution (st c)))
                (Resolution.Nw (Config.resolution (st c)))
                (fun b p w =>
                   if Strip.drawn d
                        (Resolution.phi (Config.resolution (st c))) b p
                   then F b p w else 0),
              features)).
Proof.
  intros Hinit Hsq HP Hn.
  destruct (generation_entries st st' c true g d Hinit)
    as (phis & nws & _ & _ & Hlp & Hlw & Hgen).
  destruct (init_inv st c true g Hinit)
    as (_ & _ & _ & _ & _ & _ & _ & _ & _ & Hc & Hstrip & _).
  rewrite Hlp, Hlw in Hgen.
  do 2 eexists.
  split; [exact Hgen|].
  rewrite (next_running st' _ d 0 n) by (reflexivity || lia).
  f_equal. unfold SurfaceGenerator.next_batch.
  change (SurfaceGenerator.call_generation_function st'
            (SurfaceGenerator.__iter__ (SurfaceGenerator.__call__ g n)) d)
    with (SurfaceGenerator.call_generation_function st' g d).
  rewrite Hgen. cbn [bind].
  change (SurfaceGenerator.strip_nw
            (SurfaceGenerator.__iter__ (SurfaceGenerator.__call__ g n)))
    with (SurfaceGenerator.strip_nw g).
  change (SurfaceGenerator.config
            (SurfaceGenerator.__iter__ (SurfaceGenerator.__call__ g n)))
    with (SurfaceGenerator.config g).
  rewrite Hstrip, Hc. cbn [negb].
  rewrite (StripFacts.strip_square (st' c) d _ _ _ _ eq_refl Hsq)
    by lia.
  reflexivity.
Qed.

(** The rows drawn for one batch element: at least one, at most eight. *)
Lemma drawn_rows (d : draws) (P b : nat) :
  (0 < P)%nat ->
  let kept := filter (Strip.drawn d P b) (seq 0 P) in
  NoDup kept
  /\ (1 <= length kept <= 8)%nat
  /\ (forall p, In p kept <-> (p < P)%nat /\ Strip.drawn d P b p = true).
Proof.
  intros HP kept.
  assert (Hin : forall p, In p kept
                          <-> (p < P)%nat /\ Strip.drawn d P b p = true).
  { intros p. unfold kept. rewrite filter_In, in_seq. intuition lia. }
  assert (Hnd : NoDup kept) by (apply NoDup_filter, seq_NoDup).
  split; [exact Hnd|]. split; [|exact Hin].
  split.
  - assert (H0 : In (randint_raw d b 0 mod P)%nat kept).
    { apply Hin. split; [apply Nat.mod_upper_bound; lia|].
      unfold Strip.drawn. apply existsb_exists. exists 0%nat.
      split; [apply in_seq; lia | apply Nat.eqb_refl]. }
    destruct kept; [destruct H0 | cbn [length]; lia].
  - assert (Hincl : incl kept
                      (map (fun k => (randint_raw d b k mod P)%nat) (seq 0 8))).
    { intros p Hp. apply Hin in Hp as [_ Hp].
      unfold Strip.drawn in Hp. apply existsb_exists in Hp as (k & Hk & Hkp).
      apply Nat.eqb_eq in Hkp. apply in_map_iff. now exists k. }
    pose proof (NoDup_incl_length Hnd Hincl) as Hlen.
    now rewrite length_map, length_seq in Hlen.
Qed.

Lemma b2z_and_1 (x y : bool) : Z.b2z (x && y) = 1%Z <-> x = true /\ y = true.
Proof. destruct x, y; cbn; intuition congruence. Qed.

(** In a sorted list of edges there is a first bin whose upper edge lies
    above [x], when the last edge does. *)
Lemma first_edge_above (grid : list R) (x : R) (m : nat) :
  x < nth (S m) grid 0 ->
  exists e, (e <= m)%nat
    /\ x < nth (S e) grid 0
    /\ (e = 0%nat \/ nth e grid 0 <= x).
Proof.
  induction m as [|m IH]; intros Hlast.
  - exists 0%nat. split; [lia|]. split; [assumption | now left].
  - destruct (Rlt_dec x (nth (S m) grid 0)) as [Hlt|Hge].
    + destruct (IH Hlt) as (e & He & Hx & Hmin).
      exists e. split; [lia|]. split; assumption.
    + exists (S m). split; [lia|]. split; [assumption|]. right. lra.
Qed.

End NextFacts.

(* ================================================================= *)
(** ** Further properties of the generators *)

Module Extras.
Import TensorFacts NumpyFacts GenerationFacts IteratorFacts InitFacts
  VoxelFacts RegimeFacts VoxelGeneratorFacts LabelFacts Example ExampleFacts
  Batch.

(** X1 -- Surfaces of every mode.  For a generator built by [__init__],
    whatever its mode, the generation function succeeds; the surfaces have
    the shape [(batch, P, W)], where the batch size is read from the
    configuration when the batch is made and [P], [W] are the lengths of
    the axes built at construction; the entry [(b, p, w)] is
    [preprocess_eta_sp] of the closed form of the mode (in MIXED mode with
    [Bth = u * Bg^(1/0.824) * (max - min) + min]) at the parameters of the
    batch element [b] and the grid point [(p, w)]. *)
Theorem generation_surface_entries {dp : data_processing} :
  forall (st st' : store) (c : ref) (strip : bool) (g : SurfaceGenerator.t)
         (d : draws) (b p w : nat),
    SurfaceGenerator.__init__ st c strip = Ok g ->
    (b < Config.batch_size (st' c))%nat ->
    (p < Resolution.phi (Config.resolution (st c)))%nat ->
    (w < Resolution.Nw (Config.resolution (st c)))%nat ->
    exists phis nws surfaces features,
      SurfaceGenerator.phi g = of_axis1 phis
      /\ SurfaceGenerator.Nw g = of_axis2 nws
      /\ SurfaceGenerator.call_generation_function st' g d
         = Ok (surfaces, features)
      /\ shape3 surfaces (Config.batch_size (st' c))
           (Resolution.phi (Config.resolution (st c)))
           (Resolution.Nw (Config.resolution (st c)))
      /\ get3 surfaces b p w
         = Some (preprocess_eta_sp
                   (raw_entry (Config.mode (st c)) (st' c) d b
                      (nth p phis 0) (nth w nws 0))
                   (Config.eta_sp_range (st' c))).
Proof.
  intros st st' c strip g d b p w Hinit Hb Hp Hw.
  destruct (generation_entries st st' c strip g d Hinit)
    as (phis & nws & Hphi & HNw & Hlp & Hlw & Hgen).
  exists phis, nws. do 2 eexists.
  split; [exact Hphi|]. split; [exact HNw|]. split; [exact Hgen|].
  rewrite Hlp, Hlw.
  split; [apply shape3_tab3|].
  now rewrite get3_tab3.
Qed.

Lemma generation_surface_entries_witness :
  exists phis nws surfaces features,
    SurfaceGenerator.call_generation_function (dp := spec_data_processing)
      (example_store MIXED 2 3 2 1) (example_generator MIXED 2 3 false)
      example_draws
    = Ok (surfaces, features)
    /\ shape3 surfaces 1 2 3
    /\ get3 surfaces 0 1 2
       = Some (preprocess_eta_sp (data_processing := spec_data_processing)
                 (Regime.mixed_eta 1.5
                    (Regime.mixed_bth (range 0.22 0.82) 0.9 1.5) 8
                    (nth 1 phis 0) (nth 2 nws 0))
                 (range 1 1000000)).
Proof.
  destruct (generation_surface_entries (dp := spec_data_processing)
              (example_store MIXED 2 3 2 1) (example_store MIXED 2 3 2 1)
              0%nat false (example_generator MIXED 2 3 false)
              example_draws 0 1 2
              (example_init MIXED 2 3 2 1 false)
              ltac:(vm_compute; lia) ltac:(vm_compute; lia)
              ltac:(vm_compute; lia))
    as (phis & nws & surfaces & features & _ & _ & Hgen & Hshape & Hget).
  exists phis, nws, surfaces, features.
  split; [exact Hgen|]. split; [exact Hshape | exact Hget].
Defined.

(** X2 -- Labels.  For a generator built by [__init__] the labels have
    one row per batch element, with two columns in GOOD mode (Bg, Pe) and
    THETA mode (Bth, Pe) and three in MIXED mode (Bg, Bth, Pe); each entry
    is [normalize_feature] of the parameter with the range of that
    parameter, the ranges being read from the configuration when the batch
    is made. *)
Theorem generation_labels {dp : data_processing} :
  forall (st st' : store) (c : ref) (strip : bool) (g : SurfaceGenerator.t)
         (d : draws) (b : nat),
    SurfaceGenerator.__init__ st c strip = Ok g ->
    (b < Config.batch_size (st' c))%nat ->
    exists surfaces features,
      SurfaceGenerator.call_generation_function st' g d
      = Ok (surfaces, features)
      /\ shape2 features (Config.batch_size (st' c))
           (match Config.mode (st c) with MIXED => 3 | _ => 2 end)
      /\ nth_error features b
         = Some
             (match Config.mode (st c) with
              | GOOD =>
                  [ normalize_feature (bg_sample d b) (Config.bg_range (st' c));
                    normalize_feature (pe_sample d b) (Config.pe_range (st' c)) ]
              | THETA =>
                  [ normalize_feature (bth_sample d b) (Config.bth_range (st' c));
                    normalize_feature (pe_sample d b) (Config.pe_range (st' c)) ]
              | MIXED =>
                  [ normalize_feature (bg_sample d b) (Config.bg_range (st' c));
                    normalize_feature
                      (rand d b * Rpower (bg_sample d b) (1 / 0.824)
                       * (Range.max (Config.bth_range (st' c))
                          - Range.min (Config.bth_range (st' c)))
                       + Range.min (Config.bth_range (st' c)))
                      (Config.bth_range (st' c));
                    normalize_feature (pe_sample d b) (Config.pe_range (st' c)) ]
              end).
Proof.
  intros st st' c strip g d b Hinit Hb.
  destruct (generation_entries st st' c strip g d Hinit)
    as (phis & nws & _ & _ & _ & _ & Hgen).
  do 2 eexists. split; [exact Hgen|].
  split.
  - split; [apply tab_length|].
    apply Forall_forall. intros row Hrow.
    unfold tab in Hrow. apply in_map_iff in Hrow as (i & <- & _).
    destruct (Config.mode (st c)); reflexivity.
  - rewrite nth_error_tab by assumption.
    destruct (Config.mode (st c)); reflexivity.
Qed.

Lemma generation_labels_witness :
  exists surfaces features,
    SurfaceGenerator.call_generation_function (dp := spec_data_processing)
      (example_store MIXED 2 3 2 2) (example_generator MIXED 2 3 false)
      example_draws
    = Ok (surfaces, features)
    /\ shape2 features 2 3
    /\ nth_error features 1
       = Some [ (1.5 - 0.36) / (1.55 - 0.36);
                (0.9 * Rpower 1.5 (1 / 0.824) * (0.82 - 0.22) + 0.22 - 0.22)
                / (0.82 - 0.22);
                (8 - 3.2) / (13.5 - 3.2) ].
Proof.
  destruct (generation_labels (dp := spec_data_processing)
              (example_store MIXED 2 3 2 2) (example_store MIXED 2 3 2 2)
              0%nat false (example_generator MIXED 2 3 false)
              example_draws 1
              (example_init MIXED 2 3 2 2 false)
              ltac:(vm_compute; lia))
    as (surfaces & features & Hgen & Hshape & Hrow).
  exists surfaces, features.
  split; [exact Hgen|]. split; [exact Hshape | exact Hrow].
Defined.

(** X3 -- Bounds of the derived [Bth].  In MIXED mode, for a uniform draw
    [0 <= u < 1], a positive [Bg] and a range with [min < max], the [Bth]
    of a batch element is at least [min] and strictly below
    [Bg^(1/0.824) * (max - min) + min]; when moreover [Bg <= 1] it is
    strictly below [max]. *)
Theorem mixed_Bth_bounds :
  forall (r : Range.t) (u bg : nat -> R) (batch b : nat),
    (b < batch)%nat ->
    0 <= u b < 1 -> 0 < bg b -> Range.min r < Range.max r ->
    exists bth,
      get3 (SurfaceGenerator.mixed_Bth r (torch_rand u batch) (sample bg batch))
           b 0 0 = Some bth
      /\ bth = u b * Rpower (bg b) (1 / 0.824) * (Range.max r - Range.min r)
               + Range.min r
      /\ Range.min r <= bth
      /\ bth < Rpower (bg b) (1 / 0.824) * (Range.max r - Range.min r)
               + Range.min r
      /\ (bg b <= 1 -> bth < Range.max r).
Proof.
  intros r u bg batch b Hb Hu Hbg Hr.
  rewrite mixed_Bth_sample. unfold sample. rewrite of_batch_tab3.
  rewrite get3_tab3 by (assumption || lia).
  eexists. split; [reflexivity|]. split; [reflexivity|].
  destruct (mixed_bth_bounds r (u b) (bg b) Hu Hr) as [Hlo Hhi].
  split; [exact Hlo|]. split; [exact Hhi|].
  intros Hle. unfold Regime.mixed_bth in *.
  assert (H1 : Rpower 1 (1 / 0.824) = 1)
    by (unfold Rpower; now rewrite ln_1, Rmult_0_r, exp_0).
  assert (Hp : Rpower (bg b) (1 / 0.824) <= 1).
  { rewrite <- H1 at 2. apply Rle_Rpower_l; [|lra].
    apply Rlt_le, Rdiv_lt_0_compat; lra. }
  nra.
Qed.

Lemma mixed_Bth_bounds_witness :
  exists bth,
    get3 (SurfaceGenerator.mixed_Bth (range 0.22 0.82)
            (torch_rand (fun _ => 0.9) 2) (sample (fun _ => 0.8) 2)) 1 0 0
    = Some bth
    /\ 0.22 <= bth /\ bth < 0.82.
Proof.
  destruct (mixed_Bth_bounds (range 0.22 0.82) (fun _ => 0.9) (fun _ => 0.8)
              2 1 ltac:(lia) ltac:(lra) ltac:(lra)
              ltac:(cbn [range Range.min Range.max]; lra))
    as (bth & Hget & _ & Hlo & _ & Hmax).
  exists bth. split; [exact Hget|]. split; [exact Hlo|].
  apply Hmax. lra.
Defined.

Lemma crossover_pos (ne c n : R) : 0 < c -> 0 < n -> 0 < n * (1 + (n / ne) ^ 2) * c.
Proof.
  intros Hc Hn.
  assert (H : 0 <= (n / ne) ^ 2) by apply pow2_ge_0.
  apply Rmult_lt_0_compat; [|assumption].
  apply Rmult_lt_0_compat; lra.
Qed.

(** X4 -- Positive surfaces.  In each of the three modes the raw surface
    value of a batch element with positive parameters is positive at every
    grid point of positive concentration and chain length (so that its
    logarithm exists). *)
Theorem eta_sp_positive :
  forall (phi Nw : list R) (batch : nat) (bg bth pe : nat -> R) (b p w : nat),
    (b < batch)%nat -> (p < length phi)%nat -> (w < length Nw)%nat ->
    0 < bg b -> 0 < bth b -> 0 < pe b ->
    0 < nth p phi 0 -> 0 < nth w Nw 0 ->
    (exists e,
        get3 (SurfaceGenerator.good_eta_sp (of_axis1 phi) (of_axis2 Nw)
                (sample bg batch) (sample pe batch)) b p w = Some e
        /\ 0 < e)
    /\ (exists e,
        get3 (SurfaceGenerator.theta_eta_sp (of_axis1 phi) (of_axis2 Nw)
                (sample bth batch) (sample pe batch)) b p w = Some e
        /\ 0 < e)
    /\ (exists e,
        get3 (SurfaceGenerator.mixed_eta_sp (of_axis1 phi) (of_axis2 Nw)
                (sample bg batch) (sample bth batch) (sample pe batch))
             b p w = Some e
        /\ 0 < e).
Proof.
  intros phi Nw batch bg bth pe b p w Hb Hp Hw Hbg Hbth Hpe Hphi Hn.
  rewrite good_eta_sp_tab3, theta_eta_sp_tab3, mixed_eta_sp_tab3.
  rewrite !get3_tab3 by assumption.
  split; [|split]; eexists; (split; [reflexivity|]).
  - unfold Regime.good_eta. cbv zeta.
    apply crossover_pos; [|assumption]. apply Rmin_pos.
    + apply Rdiv_lt_0_compat; [lra | apply good_g_pos].
    + apply Rdiv_lt_0_compat; [assumption | apply exp_pos].
  - unfold Regime.theta_eta.
    apply crossover_pos; [|assumption]. apply Rmin_pos.
    + apply Rdiv_lt_0_compat; [lra | now apply theta_g_pos].
    + apply Rdiv_lt_0_compat; [assumption | now apply pow_lt].
  - unfold Regime.mixed_eta.
    apply crossover_pos; [|assumption]. apply Rmin_pos.
    + apply Rdiv_lt_0_compat; [lra | now apply mixed_g_pos].
    + apply Rdiv_lt_0_compat; [assumption | now apply pow_lt].
Qed.

Lemma eta_sp_positive_witness :
  exists e,
    get3 (SurfaceGenerator.theta_eta_sp
            (of_axis1 [0.001; 0.002; 0.004]) (of_axis2 [100; 200; 400])
            (sample (fun _ => 0.5) 1) (sample (fun _ => 8) 1)) 0 2 1 = Some e
    /\ 0 < e.
Proof.
  apply (eta_sp_positive [0.001; 0.002; 0.004] [100; 200; 400] 1
           (fun _ => 0.8) (fun _ => 0.5) (fun _ => 8) 0 2 1);
    cbn [length nth]; lia || lra.
Defined.


(** X6 -- Calls out of order.  On a generator as [__init__] leaves it,
    [__next__] raises [AttributeError] (the index does not exist yet) and
    changes nothing; so it does after [generator(n)] without [iter], and
    after [iter(generator)] without a call (there is no [num_batches]
    yet). *)
Theorem next_out_of_order_raises_AttributeError {dp : data_processing} :
  forall (st st' : store) (c : ref) (strip : bool) (g : SurfaceGenerator.t)
         (d : draws) (n : Z),
    SurfaceGenerator.__init__ st c strip = Ok g ->
    SurfaceGenerator.__next__ st' g d = (g, Raise AttributeError)
    /\ SurfaceGenerator.__next__ st' (SurfaceGenerator.__call__ g n) d
       = (SurfaceGenerator.__call__ g n, Raise AttributeError)
    /\ SurfaceGenerator.__next__ st' (SurfaceGenerator.__iter__ g) d
       = (SurfaceGenerator.__iter__ g, Raise AttributeError).
Proof.
  intros st st' c strip g d n Hinit.
  destruct (init_inv st c strip g Hinit)
    as (_ & _ & _ & _ & _ & _ & _ & _ & _ & _ & _ & Hn & Hi).
  split; [now apply next_before_iter|].
  split; [now apply next_before_iter|].
  unfold SurfaceGenerator.__next__, SurfaceGenerator.__iter__.
  cbn [SurfaceGenerator._index SurfaceGenerator.num_batches
       SurfaceGenerator.set_index].
  now rewrite Hn.
Qed.

Lemma next_out_of_order_raises_AttributeError_witness :
  SurfaceGenerator.__next__ (dp := spec_data_processing)
    (example_store GOOD 2 2 2 1) (example_generator GOOD 2 2 false)
    example_draws
  = (example_generator GOOD 2 2 false, Raise AttributeError)
  /\ SurfaceGenerator.__next__ (dp := spec_data_processing)
       (example_store GOOD 2 2 2 1)
       (SurfaceGenerator.__call__ (example_generator GOOD 2 2 false) 3)
       example_draws
     = (SurfaceGenerator.__call__ (example_generator GOOD 2 2 false) 3,
        Raise AttributeError).
Proof.
  destruct (next_out_of_order_raises_AttributeError
              (dp := spec_data_processing)
              (example_store GOOD 2 2 2 1) (example_store GOOD 2 2 2 1)
              0%nat false (example_generator GOOD 2 2 false) example_draws 3
              (example_init GOOD 2 2 2 1 false))
    as (H1 & H2 & _).
  split; [exact H1 | exact H2].
Defined.

(** X7 -- Stripping on a square grid.  With [strip_nw] enabled and as many
    concentration points as [resolution.Nw], [__next__] yields the
    generated surfaces with every concentration row [p] that is not among
    the eight draws of its batch element set to 0, for every chain length;
    the rows that were drawn, the shape and the labels are unchanged. *)
Theorem strip_zeroes_undrawn_rows {dp : data_processing} :
  forall (st st' : store) (c : ref) (g : SurfaceGenerator.t) (d : draws)
         (n : Z) (b p w : nat),
    SurfaceGenerator.__init__ st c true = Ok g ->
    Resolution.Nw (Config.resolution (st' c))
      = Resolution.phi (Config.resolution (st c)) ->
    (0 < n)%Z ->
    (b < Config.batch_size (st' c))%nat ->
    (p < Resolution.phi (Config.resolution (st c)))%nat ->
    (w < Resolution.Nw (Config.resolution (st c)))%nat ->
    exists generated features out x,
      SurfaceGenerator.call_generation_function st' g d
      = Ok (generated, features)
      /\ SurfaceGenerator.__next__ st'
           (SurfaceGenerator.__iter__ (SurfaceGenerator.__call__ g n)) d
         = (SurfaceGenerator.set_index
              (SurfaceGenerator.__iter__ (SurfaceGenerator.__call__ g n)) 1,
            Ok (out, features))
      /\ shape3 out (Config.batch_size (st' c))
           (Resolution.phi (Config.resolution (st c)))
           (Resolution.Nw (Config.resolution (st c)))
      /\ get3 generated b p w = Some x
      /\ get3 out b p w
         = Some (if Strip.drawn d (Resolution.phi (Config.resolution (st c))) b p
                 then x else 0).
Proof.
  intros st st' c g d n b p w Hinit Hsq Hn Hb Hp Hw.
  destruct (generation_entries st st' c true g d Hinit)
    as (phis & nws & _ & _ & Hlp & Hlw & Hgen).
  destruct (init_inv st c true g Hinit)
    as (_ & _ & _ & _ & _ & _ & _ & _ & _ & Hc & Hstrip & _).
  rewrite Hlp, Hlw in Hgen.
  do 4 eexists.
  split; [exact Hgen|].
  split.
  { rewrite (next_running st' _ d 0 n) by (reflexivity || lia).
    f_equal. unfold SurfaceGenerator.next_batch.
    change (SurfaceGenerator.call_generation_function st'
              (SurfaceGenerator.__iter__ (SurfaceGenerator.__call__ g n)) d)
      with (SurfaceGenerator.call_generation_function st' g d).
    rewrite Hgen. cbn [bind].
    change (SurfaceGenerator.strip_nw
              (SurfaceGenerator.__iter__ (SurfaceGenerator.__call__ g n)))
      with (SurfaceGenerator.strip_nw g).
    change (SurfaceGenerator.config
              (SurfaceGenerator.__iter__ (SurfaceGenerator.__call__ g n)))
      with (SurfaceGenerator.config g).
    rewrite Hstrip, Hc. cbn [negb].
    rewrite (StripFacts.strip_square (st' c) d _ _ _ _ eq_refl Hsq)
      by lia.
    reflexivity. }
  split; [apply shape3_tab3|].
  split; [now rewrite get3_tab3|].
  rewrite get3_tab3 by assumption. reflexivity.
Qed.

Lemma strip_zeroes_undrawn_rows_witness :
  exists generated features out x,
    SurfaceGenerator.__next__ (dp := spec_data_processing)
      (example_store GOOD 2 2 2 1)
      (SurfaceGenerator.__iter__
         (SurfaceGenerator.__call__ (example_generator GOOD 2 2 true) 3))
      example_draws
    = (SurfaceGenerator.set_index
         (SurfaceGenerator.__iter__
            (SurfaceGenerator.__call__ (example_generator GOOD 2 2 true) 3)) 1,
       Ok (out, features))
    /\ get3 generated 0 1 0 = Some x
    /\ get3 out 0 1 0 = Some 0
    /\ get3 out 0 0 1 = get3 generated 0 0 1.
Proof.
  destruct (strip_zeroes_undrawn_rows (dp := spec_data_processing)
              (example_store GOOD 2 2 2 1) (example_store GOOD 2 2 2 1)
              0%nat (example_generator GOOD 2 2 true) example_draws 3 0 1 0
              (example_init GOOD 2 2 2 1 true) eq_refl
              ltac:(lia) ltac:(vm_compute; lia) ltac:(vm_compute; lia)
              ltac:(vm_compute; lia))
    as (generated & features & out & x & Hgen & Hnext & _ & Hx & Hout).
  destruct (strip_zeroes_undrawn_rows (dp := spec_data_processing)
              (example_store GOOD 2 2 2 1) (example_store GOOD 2 2 2 1)
              0%nat (example_generator GOOD 2 2 true) example_draws 3 0 0 1
              (example_init GOOD 2 2 2 1 true) eq_refl
              ltac:(lia) ltac:(vm_compute; lia) ltac:(vm_compute; lia)
              ltac:(vm_compute; lia))
    as (generated' & features' & out' & y & Hgen' & Hnext' & _ & Hy & Hout').
  rewrite Hgen in Hgen'. injection Hgen' as <- <-.
  rewrite Hnext in Hnext'. injection Hnext' as <-.
  exists generated, features, out, x.
  split; [exact Hnext|]. split; [exact Hx|].
  split; [exact Hout|].
  rewrite Hout', Hy. reflexivity.
Defined.

(** X8 -- Stripping off the square.  With [strip_nw] enabled, a positive
    batch size and a positive [resolution.Nw] that differs from the number
    of concentration points, [__next__] raises [IndexError]: the mask does
    not fit the first axis of the surface.  The index has been incremented
    by then. *)
Theorem strip_raises_IndexError_off_square {dp : data_processing} :
  forall (st st' : store) (c : ref) (g : SurfaceGenerator.t) (d : draws)
         (n : Z),
    SurfaceGenerator.__init__ st c true = Ok g ->
    Resolution.Nw (Config.resolution (st' c))
      <> Resolution.phi (Config.resolution (st c)) ->
    (0 < Resolution.Nw (Config.resolution (st' c)))%nat ->
    (0 < Config.batch_size (st' c))%nat ->
    (0 < n)%Z ->
    SurfaceGenerator.__next__ st'
      (SurfaceGenerator.__iter__ (SurfaceGenerator.__call__ g n)) d
    = (SurfaceGenerator.set_index
         (SurfaceGenerator.__iter__ (SurfaceGenerator.__call__ g n)) 1,
       Raise IndexError).
Proof.
  intros st st' c g d n. apply NextFacts.next_strip_mismatch.
Qed.

Lemma strip_raises_IndexError_off_square_witness :
  SurfaceGenerator.__next__ (dp := spec_data_processing)
    (example_store GOOD 3 2 2 1)
    (SurfaceGenerator.__iter__
       (SurfaceGenerator.__call__ (example_generator GOOD 3 2 true) 3))
    example_draws
  = (SurfaceGenerator.set_index
       (SurfaceGenerator.__iter__
          (SurfaceGenerator.__call__ (example_generator GOOD 3 2 true) 3)) 1,
     Raise IndexError).
Proof.
  apply (strip_raises_IndexError_off_square (dp := spec_data_processing)
           (example_store GOOD 3 2 2 1) (example_store GOOD 3 2 2 1)
           0%nat (example_generator GOOD 3 2 true) example_draws 3
           (example_init GOOD 3 2 2 1 true)).
  - cbn. discriminate.
  - cbn. lia.
  - cbn. lia.
  - lia.
Defined.

(** X9 -- Iterating a voxel generator.  For a generator built by
    [VoxelImageGenerator(config, False)], [for image, features in
    generator(n)] ends normally after exactly [n] pairs (none when [n] is
    negative), and each image has the shape [(batch, P, W, E)] of the
    resolution that the configuration held before the construction; after
    the loop every [__next__] raises the [StopIteration] of the internal
    generator. *)
Theorem voxel_for_in_call_yields_num_batches {dp : data_processing} :
  forall (st0 st : store) (c : ref) (v : VoxelImageGenerator.t)
         (rng : nat -> draws) (n : Z) (fuel k : nat),
    VoxelImageGenerator.__init__ st0 c false = (st, Ok v) ->
    (Z.to_nat n < fuel)%nat ->
    exists v' items,
      VoxelImageGenerator.for_in_call fuel st v n rng k
      = Some (v', items, None)
      /\ Z.of_nat (length items) = Z.max 0 n
      /\ Forall
           (fun item =>
              shape4 (fst item)
                (Config.batch_size (st0 c))
                (Resolution.phi (Config.resolution (st0 c)))
                (Resolution.Nw (Config.resolution (st0 c)))
                (Resolution.eta_sp (Config.resolution (st0 c))))
           items
      /\ (forall d, VoxelImageGenerator.__next__ st v' d
                    = (v', Raise StopIteration)).
Proof.
  intros st0 st c v rng n fuel k Hinit Hfuel.
  unfold VoxelImageGenerator.for_in_call.
  rewrite VoxelLoopFacts.iter_call_ready.
  destruct (Z.le_gt_cases 0 n) as [Hn|Hn].
  - destruct (VoxelLoopFacts.voxel_for_loop_counts st0 st c v rng n
                (Z.to_nat n) Hinit fuel 0%Z k Hn ltac:(f_equal; lia) Hfuel)
      as (items & Hloop & Hlen & Hall).
    do 2 eexists. split; [exact Hloop|].
    split; [lia|]. split; [exact Hall|].
    intros d. apply VoxelLoopFacts.voxel_next_exhausted. lia.
  - destruct fuel as [|fuel]; [lia|].
    cbn [VoxelImageGenerator.for_loop].
    rewrite VoxelLoopFacts.voxel_next_exhausted by lia.
    do 2 eexists. split; [reflexivity|].
    split; [cbn [length]; lia|]. split; [constructor|].
    intros d. apply VoxelLoopFacts.voxel_next_exhausted. lia.
Qed.

Lemma voxel_for_in_call_yields_num_batches_witness :
  exists v' items,
    VoxelImageGenerator.for_in_call (dp := spec_data_processing) 4
      (example_voxel_store GOOD 2 2 2 1)
      (example_voxel_generator GOOD 2 2 2 false) 3
      (fun _ => example_draws) 0
    = Some (v', items, None)
    /\ length items = 3%nat
    /\ Forall (fun item => shape4 (fst item) 1 2 2 2) items.
Proof.
  destruct (voxel_for_in_call_yields_num_batches (dp := spec_data_processing)
              (example_store GOOD 2 2 2 1) (example_voxel_store GOOD 2 2 2 1)
              0%nat (example_voxel_generator GOOD 2 2 2 false)
              (fun _ => example_draws) 3 4 0
              (example_voxel_init GOOD 2 2 2 1 false)
              ltac:(vm_compute; lia))
    as (v' & items & Hloop & Hlen & Hall & _).
  exists v', items. split; [exact Hloop|]. split; [lia | exact Hall].
Defined.

(** X10 -- A second voxel generator on the same configuration.  Building
    a second [VoxelImageGenerator] from the configuration object of a
    first one increments the shared resolution once more; from then on the
    first generator, whose axes have one point less than the configuration
    now says, raises [RuntimeError] in [__next__] (the surfaces cannot be
    reshaped), for any positive batch size. *)
Theorem second_voxel_generator_breaks_the_first {dp : data_processing} :
  forall (st0 st1 st2 : store) (c : ref) (v1 : VoxelImageGenerator.t)
         (strip2 : bool) (r2 : result VoxelImageGenerator.t)
         (n : Z) (d : draws),
    VoxelImageGenerator.__init__ st0 c false = (st1, Ok v1) ->
    VoxelImageGenerator.__init__ st1 c strip2 = (st2, r2) ->
    (0 < Config.batch_size (st0 c))%nat ->
    (0 < n)%Z ->
    exists v1',
      VoxelImageGenerator.__iter__ (VoxelImageGenerator.__call__ v1 n)
      = Ok v1'
      /\ Resolution.phi (Config.resolution (st2 c))
         = (Resolution.phi (Config.resolution (st0 c)) + 2)%nat
      /\ snd (VoxelImageGenerator.__next__ st2 v1' d) = Raise RuntimeError.
Proof.
  intros st0 st1 st2 c v1 strip2 r2 n d Hinit1 Hinit2 Hbatch Hn.
  destruct (VoxelLoopFacts.voxel_init_unfolded st0 st1 c v1 Hinit1)
    as (Hc & Hgv & Hres1 & Hbs1 & Hsg).
  destruct (voxel_init_inv st1 st2 c strip2 r2 Hinit2) as [Hst2 _].
  assert (Hres2 : Config.resolution (st2 c)
    = {| Resolution.phi := Resolution.phi (Config.resolution (st0 c)) + 1 + 1;
         Resolution.Nw := Resolution.Nw (Config.resolution (st0 c)) + 1 + 1;
         Resolution.eta_sp :=
           Resolution.eta_sp (Config.resolution (st0 c)) + 1 + 1 |}).
  { rewrite Hst2, store_set_same. cbn [Config.set_resolution Config.resolution].
    now rewrite Hres1. }
  assert (Hbs2 : Config.batch_size (st2 c) = Config.batch_size (st0 c)).
  { rewrite Hst2, store_set_same. cbn [Config.set_resolution Config.batch_size].
    exact Hbs1. }
  eexists. split; [apply VoxelLoopFacts.iter_call_ready|].
  split; [rewrite Hres2; cbn [Resolution.phi]; lia|].
  destruct (VoxelLoopFacts.next_batch_without_strip st1 st2 c _ d Hsg)
    as (F & features & Hnb).
  rewrite <- Hc in Hnb at 1.
  rewrite (VoxelLoopFacts.voxel_next_running st2 v1 _ n 0 d _ _ F features)
    by (lia || exact Hnb).
  cbn [snd]. rewrite Hc, Hres1, Hres2, Hbs2.
  cbn [Resolution.phi Resolution.Nw Resolution.eta_sp].
  unfold Voxel.image, Voxel.reshape_unit. cbv zeta.
  rewrite (length_flatten3 _ _ _ _ (shape3_tab3 _ _ _ F)).
  match goal with
  | |- context [(?a =? ?b)%nat] =>
      destruct (Nat.eqb_spec a b) as [Heq|Hne]; [exfalso; nia|]
  end.
  reflexivity.
Qed.

Lemma second_voxel_generator_breaks_the_first_witness :
  exists v1',
    VoxelImageGenerator.__iter__
      (VoxelImageGenerator.__call__
         (example_voxel_generator GOOD 2 2 2 false) 3)
    = Ok v1'
    /\ snd (VoxelImageGenerator.__next__ (dp := spec_data_processing)
              (fst (VoxelImageGenerator.__init__ (dp := spec_data_processing)
                      (example_voxel_store GOOD 2 2 2 1) 0%nat false))
              v1' example_draws)
       = Raise RuntimeError.
Proof.
  destruct (second_voxel_generator_breaks_the_first
              (dp := spec_data_processing)
              (example_store GOOD 2 2 2 1) (example_voxel_store GOOD 2 2 2 1)
              (fst (VoxelImageGenerator.__init__ (dp := spec_data_processing)
                      (example_voxel_store GOOD 2 2 2 1) 0%nat false))
              0%nat (example_voxel_generator GOOD 2 2 2 false) false
              (snd (VoxelImageGenerator.__init__ (dp := spec_data_processing)
                      (example_voxel_store GOOD 2 2 2 1) 0%nat false))
              3 example_draws
              (example_voxel_init GOOD 2 2 2 1 false)
              (surjective_pairing _)
              ltac:(cbn; lia) ltac:(lia))
    as (v1' & Hiter & _ & Hnext).
  exists v1'. split; [exact Hiter | exact Hnext].
Defined.

(** X11 -- A surface generator that shares its configuration.  Building
    a [VoxelImageGenerator] from the configuration object of an existing
    [SurfaceGenerator] without stripping does not change what that
    generator yields: [__next__] gives the same result before and after,
    although the shared resolution has been incremented. *)
Theorem voxel_init_keeps_surface_batches {dp : data_processing} :
  forall (st st' : store) (c : ref) (g : SurfaceGenerator.t)
         (strip_v : bool) (r : result VoxelImageGenerator.t)
         (n : Z) (d : draws),
    SurfaceGenerator.__init__ st c false = Ok g ->
    VoxelImageGenerator.__init__ st c strip_v = (st', r) ->
    Resolution.Nw (Config.resolution (st' c))
    = (Resolution.Nw (Config.resolution (st c)) + 1)%nat
    /\ SurfaceGenerator.__next__ st'
         (SurfaceGenerator.__iter__ (SurfaceGenerator.__call__ g n)) d
       = SurfaceGenerator.__next__ st
           (SurfaceGenerator.__iter__ (SurfaceGenerator.__call__ g n)) d.
Proof.
  intros st st' c g strip_v r n d Hinit Hvinit.
  destruct (init_inv st c false g Hinit)
    as (_ & _ & _ & _ & _ & _ & _ & _ & _ & Hc & Hstrip & _).
  split.
  { destruct (voxel_init_inv st st' c strip_v r Hvinit) as [-> _].
    now rewrite store_set_same. }
  destruct (Z.lt_ge_cases 0 n) as [Hn|Hn].
  - rewrite !(next_running _ _ d 0 n) by (reflexivity || lia).
    f_equal.
    apply (NextFacts.next_batch_after_voxel_init st st' c strip_v r);
      assumption.
  - now rewrite !(next_exhausted _ _ d 0 n) by (reflexivity || lia).
Qed.

Lemma voxel_init_keeps_surface_batches_witness :
  SurfaceGenerator.__next__ (dp := spec_data_processing)
    (example_voxel_store GOOD 2 2 2 1)
    (SurfaceGenerator.__iter__
       (SurfaceGenerator.__call__ (example_generator GOOD 2 2 false) 3))
    example_draws
  = SurfaceGenerator.__next__ (dp := spec_data_processing)
      (example_store GOOD 2 2 2 1)
      (SurfaceGenerator.__iter__
         (SurfaceGenerator.__call__ (example_generator GOOD 2 2 false) 3))
      example_draws.
Proof.
  apply (voxel_init_keeps_surface_batches (dp := spec_data_processing)
           (example_store GOOD 2 2 2 1) (example_voxel_store GOOD 2 2 2 1)
           0%nat (example_generator GOOD 2 2 false) false
           (Ok (example_voxel_generator GOOD 2 2 2 false)) 3 example_draws
           (example_init GOOD 2 2 2 1 false)
           (example_voxel_init GOOD 2 2 2 1 false)).
Defined.

(** X12 -- A stripping generator that shares its configuration.  A
    [SurfaceGenerator] with [strip_nw] on a square grid works until a
    [VoxelImageGenerator] is built from the same configuration object:
    the mask then has one entry more than the surfaces have rows, and
    [__next__] raises [IndexError] for any positive batch size. *)
Theorem voxel_init_breaks_stripping_generator {dp : data_processing} :
  forall (st st' : store) (c : ref) (g : SurfaceGenerator.t)
         (strip_v : bool) (r : result VoxelImageGenerator.t)
         (n : Z) (d : draws),
    SurfaceGenerator.__init__ st c true = Ok g ->
    Resolution.Nw (Config.resolution (st c))
      = Resolution.phi (Config.resolution (st c)) ->
    (0 < Resolution.Nw (Config.resolution (st c)))%nat ->
    (0 < Config.batch_size (st c))%nat ->
    (0 < n)%Z ->
    VoxelImageGenerator.__init__ st c strip_v = (st', r) ->
    (exists item,
        snd (SurfaceGenerator.__next__ st
               (SurfaceGenerator.__iter__ (SurfaceGenerator.__call__ g n)) d)
        = Ok item)
    /\ snd (SurfaceGenerator.__next__ st'
              (SurfaceGenerator.__iter__ (SurfaceGenerator.__call__ g n)) d)
       = Raise IndexError.
Proof.
  intros st st' c g strip_v r n d Hinit Hsq HNw Hbatch Hn Hvinit.
  split.
  - rewrite (next_running st _ d 0 n) by (reflexivity || lia).
    cbn [snd].
    apply (generates_set_index st _ 0), (generates_set_num_batches st g n).
    now apply (generates_with_strip st st c g Hinit).
  - destruct (voxel_init_inv st st' c strip_v r Hvinit) as [Hst _].
    rewrite (NextFacts.next_strip_mismatch st st' c g d n Hinit);
      [reflexivity | | | | assumption];
      rewrite Hst, store_set_same;
      cbn [Config.set_resolution Config.resolution Config.batch_size
           Resolution.Nw]; lia.
Qed.

Lemma voxel_init_breaks_stripping_generator_witness :
  (exists item,
      snd (SurfaceGenerator.__next__ (dp := spec_data_processing)
             (example_store GOOD 2 2 2 1)
             (SurfaceGenerator.__iter__
                (SurfaceGenerator.__call__ (example_generator GOOD 2 2 true) 3))
             example_draws)
      = Ok item)
  /\ snd (SurfaceGenerator.__next__ (dp := spec_data_processing)
            (example_voxel_store GOOD 2 2 2 1)
            (SurfaceGenerator.__iter__
               (SurfaceGenerator.__call__ (example_generator GOOD 2 2 true) 3))
            example_draws)
     = Raise IndexError.
Proof.
  apply (voxel_init_breaks_stripping_generator (dp := spec_data_processing)
           (example_store GOOD 2 2 2 1) (example_voxel_store GOOD 2 2 2 1)
           0%nat (example_generator GOOD 2 2 true) false
           (Ok (example_voxel_generator GOOD 2 2 2 false)) 3 example_draws
           (example_init GOOD 2 2 2 1 true)).
  - reflexivity.
  - cbn. lia.
  - cbn. lia.
  - lia.
  - apply (example_voxel_init GOOD 2 2 2 1 false).
Defined.

(** X13 -- Occupied bins are contiguous.  When the bin edges are sorted,
    the bins that a cell [(b, p, w)] of the image occupies form a
    contiguous run: a bin between two occupied bins is occupied. *)
Theorem occupied_bins_are_contiguous :
  forall (batch P W : nat) (grid_values : list R) (surfaces : tensor3 R)
         (b p w e1 e2 e3 : nat),
    shape3 surfaces batch P W ->
    (forall i j, (i <= j)%nat -> (j < length grid_values)%nat ->
                 nth i grid_values 0 <= nth j grid_values 0) ->
    (b < batch)%nat -> (p < P - 1)%nat -> (w < W - 1)%nat ->
    (e1 <= e2)%nat -> (e2 <= e3)%nat -> (e3 < length grid_values - 1)%nat ->
    exists image,
      Voxel.image R 0 Rltb batch P W (length grid_values) grid_values surfaces
      = Ok image
      /\ (get4 image b p w e1 = Some 1%Z ->
          get4 image b p w e3 = Some 1%Z ->
          get4 image b p w e2 = Some 1%Z).
Proof.
  intros batch P W grid surfaces b p w e1 e2 e3
         Hs Hsorted Hb Hp Hw H12 H23 H3.
  destruct (NextFacts.image_get4 batch P W grid surfaces b p w e1
              Hs Hb Hp Hw ltac:(lia)) as (image & Himg & _ & _ & Hg1).
  destruct (NextFacts.image_get4 batch P W grid surfaces b p w e2
              Hs Hb Hp Hw ltac:(lia)) as (image2 & Himg2 & _ & _ & Hg2).
  destruct (NextFacts.image_get4 batch P W grid surfaces b p w e3
              Hs Hb Hp Hw ltac:(lia)) as (image3 & Himg3 & _ & _ & Hg3).
  rewrite Himg in Himg2, Himg3.
  injection Himg2 as <-. injection Himg3 as <-.
  exists image. split; [exact Himg|].
  rewrite Hg1, Hg2, Hg3. intros [= H1] [= H3'].
  apply NextFacts.b2z_and_1 in H1 as [H1a _].
  apply NextFacts.b2z_and_1 in H3' as [_ H3b].
  apply Rltb_lt in H1a, H3b.
  pose proof (Hsorted (S e1) (S e2) ltac:(lia) ltac:(lia)) as Hup.
  pose proof (Hsorted e2 e3 ltac:(lia) ltac:(lia)) as Hlo.
  rewrite !Rltb_true by lra. reflexivity.
Qed.

Lemma occupied_bins_are_contiguous_witness :
  exists image,
    Voxel.image R 0 Rltb 1 2 2 4 [1; 2; 3; 4] [[[1.5; 1.5]; [1.5; 3.5]]]
    = Ok image
    /\ (get4 image 0 0 0 0 = Some 1%Z ->
        get4 image 0 0 0 2 = Some 1%Z ->
        get4 image 0 0 0 1 = Some 1%Z).
Proof.
  apply (occupied_bins_are_contiguous 1 2 2 [1; 2; 3; 4]
           [[[1.5; 1.5]; [1.5; 3.5]]] 0 0 0 0 1 2).
  - split; [reflexivity|]. repeat constructor.
  - intros i j Hij Hj. cbn [length] in Hj.
    destruct j as [|[|[|[|j]]]]; [| | | |lia];
      destruct i as [|[|[|[|i]]]]; try lia; cbn [nth]; lra.
  - lia.
  - cbn; lia.
  - cbn; lia.
  - lia.
  - lia.
  - cbn; lia.
Defined.

(** X14 -- No cell is missed.  When a cell [(b, p, w)] has its
    lower-corner value strictly below its upper-corner value, with the
    upper corner above the first bin edge and the lower corner below the
    last one, the cell occupies at least one bin, whatever the order of
    the edges in between. *)
Theorem increasing_cell_occupies_a_bin :
  forall (batch P W : nat) (grid_values : list R) (surfaces : tensor3 R)
         (b p w : nat) (lower upper : R),
    shape3 surfaces batch P W ->
    (b < batch)%nat -> (p < P - 1)%nat -> (w < W - 1)%nat ->
    (2 <= length grid_values)%nat ->
    get3 surfaces b p w = Some lower ->
    get3 surfaces b (p + 1) (w + 1) = Some upper ->
    lower < upper ->
    nth 0 grid_values 0 < upper ->
    lower < nth (length grid_values - 1) grid_values 0 ->
    exists image e,
      Voxel.image R 0 Rltb batch P W (length grid_values) grid_values surfaces
      = Ok image
      /\ (e < length grid_values - 1)%nat
      /\ get4 image b p w e = Some 1%Z.
Proof.
  intros batch P W grid surfaces b p w lower upper
         Hs Hb Hp Hw Hlen Hlower Hupper Hlu Hfirst Hlast.
  destruct (NextFacts.first_edge_above grid lower (length grid - 2))
    as (e & He & Habove & Hmin).
  { replace (S (length grid - 2)) with (length grid - 1)%nat by lia.
    exact Hlast. }
  destruct (NextFacts.image_get4 batch P W grid surfaces b p w e
              Hs Hb Hp Hw ltac:(lia)) as (image & Himg & Hl & Hu & Hget).
  rewrite Hlower in Hl. injection Hl as Hl.
  rewrite Hupper in Hu. injection Hu as Hu.
  exists image, e. split; [exact Himg|]. split; [lia|].
  rewrite Hget, <- Hl, <- Hu.
  rewrite (Rltb_true lower) by assumption.
  rewrite Rltb_true; [reflexivity|].
  destruct Hmin as [-> | Hmin]; lra.
Qed.

Lemma increasing_cell_occupies_a_bin_witness :
  exists image e,
    Voxel.image R 0 Rltb 1 2 2 4 [1; 2; 3; 4] [[[1.5; 1.5]; [1.5; 3.5]]]
    = Ok image
    /\ (e < 3)%nat
    /\ get4 image 0 0 0 e = Some 1%Z.
Proof.
  apply (increasing_cell_occupies_a_bin 1 2 2 [1; 2; 3; 4]
           [[[1.5; 1.5]; [1.5; 3.5]]] 0 0 0 1.5 3.5).
  - split; [reflexivity|]. repeat constructor.
  - lia.
  - cbn; lia.
  - cbn; lia.
  - cbn; lia.
  - reflexivity.
  - reflexivity.
  - lra.
  - cbn [nth]; lra.
  - cbn [nth length Nat.sub]; lra.
Defined.


(** X16 -- How many rows the stripping keeps.  With [strip_nw] enabled on
    a square grid, each batch element of the yielded surfaces keeps
    between one and eight of its concentration rows, the distinct indices
    among its eight draws; every other row is 0 for all chain lengths. *)
Theorem strip_keeps_one_to_eight_rows {dp : data_processing} :
  forall (st st' : store) (c : ref) (g : SurfaceGenerator.t) (d : draws)
         (n : Z) (b : nat),
    SurfaceGenerator.__init__ st c true = Ok g ->
    Resolution.Nw (Config.resolution (st' c))
      = Resolution.phi (Config.resolution (st c)) ->
    (0 < Resolution.phi (Config.resolution (st c)))%nat ->
    (0 < n)%Z ->
    (b < Config.batch_size (st' c))%nat ->
    exists generated features out kept,
      SurfaceGenerator.call_generation_function st' g d
      = Ok (generated, features)
      /\ snd (SurfaceGenerator.__next__ st'
                (SurfaceGenerator.__iter__ (SurfaceGenerator.__call__ g n)) d)
         = Ok (out, features)
      /\ NoDup kept
      /\ (1 <= length kept <= 8)%nat
      /\ (forall p, In p kept ->
                    (p < Resolution.phi (Config.resolution (st c)))%nat)
      /\ (forall p w,
            (p < Resolution.phi (Config.resolution (st c)))%nat ->
            (w < Resolution.Nw (Config.resolution (st c)))%nat ->
            get3 out b p w
            = if in_dec Nat.eq_dec p kept then get3 generated b p w
              else Some 0).
Proof.
  intros st st' c g d n b Hinit Hsq HP Hn Hb.
  destruct (NextFacts.next_strip_square st st' c g d n Hinit Hsq HP Hn)
    as (F & features & Hgen & Hnext).
  destruct (NextFacts.drawn_rows d
              (Resolution.phi (Config.resolution (st c))) b HP)
    as (Hnd & Hlen & Hin).
  do 3 eexists.
  exists (filter (Strip.drawn d (Resolution.phi (Config.resolution (st c))) b)
            (seq 0 (Resolution.phi (Config.resolution (st c))))).
  split; [exact Hgen|].
  split; [rewrite Hnext; reflexivity|].
  split; [exact Hnd|]. split; [exact Hlen|].
  split; [intros p Hp; now apply Hin in Hp|].
  intros p w Hp Hw. rewrite !get3_tab3 by assumption.
  destruct (in_dec Nat.eq_dec p _) as [Hk|Hk].
  - apply Hin in Hk as [_ ->]. reflexivity.
  - destruct (Strip.drawn d _ b p) eqn:Hd; [|reflexivity].
    exfalso. apply Hk, Hin. now split.
Qed.

Lemma strip_keeps_one_to_eight_rows_witness :
  exists generated features out kept,
    snd (SurfaceGenerator.__next__ (dp := spec_data_processing)
           (example_store GOOD 2 2 2 1)
           (SurfaceGenerator.__iter__
              (SurfaceGenerator.__call__ (example_generator GOOD 2 2 true) 3))
           example_draws)
    = Ok (out, features)
    /\ (1 <= length kept <= 8)%nat
    /\ (forall p w, (p < 2)%nat -> (w < 2)%nat ->
          get3 out 0 p w
          = if in_dec Nat.eq_dec p kept then get3 generated 0 p w
            else Some 0).
Proof.
  destruct (strip_keeps_one_to_eight_rows (dp := spec_data_processing)
              (example_store GOOD 2 2 2 1) (example_store GOOD 2 2 2 1)
              0%nat (example_generator GOOD 2 2 true) example_draws 3 0
              (example_init GOOD 2 2 2 1 true) eq_refl
              ltac:(vm_compute; lia) ltac:(lia) ltac:(vm_compute; lia))
    as (generated & features & out & kept & _ & Hnext & _ & Hlen & _ & Hget).
  exists generated, features, out, kept.
  split; [exact Hnext|]. split; [exact Hlen | exact Hget].
Defined.

(** X17 -- Calls out of order on a voxel generator.  On a generator as
    [VoxelImageGenerator] builds it, [iter] raises [AttributeError] (there
    is no [num_batches] before a call), and so does [__next__], also after
    [generator(n)] without [iter]; the generator is left as it was. *)
Theorem voxel_out_of_order_raises_AttributeError {dp : data_processing} :
  forall (st0 st st' : store) (c : ref) (strip : bool)
         (v : VoxelImageGenerator.t) (d : draws) (n : Z),
    VoxelImageGenerator.__init__ st0 c strip = (st, Ok v) ->
    VoxelImageGenerator.__iter__ v = Raise AttributeError
    /\ VoxelImageGenerator.__next__ st' v d = (v, Raise AttributeError)
    /\ VoxelImageGenerator.__next__ st' (VoxelImageGenerator.__call__ v n) d
       = (VoxelImageGenerator.__call__ v n, Raise AttributeError).
Proof.
  intros st0 st st' c strip v d n Hinit.
  destruct (voxel_init_inv st0 st c strip (Ok v) Hinit) as [_ Hv].
  destruct (Hv v eq_refl) as (grid & _ & _ & _ & _ & _ & Hnb & Hit).
  unfold VoxelImageGenerator.__iter__, VoxelImageGenerator.__next__,
    VoxelImageGenerator.__call__.
  cbn [VoxelImageGenerator.set_num_batches
       VoxelImageGenerator._surface_generator_iter].
  rewrite Hnb, Hit. repeat split.
Qed.

Lemma voxel_out_of_order_raises_AttributeError_witness :
  VoxelImageGenerator.__iter__ (example_voxel_generator GOOD 2 2 2 false)
  = Raise AttributeError
  /\ VoxelImageGenerator.__next__ (dp := spec_data_processing)
       (example_voxel_store GOOD 2 2 2 1)
       (VoxelImageGenerator.__call__
          (example_voxel_generator GOOD 2 2 2 false) 3)
       example_draws
     = (VoxelImageGenerator.__call__
          (example_voxel_generator GOOD 2 2 2 false) 3,
        Raise AttributeError).
Proof.
  destruct (voxel_out_of_order_raises_AttributeError
              (dp := spec_data_processing)
              (example_store GOOD 2 2 2 1) (example_voxel_store GOOD 2 2 2 1)
              (example_voxel_store GOOD 2 2 2 1) 0%nat false
              (example_voxel_generator GOOD 2 2 2 false) example_draws 3
              (example_voxel_init GOOD 2 2 2 1 false))
    as (Hiter & _ & Hnext).
  split; [exact Hiter | exact Hnext].
Defined.

End Extras.
